(** * Twelvety service functions: validate, build, build-status

    A shallow embedding of the three request handlers of the repository
    (functions validate.js, build.js and build-status.js) together with the
    properties of their request/response behaviour, and of two of its
    scripts: the generator of the search index and the test of the example
    files.

    JavaScript strings are sequences of UTF-16 code units, JSON values are
    the values [JSON.parse] produces, a property that evaluates to
    [undefined] is [None].  The handlers run in a small state-and-exception
    monad over a [World] that holds the DynamoDB table, the source of fresh
    identifiers, the clock and the list of requests sent to external
    services.  What the libraries and services answer is a parameter
    ([Env]).  Console output is not modelled; the conversions to a string
    made for it, which can throw, are. *)

From stdpp Require Import gmap list.
From Stdlib Require Import ZArith Ascii.
From Stdlib Require String DecimalString.
Import String.StringSyntax.

Local Open Scope Z_scope.
Local Open Scope list_scope.
Local Open Scope string_scope.

(** ** JavaScript strings *)

Module JS.

(** A string is the list of its UTF-16 code units. *)
Definition jsstring : Type := list N.

(** ASCII literal to code units. *)
Definition js (s : String.string) : jsstring :=
  map N_of_ascii (String.list_ascii_of_string s).

(** ECMAScript [\s]: WhiteSpace and LineTerminator code points. *)
Definition is_space (c : N) : bool :=
  ((9 <=? c) && (c <=? 13) || (c =? 32) || (c =? 160) || (c =? 5760)
   || (8192 <=? c) && (c <=? 8202) || (c =? 8232) || (c =? 8233)
   || (c =? 8239) || (c =? 8287) || (c =? 12288) || (c =? 65279))%N.

(** [s.split(sep)] for a separator of one code unit: the pieces between
    the occurrences of [sep]; the empty string gives one empty piece. *)
Fixpoint split_char (sep : N) (s : jsstring) : list jsstring :=
  match s with
  | [] => [[]]
  | c :: s' =>
      if (c =? sep)%N then [] :: split_char sep s'
      else match split_char sep s' with
           | piece :: rest => (c :: piece) :: rest
           | [] => [[c]]
           end
  end.

(** [s.split(/\s+/)]: the pieces between the maximal runs of whitespace.
    A run at the start or at the end leaves an empty piece there, and the
    empty string gives one empty piece. *)
Fixpoint split_spaces (s : jsstring) : list jsstring :=
  match s with
  | [] => [[]]
  | c :: s' =>
      if is_space c then
        match s' with
        | [] => [[]; []]
        | c' :: _ => if is_space c' then split_spaces s'
                     else [] :: split_spaces s'
        end
      else match split_spaces s' with
           | piece :: rest => (c :: piece) :: rest
           | [] => [[c]]
           end
  end.

(** [a.pop()] on a fresh array: its last element, [undefined] if empty. *)
Definition pop {A : Type} (a : list A) : option A := last a.

(** A string is truthy when it is not empty. *)
Definition nonempty (s : jsstring) : bool :=
  match s with [] => false | _ :: _ => true end.

(** [Math.ceil(n / d)] for a non-negative integer [n] and [d = 200]: the
    quotient is exact when [d] divides [n] and otherwise lies at least
    [1/d] away from an integer, so the rounding of the division does not
    move the ceiling for any array length. *)
Definition ceil_div (n d : Z) : Z := (n + d - 1) / d.

(** ** JSON values *)

(** The number a JSON text denotes: an integer, or a fraction [n/d] in
    lowest terms with [d] at least 2.  An integer is written as it is. *)
Inductive number : Type :=
| Integer (z : Z)
| Fraction (n : Z) (d : positive).

Coercion Integer : Z >-> number.

#[warnings="-register-all"]
Inductive json : Type :=
| JNull
| JBool (b : bool)
| JNum (x : number)
| JStr (s : jsstring)
| JArr (elems : list json)
| JObj (props : list (jsstring * json)).

(** A JavaScript value: [None] is [undefined]. *)
Definition value : Type := option json.

(** ToBoolean. *)
Definition truthy (v : value) : bool :=
  match v with
  | None | Some JNull => false
  | Some (JBool b) => b
  | Some (JNum (Integer z)) => negb (z =? 0)
  | Some (JNum (Fraction _ _)) => true
  | Some (JStr s) => nonempty s
  | Some (JArr _) | Some (JObj _) => true
  end.

(** [a || b]. *)
Definition or_else (a : value) (b : json) : json :=
  match a with
  | Some v => if truthy a then v else b
  | None => b
  end.

Fixpoint assoc (k : jsstring) (props : list (jsstring * json)) : value :=
  match props with
  | [] => None
  | (k', v) :: rest => if decide (k = k') then Some v else assoc k rest
  end.

(** [v.k] for a value that is not null: own properties of an object;
    the other JSON values have none of the names the handlers read. *)
Definition prop (v : json) (k : jsstring) : value :=
  match v with
  | JObj props => assoc k props
  | _ => None
  end.

(** [v?.k]. *)
Definition opt_prop (v : value) (k : jsstring) : value :=
  match v with
  | None | Some JNull => None
  | Some j => prop j k
  end.

(** [v.length]. *)
Definition length_of (v : json) : value :=
  match v with
  | JStr s => Some (JNum (Z.of_nat (length s)))
  | JArr l => Some (JNum (Z.of_nat (length l)))
  | JObj props => assoc (js "length") props
  | _ => None
  end.

(** [v === s] for a string literal [s]. *)
Definition is_str (v : value) (s : jsstring) : bool :=
  match v with
  | Some (JStr s') => bool_decide (s' = s)
  | _ => false
  end.

Definition dec_str (z : Z) : jsstring :=
  js (DecimalString.NilZero.string_of_int (Z.to_int z)).

Definition join_with (sep : jsstring) (parts : list jsstring) : jsstring :=
  match parts with
  | [] => []
  | p :: ps => p ++ concat (map (fun q => sep ++ q) ps)
  end.

(** ToString, as template literals and [Array.prototype.join] apply it.
    An object parsed from JSON has no callable property: with a property
    [toString] of its own, neither that nor [valueOf] gives a primitive and
    the conversion throws a TypeError; without one,
    [Object.prototype.toString] answers.  An array is the join of its
    elements with [,], [null] counting as the empty string, and throws when
    the conversion of an element does. *)
Fixpoint throws_on (v : json) : bool :=
  match v with
  | JArr l => existsb throws_on l
  | JObj props =>
      match assoc (js "toString") props with
      | Some _ => true
      | None => false
      end
  | _ => false
  end.

(** The string ToString gives when it does not throw; [num] is
    Number::toString, the engine's printing of a number. *)
Fixpoint string_of (num : number -> jsstring) (v : json) : jsstring :=
  match v with
  | JNull => js "null"
  | JBool true => js "true"
  | JBool false => js "false"
  | JNum x => num x
  | JStr s => s
  | JArr l =>
      join_with (js ",")
        (map (fun e => match e with JNull => [] | _ => string_of num e end) l)
  | JObj _ => js "[object Object]"
  end.

(** ToString; [None] is the TypeError. *)
Definition to_string (num : number -> jsstring) (v : json)
  : option jsstring :=
  if throws_on v then None else Some (string_of num v).

Definition to_string_v (num : number -> jsstring) (v : value)
  : option jsstring :=
  match v with
  | None => Some (js "undefined")
  | Some j => to_string num j
  end.

Definition string_of_v (num : number -> jsstring) (v : value) : jsstring :=
  match v with
  | None => js "undefined"
  | Some j => string_of num j
  end.

(** ToString does not throw. *)
Definition converts (v : value) : bool :=
  match v with
  | None => true
  | Some j => negb (throws_on j)
  end.

(** The argument of [JSON.stringify({...})]: properties whose value is
    [undefined] are left out. *)
Definition present (fields : list (jsstring * value))
  : list (jsstring * json) :=
  omap (fun '(k, v) => (fun j => (k, j)) <$> v) fields.

Definition object (fields : list (jsstring * value)) : json :=
  JObj (present fields).

End JS.
Export JS.

(** ** The world outside the handlers *)

Module Sys.

(** A thrown [Error]. *)
Record Error : Type := { message : jsstring; stack : jsstring }.

(** The [TypeError] of a property read on [undefined] or [null], of a call
    of something that is not a function, of the conversion to a string of
    an object that has no primitive value, and of [Buffer.from] on a value
    it does not accept (the engine's wording of the message is not
    modelled). *)
Definition type_error : Error :=
  {| message := js "TypeError"; stack := [] |}.

Inductive outcome (A : Type) : Type :=
| Ok (a : A)
| Throw (e : Error).
Arguments Ok {A} a.
Arguments Throw {A} e.

(** A DynamoDB item: the attributes of the plain object the DocumentClient
    takes and returns. *)
Definition Item : Type := list (jsstring * json).

(** Octokit routes the handlers call. *)
Inductive Route : Type :=
| GitGetRef
| GitCreateRef
| ReposGetContent
| ReposCreateOrUpdateFileContents
| ActionsCreateWorkflowDispatch
| ActionsListWorkflowRunsForRepo.

(** Requests sent to external services. *)
Inductive Call : Type :=
| DynamoGet (table_name : jsstring) (key : jsstring)
| DynamoPut (table_name : jsstring) (item : Item)
| Octokit (route : Route) (params : json)
| Fetch (url : json).

Definition is_octokit (c : Call) : bool :=
  match c with Octokit _ _ => true | _ => false end.

Definition is_fetch (c : Call) : bool :=
  match c with Fetch _ => true | _ => false end.

Definition is_dynamo_write (c : Call) : bool :=
  match c with DynamoPut _ _ => true | _ => false end.

(** The state threaded through a handler: the rows of the table named by
    AWS_DYNAMODB_TABLE (keyed by the [buildId] attribute), how many
    identifiers [uuidv4] has handed out, the clock in milliseconds, and the
    requests sent so far, oldest first. *)
Record World : Type := {
  table : gmap jsstring Item;
  uuid_ctr : nat;
  now : Z;
  calls : list Call
}.

Inductive EnvVar : Type :=
| AWS_DYNAMODB_TABLE | AWS_BUCKET_NAME
| GITHUB_ORG | GITHUB_OWNER | GITHUB_REPO
| SITE_URL | SERVICE_URL | NODE_ENV.

(** The result of [fetch(url)]: [ok], [status] and what [.json()] gives. *)
Record FetchResponse : Type := {
  ok : bool;
  status : Z;
  json_body : outcome json
}.

(** One entry of [validate.errors] (Ajv's ErrorObject). *)
Record ErrorObject : Type := {
  instancePath : jsstring;
  schemaPath : jsstring;
  keyword : jsstring;
  params : json;
  err_message : value
}.

(** What a compiled validator says about a value: [true], or [false] with
    [validate.errors] set. *)
Inductive Verdict : Type :=
| Valid
| Invalid (errors : list ErrorObject).

(** Configuration and the behaviour of the libraries and services the
    handlers call: [process.env], gray-matter, markdown-it, Ajv, [fetch],
    Octokit, the failures of the DynamoDB client,
    [Buffer.from(v).toString('base64')], [uuidv4] (the [n]-th identifier it
    hands out), [Date.prototype.toISOString] and Number::toString. *)
Record Env : Type := {
  getenv : EnvVar -> option jsstring;
  matter : json -> outcome (json * jsstring);
  md_render : jsstring -> outcome jsstring;
  ajv_compile : json -> outcome (json -> Verdict);
  fetch : World -> json -> outcome FetchResponse;
  octokit : World -> Route -> json -> outcome json;
  dynamo_fault : World -> Call -> option Error;
  buffer_base64 : json -> outcome jsstring;
  uuidv4 : nat -> jsstring;
  toISOString : Z -> jsstring;
  number_to_string : number -> jsstring
}.

(** ** The handler monad: state and exceptions *)

Definition M (A : Type) : Type := World -> World * outcome A.

Definition ret {A : Type} (a : A) : M A := fun w => (w, Ok a).

Definition throw {A : Type} (e : Error) : M A := fun w => (w, Throw e).

Definition bind {A B : Type} (m : M A) (k : A -> M B) : M B :=
  fun w =>
    match m w with
    | (w', Ok a) => k a w'
    | (w', Throw e) => (w', Throw e)
    end.

(** [try { m } catch (err) { h err }]. *)
Definition try_catch {A : Type} (m : M A) (h : Error -> M A) : M A :=
  fun w =>
    match m w with
    | (w', Ok a) => (w', Ok a)
    | (w', Throw e) => h e w'
    end.

Definition lift {A : Type} (o : outcome A) : M A := fun w => (w, o).

Definition record_call (c : Call) : M unit :=
  fun w => ({| table := table w; uuid_ctr := uuid_ctr w; now := now w;
               calls := calls w ++ [c] |}, Ok tt).

Definition get_world : M World := fun w => (w, Ok w).

Declare Scope js_scope.
Delimit Scope js_scope with js.
Notation "x <- m ;; k" := (bind m (fun x => k))
  (at level 100, m at next level, right associativity) : js_scope.
Notation "m ;;; k" := (bind m (fun _ => k))
  (at level 100, right associativity) : js_scope.
Local Open Scope js_scope.

(** [v.k] where [v] may be [undefined] or [null]: a TypeError then. *)
Definition member (v : value) (k : jsstring) : M value :=
  match v with
  | None | Some JNull => throw type_error
  | Some j => ret (prop j k)
  end.

(** [`${v}`] in a template literal: ToString of [v]. *)
Definition template (E : Env) (v : value) : M jsstring :=
  match to_string_v (number_to_string E) v with
  | Some s => ret s
  | None => throw type_error
  end.

Definition env_truthy (v : option jsstring) : bool :=
  match v with Some s => nonempty s | None => false end.

Definition env_value (v : option jsstring) : value := JStr <$> v.

(** *** DynamoDB DocumentClient *)

(** [dynamodb.get({TableName, Key: {buildId}}).promise()]: [result.Item]. *)
Definition dynamodb_get (E : Env) (tbl key : jsstring) : M (option Item) :=
  w <- get_world ;;
  record_call (DynamoGet tbl key) ;;;
  match dynamo_fault E w (DynamoGet tbl key) with
  | Some e => throw e
  | None => ret (table w !! key)
  end.

(** [dynamodb.put({TableName, Item}).promise()] for an item whose key
    attribute is [key]. *)
Definition dynamodb_put (E : Env) (tbl key : jsstring) (item : Item) : M unit :=
  w <- get_world ;;
  record_call (DynamoPut tbl item) ;;;
  match dynamo_fault E w (DynamoPut tbl item) with
  | Some e => throw e
  | None => fun w => ({| table := <[key := item]> (table w);
                         uuid_ctr := uuid_ctr w; now := now w;
                         calls := calls w |}, Ok tt)
  end.

(** *** Octokit, fetch, uuid, clock *)

Definition octokit_call (E : Env) (r : Route) (params : json) : M json :=
  w <- get_world ;;
  record_call (Octokit r params) ;;;
  lift (octokit E w r params).

Definition fetch_call (E : Env) (url : json) : M FetchResponse :=
  w <- get_world ;;
  record_call (Fetch url) ;;;
  lift (fetch E w url).

Definition fresh_uuid (E : Env) : M jsstring :=
  fun w => ({| table := table w; uuid_ctr := S (uuid_ctr w); now := now w;
               calls := calls w |}, Ok (uuidv4 E (uuid_ctr w))).

Definition date_now : M Z := fun w => (w, Ok (now w)).

End Sys.
Export Sys.

(** ** Requests and responses *)

Module Http.

(** The fields of the Lambda/Netlify event the handlers read.
    [parsed_body] is what [JSON.parse(event.body)] gives; [host] is
    [event.headers.host], a string when the header is there
    ([event.headers] is always an object, and [event.path] always a
    string, in these events). *)
Record Event : Type := {
  httpMethod : jsstring;
  path : jsstring;
  parsed_body : outcome json;
  host : option jsstring
}.

(** A response body: [''] or [JSON.stringify] of an object. *)
Inductive Body : Type :=
| Empty
| Stringify (j : json).

Record Response : Type := {
  statusCode : Z;
  headers : list (jsstring * jsstring);
  body : Body
}.

Definition cors_headers (allow_headers methods : String.string)
  : list (jsstring * jsstring) :=
  [ (js "Access-Control-Allow-Origin", js "*");
    (js "Access-Control-Allow-Headers", js allow_headers);
    (js "Access-Control-Allow-Methods", js methods);
    (js "Content-Type", js "application/json") ].

(** A property of the response's JSON body. *)
Definition field (r : Response) (k : String.string) : value :=
  match body r with
  | Stringify j => prop j (js k)
  | Empty => None
  end.

Definition is_method (ev : Event) (m : String.string) : bool :=
  bool_decide (httpMethod ev = js m).

End Http.
Export Http.

Local Open Scope js_scope.

(** ** validate.js: POST /api/validate

    Source: src/unnamed/part_003, lines 1 to 161. *)

Module Validate.

Definition headers : list (jsstring * jsstring) :=
  cors_headers "Content-Type" "POST, OPTIONS".

Definition reply (code : Z) (fields : list (jsstring * value)) : Response :=
  {| statusCode := code; Http.headers := headers;
     body := Stringify (object fields) |}.

Fixpoint starts_with (p s : jsstring) : bool :=
  match p, s with
  | [], _ => true
  | _ :: _, [] => false
  | a :: p', b :: s' => (a =? b)%N && starts_with p' s'
  end.

(** [s.includes(p)], which is what [/p/.test(s)] is for a literal [p]. *)
Fixpoint includes (p s : jsstring) : bool :=
  match s with
  | [] => starts_with p []
  | _ :: s' => starts_with p s || includes p s'
  end.

(** [content.split(/\s+/).filter(w => w.length > 0).length] *)
Definition wordCount (content : jsstring) : Z :=
  Z.of_nat (length (List.filter (fun w => (0 <? length w)%nat)
                                (split_spaces content))).

(** [Math.ceil(wordCount / 200)] *)
Definition readingTime (content : jsstring) : Z :=
  ceil_div (wordCount content) 200.

(** The [try { matter(markdown) } catch (err) { return 422 }] block:
    the early response, or [parsed.data] and [parsed.content]. *)
Definition parse_frontmatter (E : Env) (markdown : json)
  : M (Response + json * jsstring) :=
  try_catch
    (parsed <- lift (matter E markdown) ;; ret (inr parsed))
    (fun err =>
       ret (inl (reply 422
         [ (js "status", Some (JStr (js "invalid")));
           (js "errors", Some (JArr [ object
              [ (js "path", Some (JStr (js "frontmatter")));
                (js "message",
                 Some (JStr (js "Invalid YAML frontmatter syntax")));
                (js "line", Some (JNum 1));
                (js "details", Some (JStr (message err))) ] ])) ]))).

(** The [try { fetch(schemaUrl) ... } catch (err) { return 400 }] block. *)
Definition fetch_schema (E : Env) (schemaUrl : json) : M (Response + json) :=
  try_catch
    (schemaResponse <- fetch_call E schemaUrl ;;
     (if ok schemaResponse then ret tt
      else throw {| message := js "Schema fetch failed: "
                                 ++ dec_str (status schemaResponse);
                    stack := [] |}) ;;;
     schema <- lift (json_body schemaResponse) ;;
     ret (inr schema))
    (fun err =>
       ret (inl (reply 400
         [ (js "error", Some (JStr (js "Failed to fetch schema")));
           (js "details", Some (JStr (message err))) ]))).

(** One entry of the 422 response for an entry of [validate.errors]. *)
Definition error_entry (err : ErrorObject) : json :=
  object
    [ (js "path", Some (JStr (if nonempty (instancePath err)
                              then instancePath err else schemaPath err)));
      (js "message", err_message err);
      (js "keyword", Some (JStr (keyword err)));
      (js "params", Some (params err)) ].

(** The [if (schemaUrl) { ... }] block: an early response or nothing. *)
Definition check_schema (E : Env) (schemaUrl : value) (frontmatter : json)
  : M (option Response) :=
  match schemaUrl with
  | Some url =>
      if truthy schemaUrl then
        fetched <- fetch_schema E url ;;
        match fetched with
        | inl early => ret (Some early)
        | inr schema =>
            validate <- lift (ajv_compile E schema) ;;
            match validate frontmatter with
            | Valid => ret None
            | Invalid errors =>
                ret (Some (reply 422
                  [ (js "status", Some (JStr (js "invalid")));
                    (js "errors", Some (JArr (map error_entry errors))) ]))
            end
        end
      else ret None
  | None => ret None
  end.

Definition success (frontmatter : json) (content preview : jsstring)
  : Response :=
  reply 200
    [ (js "status", Some (JStr (js "valid")));
      (js "frontmatter", Some frontmatter);
      (js "content", Some (JStr content));
      (js "preview", Some (JStr preview));
      (js "metadata", Some (object
        [ (js "wordCount", Some (JNum (wordCount content)));
          (js "readingTime", Some (JNum (readingTime content)));
          (js "contentLength", Some (JNum (Z.of_nat (length content))));
          (js "hasImages", Some (JBool (includes (js "<img") content
                                        || includes (js "![") content)));
          (js "hasCode", Some (JBool (includes (js "```") content))) ])) ].

Definition handler (E : Env) (event : Event) : M Response :=
  if is_method event "OPTIONS" then
    ret {| statusCode := 200; Http.headers := headers; body := Empty |}
  else if negb (is_method event "POST") then
    ret (reply 405 [ (js "error", Some (JStr (js "Method not allowed"))) ])
  else
    try_catch
      (parsed <- lift (parsed_body event) ;;
       markdown <- member (Some parsed) (js "markdown") ;;
       schemaUrl <- member (Some parsed) (js "schemaUrl") ;;
       match markdown with
       | Some md =>
           if truthy markdown then
             fm <- parse_frontmatter E md ;;
             match fm with
             | inl early => ret early
             | inr (frontmatter, content) =>
                 checked <- check_schema E schemaUrl frontmatter ;;
                 match checked with
                 | Some early => ret early
                 | None =>
                     preview <- lift (md_render E content) ;;
                     ret (success frontmatter content preview)
                 end
             end
           else
             ret (reply 400
               [ (js "error", Some (JStr (js "Missing markdown content"))) ])
       | None =>
           ret (reply 400
             [ (js "error", Some (JStr (js "Missing markdown content"))) ])
       end)
      (fun error =>
         ret (reply 500
           [ (js "error", Some (JStr (js "Internal server error")));
             (js "message", Some (JStr (message error))) ])).

End Validate.

(** ** build.js: POST /api/build

    Source: src/unnamed/part_004. *)

Module Build.

Definition headers : list (jsstring * jsstring) :=
  cors_headers "Content-Type, Authorization" "POST, OPTIONS".

Definition reply (code : Z) (fields : list (jsstring * value)) : Response :=
  {| statusCode := code; Http.headers := headers;
     body := Stringify (object fields) |}.

(** [process.env.GITHUB_ORG || process.env.GITHUB_OWNER] *)
Definition github_owner (E : Env) : option jsstring :=
  if env_truthy (getenv E GITHUB_ORG) then getenv E GITHUB_ORG
  else getenv E GITHUB_OWNER.

(** The item of the [dynamodb.put]. *)
Definition build_item (buildId : jsstring) (projectId markdown : json)
    (metadata : value) (timestamp : jsstring) (title slug : json) (t : Z)
  : Item :=
  present
    [ (js "buildId", Some (JStr buildId));
      (js "projectId", Some projectId);
      (js "status", Some (JStr (js "queued")));
      (js "createdAt", Some (JStr timestamp));
      (js "authorEmail",
       Some (or_else (opt_prop metadata (js "author")) (JStr (js "unknown"))));
      (js "title", Some title);
      (js "slug", Some slug);
      (js "fileSize", length_of markdown);
      (js "ttl", Some (JNum (t / 1000 + 7 * 365 * 24 * 60 * 60))) ].

(** The [if (process.env.AWS_DYNAMODB_TABLE) { try { put } catch {} }]
    block: a failure of the put is logged and dropped. *)
Definition store_metadata (E : Env) (buildId : jsstring)
    (projectId markdown : json) (metadata : value) (timestamp : jsstring)
    (title slug : json) : M unit :=
  match getenv E AWS_DYNAMODB_TABLE with
  | Some tbl =>
      if nonempty tbl then
        try_catch
          (t <- date_now ;;
           dynamodb_put E tbl buildId
             (build_item buildId projectId markdown metadata timestamp
                title slug t))
          (fun _ => ret tt)
      else ret tt
  | None => ret tt
  end.

(** The [try { createWorkflowDispatch } catch {}] block. *)
Definition trigger_workflow (E : Env) (owner repo branchName buildId : jsstring)
    (projectId : json) : M unit :=
  try_catch
    (octokit_call E ActionsCreateWorkflowDispatch (object
       [ (js "owner", Some (JStr owner));
         (js "repo", Some (JStr repo));
         (js "workflow_id", Some (JStr (js "build.yml")));
         (js "ref", Some (JStr branchName));
         (js "inputs", Some (object
            [ (js "buildId", Some (JStr buildId));
              (js "projectId", Some projectId) ])) ]) ;;;
     ret tt)
    (fun _ => ret tt).

(** [`${event.headers.host}`] *)
Definition host_text (event : Event) : jsstring :=
  match host event with
  | Some h => h
  | None => js "undefined"
  end.

(** The 202 response. *)
Definition accepted (buildId branchName filePath serviceUrl : jsstring)
    (projectId title slug : json) (timestamp : jsstring) : Response :=
  reply 202
    [ (js "status", Some (JStr (js "queued")));
      (js "buildId", Some (JStr buildId));
      (js "projectId", Some projectId);
      (js "branchName", Some (JStr branchName));
      (js "filePath", Some (JStr filePath));
      (js "estimatedTime", Some (JNum 5));
      (js "pollingUrl",
       Some (JStr (serviceUrl ++ js "/api/build/" ++ buildId ++ js "/status")));
      (js "metadata", Some (object
         [ (js "title", Some title);
           (js "slug", Some slug);
           (js "createdAt", Some (JStr timestamp)) ])) ].

(** [process.env.SERVICE_URL || `https://${event.headers.host}`] *)
Definition serviceUrl (E : Env) (event : Event) : jsstring :=
  match getenv E SERVICE_URL with
  | Some url => if nonempty url then url else js "https://" ++ host_text event
  | None => js "https://" ++ host_text event
  end.

(** The GitHub part of the handler, from the configuration check to the
    response.  The path of the file and the message of the commit are
    template literals over [projectId], [slug] and [title]; the arguments
    of the commit are evaluated in the order of the source, the message
    before the content. *)
Definition push_and_dispatch (E : Env) (event : Event) (buildId : jsstring)
    (projectId markdown : json) (metadata : value) (timestamp : jsstring)
    (title slug : json) : M Response :=
  let branchName := js "build/" ++ buildId in
  match github_owner E, getenv E GITHUB_REPO with
  | Some owner, Some repo =>
      if nonempty owner && nonempty repo then
        mainRef <- octokit_call E GitGetRef (object
          [ (js "owner", Some (JStr owner));
            (js "repo", Some (JStr repo));
            (js "ref", Some (JStr (js "heads/main"))) ]) ;;
        data <- member (Some mainRef) (js "data") ;;
        obj <- member data (js "object") ;;
        sha <- member obj (js "sha") ;;
        match sha with
        | Some (JStr sha) =>
            octokit_call E GitCreateRef (object
              [ (js "owner", Some (JStr owner));
                (js "repo", Some (JStr repo));
                (js "ref", Some (JStr (js "refs/heads/" ++ branchName)));
                (js "sha", Some (JStr sha)) ]) ;;;
            project <- template E (Some projectId) ;;
            name <- template E (Some slug) ;;
            let filePath :=
              js "content/" ++ project ++ js "/" ++ name ++ js ".md" in
            existingFile <-
              try_catch
                (f <- octokit_call E ReposGetContent (object
                   [ (js "owner", Some (JStr owner));
                     (js "repo", Some (JStr repo));
                     (js "path", Some (JStr filePath));
                     (js "ref", Some (JStr branchName)) ]) ;;
                 ret (Some f))
                (fun _ => ret (Some JNull)) ;;
            heading <- template E (Some title) ;;
            content <- lift (buffer_base64 E markdown) ;;
            octokit_call E ReposCreateOrUpdateFileContents (object
              [ (js "owner", Some (JStr owner));
                (js "repo", Some (JStr repo));
                (js "path", Some (JStr filePath));
                (js "message",
                 Some (JStr (js "build: " ++ heading ++ js " ["
                               ++ buildId ++ js "]")));
                (js "content", Some (JStr content));
                (js "branch", Some (JStr branchName));
                (js "sha",
                 opt_prop (opt_prop existingFile (js "data")) (js "sha"));
                (js "author", Some (object
                   [ (js "name",
                      Some (or_else (opt_prop metadata (js "authorName"))
                              (JStr (js "Twelvety Service"))));
                     (js "email",
                      Some (or_else (opt_prop metadata (js "author"))
                              (JStr (js "service@twelvety.dev")))) ])) ]) ;;;
            trigger_workflow E owner repo branchName buildId projectId ;;;
            ret (accepted buildId branchName filePath (serviceUrl E event)
                   projectId title slug timestamp)
        | _ => throw type_error
        end
      else
        throw {| message := js "GitHub configuration missing: GITHUB_ORG and GITHUB_REPO required";
                 stack := [] |}
  | _, _ =>
      throw {| message := js "GitHub configuration missing: GITHUB_ORG and GITHUB_REPO required";
               stack := [] |}
  end.

(** The handler.  The [console.log] of line 61 holds [projectId] in a
    template literal: the conversion is made, and can throw, before the
    put. *)
Definition handler (E : Env) (event : Event) : M Response :=
  if is_method event "OPTIONS" then
    ret {| statusCode := 200; Http.headers := headers; body := Empty |}
  else if negb (is_method event "POST") then
    ret (reply 405 [ (js "error", Some (JStr (js "Method not allowed"))) ])
  else
    try_catch
      (parsed <- lift (parsed_body event) ;;
       markdown <- member (Some parsed) (js "markdown") ;;
       projectId <- member (Some parsed) (js "projectId") ;;
       metadata <- member (Some parsed) (js "metadata") ;;
       match markdown, projectId with
       | Some md, Some pid =>
           if truthy markdown && truthy projectId then
             buildId <- fresh_uuid E ;;
             t <- date_now ;;
             let timestamp := toISOString E t in
             let slug := or_else (opt_prop metadata (js "slug"))
                           (JStr (js "index")) in
             let title := or_else (opt_prop metadata (js "title"))
                            (JStr (js "Untitled")) in
             template E (Some pid) ;;;
             store_metadata E buildId pid md metadata timestamp title slug ;;;
             push_and_dispatch E event buildId pid md metadata timestamp
               title slug
           else
             ret (reply 400
               [ (js "error",
                  Some (JStr (js "Missing required fields: markdown, projectId"))) ])
       | _, _ =>
           ret (reply 400
             [ (js "error",
                Some (JStr (js "Missing required fields: markdown, projectId"))) ])
       end)
      (fun error =>
         ret (reply 500
           [ (js "error", Some (JStr (js "Build trigger failed")));
             (js "message", Some (JStr (message error)));
             (js "stack",
              if bool_decide (getenv E NODE_ENV = Some (js "development"))
              then Some (JStr (stack error)) else None) ])).

End Build.

(** ** build-status.js: GET /api/build/{buildId}/status

    Source: src/unnamed/part_003, lines 162 to 323. *)

Module Status.

Definition headers : list (jsstring * jsstring) :=
  cors_headers "Content-Type" "GET, OPTIONS".

Definition reply (code : Z) (fields : list (jsstring * value)) : Response :=
  {| statusCode := code; Http.headers := headers;
     body := Stringify (object fields) |}.

(** The code unit of ['/']. *)
Definition slash : N := 47.

(** [event.path.split('/').filter(p => p).pop()] *)
Definition extract_buildId (path : jsstring) : option jsstring :=
  pop (List.filter nonempty (split_char slash path)).

(** The [if (process.env.AWS_DYNAMODB_TABLE) { try { get } catch {} }]
    block: [buildData], [null] being [None]. *)
Definition lookup_build (E : Env) (buildId : jsstring) : M (option Item) :=
  match getenv E AWS_DYNAMODB_TABLE with
  | Some tbl =>
      if nonempty tbl then
        try_catch (dynamodb_get E tbl buildId) (fun _ => ret None)
      else ret None
  | None => ret None
  end.

(** [runs.find(w => w.head_branch === branchName)] *)
Fixpoint find_run (branchName : jsstring) (runs : list json)
  : M (option json) :=
  match runs with
  | [] => ret None
  | w :: rest =>
      head_branch <- member (Some w) (js "head_branch") ;;
      if is_str head_branch branchName then ret (Some w)
      else find_run branchName rest
  end.

(** [workflowStatus], [workflowConclusion], [workflowUrl]. *)
Record Workflow : Type := {
  workflowStatus : value;
  workflowConclusion : value;
  workflowUrl : value
}.

Definition no_workflow : Workflow :=
  {| workflowStatus := Some (JStr (js "unknown"));
     workflowConclusion := Some JNull;
     workflowUrl := Some JNull |}.

(** The [if (owner && repo) { try { ... } catch {} }] block. *)
Definition query_workflow (E : Env) (buildId : jsstring) : M Workflow :=
  match Build.github_owner E, getenv E GITHUB_REPO with
  | Some owner, Some repo =>
      if nonempty owner && nonempty repo then
        try_catch
          (workflows <- octokit_call E ActionsListWorkflowRunsForRepo (object
             [ (js "owner", Some (JStr owner));
               (js "repo", Some (JStr repo));
               (js "per_page", Some (JNum 50)) ]) ;;
           let branchName := js "build/" ++ buildId in
           data <- member (Some workflows) (js "data") ;;
           runs <- member data (js "workflow_runs") ;;
           match runs with
           | Some (JArr runs) =>
               workflow <- find_run branchName runs ;;
               match workflow with
               | Some w =>
                   ret {| workflowStatus := prop w (js "status");
                          workflowConclusion := prop w (js "conclusion");
                          workflowUrl := prop w (js "html_url") |}
               | None => ret no_workflow
               end
           | _ => throw type_error
           end)
          (fun _ => ret no_workflow)
      else ret no_workflow
  | _, _ => ret no_workflow
  end.

(** The "Determine final status" block. *)
Definition finalStatus (buildData : json) (wf : Workflow) : json :=
  if is_str (workflowStatus wf) (js "completed") then
    if is_str (workflowConclusion wf) (js "success")
    then JStr (js "completed") else JStr (js "failed")
  else if is_str (workflowStatus wf) (js "in_progress") then
    JStr (js "building")
  else or_else (prop buildData (js "status")) (JStr (js "queued")).

(** [process.env.V ? url : null], where building the URL can throw. *)
Definition url_if (E : Env) (v : EnvVar) (url : jsstring -> M jsstring)
  : M json :=
  match getenv E v with
  | Some base =>
      if nonempty base then (u <- url base ;; ret (JStr u)) else ret JNull
  | None => ret JNull
  end.

(** [siteUrl], [downloadUrl], [archiveUrl], in the order of the source.
    The site and the archive URL hold [buildData.projectId] in a template
    literal. *)
Record Urls : Type := {
  siteUrl : json;
  downloadUrl : json;
  archiveUrl : json
}.

Definition build_urls (E : Env) (buildId : jsstring) (buildData : json)
  : M Urls :=
  site <- url_if E SITE_URL (fun base =>
            projectId <- template E (prop buildData (js "projectId")) ;;
            ret (base ++ js "/" ++ projectId ++ js "/")) ;;
  download <- url_if E SERVICE_URL (fun base =>
                ret (base ++ js "/download/" ++ buildId)) ;;
  archive <- url_if E AWS_BUCKET_NAME (fun base =>
               projectId <- template E (prop buildData (js "projectId")) ;;
               ret (js "s3://" ++ base ++ js "/archives/" ++ projectId
                       ++ js "/" ++ buildId ++ js "/")) ;;
  ret {| siteUrl := site; downloadUrl := download; archiveUrl := archive |}.

(** The 200 response. *)
Definition report (buildId : jsstring) (buildData : json)
    (wf : Workflow) (urls : Urls) : Response :=
  reply 200
    [ (js "buildId", Some (JStr buildId));
      (js "projectId", prop buildData (js "projectId"));
      (js "status", Some (finalStatus buildData wf));
      (js "title", prop buildData (js "title"));
      (js "slug", prop buildData (js "slug"));
      (js "createdAt", prop buildData (js "createdAt"));
      (js "authorEmail", prop buildData (js "authorEmail"));
      (js "fileSize", prop buildData (js "fileSize"));
      (js "workflow", Some (object
         [ (js "status", workflowStatus wf);
           (js "conclusion", workflowConclusion wf);
           (js "url", workflowUrl wf) ]));
      (js "urls", Some (object
         [ (js "site", Some (siteUrl urls));
           (js "download", Some (downloadUrl urls));
           (js "archive", Some (archiveUrl urls)) ])) ].

(** The 404 and 400 responses. *)
Definition not_found : Response :=
  reply 404 [ (js "error", Some (JStr (js "Build not found"))) ].

Definition id_required : Response :=
  reply 400 [ (js "error", Some (JStr (js "Build ID required"))) ].

Definition handler (E : Env) (event : Event) : M Response :=
  if is_method event "OPTIONS" then
    ret {| statusCode := 200; Http.headers := headers; body := Empty |}
  else if negb (is_method event "GET") then
    ret (reply 405 [ (js "error", Some (JStr (js "Method not allowed"))) ])
  else
    try_catch
      (match extract_buildId (path event) with
       | Some buildId =>
           if nonempty buildId then
             buildData <- lookup_build E buildId ;;
             match buildData with
             | Some item =>
                 wf <- query_workflow E buildId ;;
                 urls <- build_urls E buildId (JObj item) ;;
                 ret (report buildId (JObj item) wf urls)
             | None => ret not_found
             end
           else ret id_required
       | None => ret id_required
       end)
      (fun error =>
         ret (reply 500
           [ (js "error", Some (JStr (js "Status check failed")));
             (js "message", Some (JStr (message error))) ])).

End Status.

(** ** Notions the specification uses *)

Module Spec.

(** [seg] is the last non-empty '/'-separated segment of [path]: it is
    not empty, holds no '/', starts at the beginning of the path or just
    after a '/', and only '/' follow it. *)
Definition LastSegment (path seg : jsstring) : Prop :=
  exists pre post,
    path = pre ++ seg ++ post
    /\ seg <> []
    /\ Forall (fun c => c <> Status.slash) seg
    /\ Forall (fun c => c = Status.slash) post
    /\ (pre = [] \/ exists pre', pre = pre' ++ [Status.slash]).

(** The path has no non-empty segment: it is made of '/' only. *)
Definition NoSegment (path : jsstring) : Prop :=
  Forall (fun c => c = Status.slash) path.

(** The number of whitespace-delimited tokens of a text: the number of
    positions where a token starts, that is, a code unit that is not
    whitespace and is the first of the text or follows whitespace. *)
Fixpoint token_starts (after_space : bool) (s : jsstring) : nat :=
  match s with
  | [] => 0
  | c :: s' =>
      (if after_space && negb (is_space c) then 1 else 0)%nat
      + token_starts (is_space c) s'
  end.

Definition token_count (s : jsstring) : nat := token_starts true s.

(** The response of the reference lookup holds the commit of the branch,
    at [data.object.sha]. *)
Definition ref_resolved (resp : json) : Prop :=
  exists data obj sha,
    prop resp (js "data") = Some data
    /\ prop data (js "object") = Some obj
    /\ prop obj (js "sha") = Some (JStr sha).

(** [wf] is what the reconciler holds about the workflow of [branch]:
    nothing (status [unknown]), or the status, conclusion and URL of the
    first run of a listing of the repository's runs whose [head_branch] is
    [branch]. *)
Definition Matched (E : Env) (branch : jsstring) (wf : Status.Workflow)
  : Prop :=
  wf = Status.no_workflow
  \/ exists w0 params resp data before run after,
       octokit E w0 ActionsListWorkflowRunsForRepo params = Ok resp
       /\ prop resp (js "data") = Some data
       /\ prop data (js "workflow_runs")
          = Some (JArr (before ++ run :: after))
       /\ Forall (fun x => is_str (prop x (js "head_branch")) branch = false)
                 before
       /\ is_str (prop run (js "head_branch")) branch = true
       /\ wf = {| Status.workflowStatus := prop run (js "status");
                  Status.workflowConclusion := prop run (js "conclusion");
                  Status.workflowUrl := prop run (js "html_url") |}.

(** The requests the record lookup sends: the read of the key [buildId]
    in the configured table, if one is configured. *)
Definition lookup_calls (E : Env) (buildId : jsstring) : list Call :=
  match getenv E AWS_DYNAMODB_TABLE with
  | Some tbl => if nonempty tbl then [DynamoGet tbl buildId] else []
  | None => []
  end.

(** The build has no stored record: the table is not configured, or the
    lookup fails, or it returns no item. *)
Definition NoRecord (E : Env) (w : World) (buildId : jsstring) : Prop :=
  match getenv E AWS_DYNAMODB_TABLE with
  | Some tbl =>
      nonempty tbl = false
      \/ is_Some (dynamo_fault E w (DynamoGet tbl buildId))
      \/ table w !! buildId = None
  | None => True
  end.

(** The values of the [status] of a BuildRecord. *)
Definition statuses : list jsstring :=
  [ js "queued"; js "building"; js "completed"; js "failed" ].

(** A row is a BuildRecord: its [status], when it has one, is one of the
    four values, and its [projectId] converts to a string, as that of every
    row the dispatcher writes does (the dispatcher converts it before the
    put). *)
Definition BuildRecord (item : Item) : Prop :=
  (assoc (js "status") item = None
   \/ exists s, s ∈ statuses /\ assoc (js "status") item = Some (JStr s))
  /\ converts (assoc (js "projectId") item) = true.

(** [n / 200] rounded up: the least whole number of minutes [m] with
    [n <= 200 * m]. *)
Definition minutes_rounded_up (n m : Z) : Prop :=
  n <= 200 * m /\ forall m', n <= 200 * m' -> m <= m'.

End Spec.

(** ** A concrete environment

    gray-matter, js-yaml, Ajv, markdown-it, Octokit and the DynamoDB client
    are libraries and services outside the repository.  The environment
    below fixes one behaviour for each of them, so that the handlers can be
    evaluated on concrete requests. *)

Module Demo.

(** [s.indexOf(p)], as the text before and the text after the first
    occurrence of [p]. *)
Fixpoint cut_at (p s : jsstring) : option (jsstring * jsstring) :=
  match s with
  | [] => if Validate.starts_with p [] then Some ([], []) else None
  | c :: s' =>
      if Validate.starts_with p s then Some ([], drop (length p) s)
      else match cut_at p s' with
           | Some (a, b) => Some (c :: a, b)
           | None => None
           end
  end.

(** gray-matter with its default options on a string: a text that opens
    with [---] (and not [----]) has its metadata block up to the first
    line that starts with [---]; the content is what follows that
    delimiter, less one line break; a text that does not open with [---]
    is all content. *)
Definition split_matter (s : jsstring) : option jsstring * jsstring :=
  if Validate.starts_with (js "---") s
     && negb (Validate.starts_with (js "----") s) then
    let str := drop 3 s in
    match cut_at (10%N :: js "---") str with
    | Some (block, after) =>
        let after := match after with 13%N :: t => t | _ => after end in
        let after := match after with 10%N :: t => t | _ => after end in
        (Some block, after)
    | None => (Some str, [])
    end
  else (None, s).

(** The metadata blocks this environment reads: lines [key: value] with
    plain string values; any other line that is not empty is an error. *)
Fixpoint yaml_lines (lines : list jsstring) : outcome (list (jsstring * json)) :=
  match lines with
  | [] => Ok []
  | [] :: rest => yaml_lines rest
  | line :: rest =>
      match cut_at (js ": ") line with
      | Some (k, v) =>
          match cut_at (js ": ") v, yaml_lines rest with
          | None, Ok props => Ok ((k, JStr v) :: props)
          | None, Throw e => Throw e
          | Some _, _ =>
              Throw {| message := js "bad indentation of a mapping entry";
                       stack := [] |}
          end
      | None =>
          Throw {| message := js "can not read a block mapping entry";
                   stack := [] |}
      end
  end.

Definition gray_matter (input : json) : outcome (json * jsstring) :=
  match input with
  | JStr s =>
      match split_matter s with
      | (Some block, content) =>
          match yaml_lines (split_char 10 block) with
          | Ok props => Ok (JObj props, content)
          | Throw e => Throw e
          end
      | (None, content) => Ok (JObj [], content)
      end
  | _ => Throw {| message := js "expected input to be a string or buffer";
                  stack := [] |}
  end.

(** A validator for schemas of the form [{required: [...]}]: one error for
    each required property the value does not have. *)
Definition required_errors (schema data : json) : Verdict :=
  match prop schema (js "required") with
  | Some (JArr names) =>
      match
        omap (fun name =>
                match name with
                | JStr n =>
                    match prop data n with
                    | None =>
                        Some {| instancePath := [];
                                schemaPath := js "#/required";
                                keyword := js "required";
                                params := object
                                  [ (js "missingProperty", Some (JStr n)) ];
                                err_message :=
                                  Some (JStr (js "must have required property '"
                                                ++ n ++ js "'")) |}
                    | Some _ => None
                    end
                | _ => None
                end) names
      with
      | [] => Valid
      | errs => Invalid errs
      end
  | _ => Valid
  end.

Definition schema : json :=
  object [ (js "required",
            Some (JArr [ JStr (js "title"); JStr (js "category");
                         JStr (js "layout") ])) ].

Definition main_sha : jsstring := js "4f2a9c1d".

(** Number::toString for the samples: an integer in decimal digits, as
    JavaScript prints it below 10^21 in magnitude, and a fraction by its
    decimal expansion, as JavaScript prints one of at most fifteen
    significant digits from 10^-6 in magnitude on. *)
Fixpoint frac_digits (fuel : nat) (r d : Z) : jsstring :=
  match fuel with
  | O => []
  | S fuel' =>
      if r =? 0 then []
      else dec_str (10 * r / d) ++ frac_digits fuel' (10 * r mod d) d
  end.

Definition print_number (x : number) : jsstring :=
  match x with
  | Integer z => dec_str z
  | Fraction n d =>
      (if n <? 0 then js "-" else [])
      ++ dec_str (Z.abs n / Z.pos d) ++ js "."
      ++ frac_digits 20 (Z.abs n mod Z.pos d) (Z.pos d)
  end.

(** The runs GitHub lists: one completed run for the branch of the first
    identifier, one running for the second. *)
Definition uuid (n : nat) : jsstring := js "b-" ++ replicate n 49%N.

Definition run (branch status : jsstring) (conclusion : json) : json :=
  object [ (js "head_branch", Some (JStr branch));
           (js "status", Some (JStr status));
           (js "conclusion", Some conclusion);
           (js "html_url", Some (JStr (js "https://github.com/runs/1"))) ].

Definition listing : json :=
  object [ (js "data", Some (object
    [ (js "workflow_runs", Some (JArr
        [ run (js "build/" ++ uuid 1) (js "in_progress") JNull;
          run (js "build/" ++ uuid 0) (js "completed")
            (JStr (js "success")) ])) ])) ].

Definition github (w : World) (r : Route) (params : json) : outcome json :=
  match r with
  | GitGetRef =>
      Ok (object [ (js "data", Some (object
            [ (js "object", Some (object
                 [ (js "sha", Some (JStr main_sha)) ])) ])) ])
  | ReposGetContent =>
      Throw {| message := js "Not Found"; stack := [] |}
  | ActionsListWorkflowRunsForRepo => Ok listing
  | _ => Ok (object [ (js "data", Some (JObj [])) ])
  end.

Definition env : Env :=
  {| getenv := fun v =>
       match v with
       | AWS_DYNAMODB_TABLE => Some (js "twelvety-builds")
       | GITHUB_ORG => Some (js "your-org")
       | GITHUB_REPO => Some (js "twelvety")
       | _ => None
       end;
     matter := gray_matter;
     md_render := fun content => Ok (js "<div>" ++ content ++ js "</div>");
     ajv_compile := fun schema => Ok (required_errors schema);
     fetch := fun _ _ =>
       Ok {| ok := true; status := 200; json_body := Ok schema |};
     octokit := github;
     dynamo_fault := fun _ _ => None;
     buffer_base64 := fun v =>
       match v with JStr s => Ok s | _ => Throw type_error end;
     uuidv4 := uuid;
     toISOString := fun _ => js "2024-11-06T00:00:00.000Z";
     number_to_string := print_number |}.

(** The same with the table and the explicit workflow dispatch down. *)
Definition degraded : Env :=
  {| getenv := getenv env;
     matter := matter env;
     md_render := md_render env;
     ajv_compile := ajv_compile env;
     fetch := fetch env;
     octokit := fun w r params =>
       match r with
       | ActionsCreateWorkflowDispatch =>
           Throw {| message := js "Not Found"; stack := [] |}
       | _ => github w r params
       end;
     dynamo_fault := fun _ _ =>
       Some {| message := js "ResourceNotFoundException"; stack := [] |};
     buffer_base64 := buffer_base64 env;
     uuidv4 := uuidv4 env;
     toISOString := toISOString env;
     number_to_string := number_to_string env |}.

Definition world : World :=
  {| table := ∅; uuid_ctr := 0; now := 1730851200000; calls := [] |}.

Definition post (body : json) : Event :=
  {| httpMethod := js "POST"; path := js "/api/x"; parsed_body := Ok body;
     host := Some (js "twelvety.example") |}.

Definition get (path : String.string) : Event :=
  {| httpMethod := js "GET"; path := js path; parsed_body := Ok JNull;
     host := Some (js "twelvety.example") |}.

(** The document of the specification's example. *)
Definition example_markdown : jsstring :=
  js "---" ++ [10%N] ++ js "title: T" ++ [10%N] ++ js "category: example"
     ++ [10%N] ++ js "layout: content.njk" ++ [10%N] ++ js "---" ++ [10%N]
     ++ js "# Hi".

(** A document whose metadata block does not parse. *)
Definition broken_markdown : jsstring :=
  js "---" ++ [10%N] ++ js "title: a: b" ++ [10%N] ++ js "---" ++ [10%N]
     ++ js "text".

(** A document without title and layout. *)
Definition partial_markdown : jsstring :=
  js "---" ++ [10%N] ++ js "category: example" ++ [10%N] ++ js "---"
     ++ [10%N] ++ js "some text".

Definition example_post : Event :=
  post (object [ (js "markdown", Some (JStr example_markdown)) ]).

Definition partial_post : Event :=
  post (object [ (js "markdown", Some (JStr partial_markdown)) ]).

(** The 200 response to [partial_post]. *)
Definition partial_valid : Response :=
  Validate.success (JObj [ (js "category", JStr (js "example")) ])
    (js "some text") (js "<div>some text</div>").

(** The same document with a [schemaUrl]. *)
Definition schema_post : Event :=
  post (object [ (js "markdown", Some (JStr partial_markdown));
                 (js "schemaUrl",
                  Some (JStr (js "https://twelvety.example/schema.json"))) ]).

Definition broken_post : Event :=
  post (object [ (js "markdown", Some (JStr broken_markdown));
                 (js "schemaUrl",
                  Some (JStr (js "https://twelvety.example/schema.json"))) ]).

(** A dispatch, and the 202 responses to the first and to the second
    dispatch from [world]. *)
Definition build_post : Event :=
  post (object [ (js "markdown", Some (JStr partial_markdown));
                 (js "projectId", Some (JStr (js "docs"))) ]).

Definition accepted (n : nat) : Response :=
  Build.accepted (uuid n) (js "build/" ++ uuid n)
    (js "content/docs/index.md") (js "https://twelvety.example")
    (JStr (js "docs")) (JStr (js "Untitled")) (JStr (js "index"))
    (js "2024-11-06T00:00:00.000Z").

(** The item the first dispatch stores. *)
Definition stored_item : Item :=
  Build.build_item (uuid 0) (JStr (js "docs")) (JStr partial_markdown) None
    (js "2024-11-06T00:00:00.000Z") (JStr (js "Untitled"))
    (JStr (js "index")) 1730851200000.

(** The world after the first dispatch. *)
Definition stored_world : World :=
  {| table := {[ uuid 0 := stored_item ]}; uuid_ctr := 1;
     now := 1730851200000; calls := [] |}.

Definition status_get : Event :=
  get "/.netlify/functions/build-status/b-".

Definition response_of (m : M Response) (w : World) : option Response :=
  match m w with
  | (_, Ok r) => Some r
  | (_, Throw _) => None
  end.

Definition world_after {A : Type} (m : M A) (w : World) : World := fst (m w).

End Demo.

(** ** generate-search-index: the search index of the content files

    Source: src/scripts/build-lunr-bundle.js, lines 45 to 200 (the second
    script of that file). *)

Module SearchIndex.

(** [s.replace(/suffix$/, rep)] for a literal [suffix]: the end of [s] is
    replaced when it is [suffix]. *)
Fixpoint replace_suffix (suffix rep s : jsstring) : jsstring :=
  if bool_decide (s = suffix) then rep
  else match s with
       | [] => []
       | c :: s' => c :: replace_suffix suffix rep s'
       end.

(** [s.replace(/^prefix/, rep)] for a literal [prefix]. *)
Definition replace_prefix (prefix rep s : jsstring) : jsstring :=
  if Validate.starts_with prefix s then rep ++ drop (length prefix) s else s.

Definition backslash : N := 92.

(** The URL of a content file:
    [file.replace(/^content\//, '/').replace(/\.md$/, '/')
         .replace(/\/index\/$/, '/').replace(/\\/g, '/')]. *)
Definition url_of_file (file : jsstring) : jsstring :=
  map (fun c => if (c =? backslash)%N then Status.slash else c)
    (replace_suffix (js "/index/") (js "/")
       (replace_suffix (js ".md") (js "/")
          (replace_prefix (js "content/") (js "/") file))).

(** [s.replace(re, ...)] for a global [re] that matches no empty string:
    [rule s] tells whether [re] matches at the start of [s], and then what
    is put in place of the match and how long the match is.  The text is
    scanned from the left, and scanning resumes after each match. *)
Fixpoint replace_global (rule : jsstring -> option (jsstring * nat))
    (skip : nat) (s : jsstring) : jsstring :=
  match s with
  | [] => []
  | c :: s' =>
      match skip with
      | S k => replace_global rule k s'
      | O =>
          match rule s with
          | Some (out, n) => out ++ replace_global rule (n - 1) s'
          | None => c :: replace_global rule 0 s'
          end
      end
  end.

(** The longest start of [s] whose code units satisfy [p], and the rest. *)
Fixpoint span (p : N -> bool) (s : jsstring) : jsstring * jsstring :=
  match s with
  | [] => ([], [])
  | c :: s' =>
      if p c then let (a, b) := span p s' in (c :: a, b) else ([], s)
  end.

(** The text before and the text after the first occurrence of [p]. *)
Fixpoint cut_at (p s : jsstring) : option (jsstring * jsstring) :=
  match s with
  | [] => if Validate.starts_with p [] then Some ([], []) else None
  | c :: s' =>
      if Validate.starts_with p s then Some ([], drop (length p) s)
      else match cut_at p s' with
           | Some (a, b) => Some (c :: a, b)
           | None => None
           end
  end.

(** Line terminators: what [.] does not match. *)
Definition is_line_terminator (c : N) : bool :=
  ((c =? 10) || (c =? 13) || (c =? 8232) || (c =? 8233))%N.

Definition backtick : N := 96.

(** [/```[\s\S]*?```/]: a fence, anything, the next fence. *)
Definition code_block (s : jsstring) : option (jsstring * nat) :=
  if Validate.starts_with (js "```") s then
    match cut_at (js "```") (drop 3 s) with
    | Some (inner, _) => Some ([], 3 + length inner + 3)%nat
    | None => None
    end
  else None.

(** [/`[^`]+`/]: a backtick, one or more other code units, a backtick. *)
Definition inline_code (s : jsstring) : option (jsstring * nat) :=
  match s with
  | c :: s' =>
      if (c =? backtick)%N then
        match span (fun x => negb (x =? backtick)%N) s' with
        | ((_ :: _) as inner, _ :: _) => Some ([], 1 + length inner + 1)%nat
        | _ => None
        end
      else None
  | [] => None
  end.

(** [/!\[.*?\]\(.*?\)/]: [![], the shortest text up to [](], the shortest
    text up to [)], all on one line. *)
Definition image (s : jsstring) : option (jsstring * nat) :=
  if Validate.starts_with (js "![") s then
    match cut_at (js "](") (drop 2 s) with
    | Some (alt, rest) =>
        if forallb (fun x => negb (is_line_terminator x)) alt then
          match span (fun x => negb (x =? 41)%N) rest with
          | (target, _ :: _) =>
              if forallb (fun x => negb (is_line_terminator x)) target
              then Some ([], 2 + length alt + 2 + length target + 1)%nat
              else None
          | (_, []) => None
          end
        else None
    | None => None
    end
  else None.

(** [/\[([^\]]+)\]\([^\)]+\)/] with the replacement ['$1']: the link
    text stays. *)
Definition link (s : jsstring) : option (jsstring * nat) :=
  match s with
  | c :: s' =>
      if (c =? 91)%N then
        match span (fun x => negb (x =? 93)%N) s' with
        | ((_ :: _) as text, _ :: after) =>
            match after with
            | p :: after' =>
                if (p =? 40)%N then
                  match span (fun x => negb (x =? 41)%N) after' with
                  | ((_ :: _) as target, _ :: _) =>
                      Some (text,
                            1 + length text + 2 + length target + 1)%nat
                  | _ => None
                  end
                else None
            | [] => None
            end
        | _ => None
        end
      else None
  | [] => None
  end.

(** [/#+ /]: one or more [#] and a space. *)
Definition heading_marker (s : jsstring) : option (jsstring * nat) :=
  match span (fun x => (x =? 35)%N) s with
  | ((_ :: _) as marks, sp :: _) =>
      if (sp =? 32)%N then Some ([], length marks + 1)%nat else None
  | _ => None
  end.

(** [/[*_~]/]: an emphasis marker. *)
Definition is_emphasis (c : N) : bool :=
  ((c =? 42) || (c =? 95) || (c =? 126))%N.

Definition emphasis (s : jsstring) : option (jsstring * nat) :=
  match s with
  | c :: _ => if is_emphasis c then Some ([], 1%nat) else None
  | [] => None
  end.

(** The text of a body with the markdown syntax removed. *)
Definition plainText (body : jsstring) : jsstring :=
  replace_global emphasis 0
    (replace_global heading_marker 0
       (replace_global link 0
          (replace_global image 0
             (replace_global inline_code 0
                (replace_global code_block 0 body))))).

(** [Array.isArray(v) ? v : []] *)
Definition array_or_empty (v : value) : json :=
  match v with
  | Some (JArr l) => JArr l
  | _ => JArr []
  end.

(** One document of the index. *)
Record Doc : Type := {
  id : jsstring;
  title : json;
  url : jsstring;
  content : jsstring;
  category : json;
  tags : json;
  audience : json;
  dateAdded : json
}.

(** What the script reads: whether the output directory exists, the
    files [glob] found, [fs.readFileSync], gray-matter,
    [new Date().toISOString()] while a file is processed and when the
    index data is put together, and Lunr.

    gray-matter keeps a cache of the texts it was given, filled before a
    text is parsed: what it answers for a text can depend on the texts it
    was given before in the run.  [matter seen text] is its answer for
    [text] after the texts [seen], oldest first.  [lunr docs] is
    [idx.toJSON()] for the index built from the documents, [None] when
    Lunr throws. *)
Record Sources : Type := {
  site_built : bool;
  contentFiles : list jsstring;
  readFileSync : jsstring -> outcome jsstring;
  matter : list jsstring -> jsstring -> outcome (json * jsstring);
  isoAt : jsstring -> jsstring;
  isoEnd : jsstring;
  lunr : list Doc -> option json
}.

(** The body of the [try] block for one file, gray-matter having been
    given the texts [seen].  The first read of a property of
    [frontmatter] throws when gray-matter returned [null] for it. *)
Definition document (S : Sources) (seen : list jsstring) (file : jsstring)
  : outcome Doc :=
  match readFileSync S file with
  | Throw e => Throw e
  | Ok text =>
      match matter S seen text with
      | Throw e => Throw e
      | Ok (JNull, _) => Throw type_error
      | Ok (frontmatter, body) =>
          Ok {| id := file;
                title := or_else (prop frontmatter (js "title"))
                           (JStr (js "Untitled"));
                url := url_of_file file;
                content := take 1000 (plainText body);
                category := or_else (prop frontmatter (js "category"))
                              (JStr (js "uncategorized"));
                tags := array_or_empty (prop frontmatter (js "tags"));
                audience := array_or_empty (prop frontmatter (js "audience"));
                dateAdded :=
                  or_else (prop frontmatter (js "dateAdded"))
                    (JStr (match split_char 84 (isoAt S file) with
                           | day :: _ => day
                           | [] => []
                           end)) |}
      end
  end.

(** The texts gray-matter has been given once [file] is processed. *)
Definition given (S : Sources) (seen : list jsstring) (file : jsstring)
  : list jsstring :=
  match readFileSync S file with
  | Ok text => seen ++ [text]
  | Throw _ => seen
  end.

(** The [forEach] over the content files: a file whose processing throws
    is reported and left out. *)
Fixpoint documents (S : Sources) (seen : list jsstring)
    (files : list jsstring) : list Doc :=
  match files with
  | [] => []
  | file :: rest =>
      match document S seen file with
      | Ok doc => doc :: documents S (given S seen file) rest
      | Throw _ => documents S (given S seen file) rest
      end
  end.

(** One entry of [indexData.documents]. *)
Definition entry (doc : Doc) : json :=
  object [ (js "id", Some (JStr (id doc)));
           (js "title", Some (title doc));
           (js "url", Some (JStr (url doc)));
           (js "category", Some (category doc));
           (js "tags", Some (tags doc));
           (js "audience", Some (audience doc));
           (js "dateAdded", Some (dateAdded doc));
           (js "preview", Some (JStr (take 200 (content doc)))) ].

(** [indexData], the data the script writes; [None] when the run ends
    before, with exit code 1: the output directory is missing, the
    [doc.tags.join(' ')] of a document throws, or Lunr does. *)
Definition indexData (S : Sources) : option json :=
  if site_built S then
    let docs := documents S [] (contentFiles S) in
    if forallb (fun doc => converts (Some (tags doc))) docs then
      match lunr S docs with
      | Some index =>
          Some (object
            [ (js "version", Some (JStr (js "1.0.0")));
              (js "generatedAt", Some (JStr (isoEnd S)));
              (js "documentCount", Some (JNum (Z.of_nat (length docs))));
              (js "documents", Some (JArr (map entry docs)));
              (js "index", Some index) ])
      | None => None
      end
    else None
  else None.

End SearchIndex.

(** ** test-validation: the example files checked against the schema

    Source: src/unnamed/part_000. *)

Module TestValidation.

(** What the script reads: [site.json] read and parsed, the names in the
    example directory when it exists, [path.join] of that directory and a
    name, the path of the generated test file and whether it can be written,
    the files, gray-matter and [ajv.compile].  [matter seen text] is what
    gray-matter answers for [text] after it was given the texts [seen] in
    this run, oldest first (it keeps a cache of its inputs). *)
Record Sources : Type := {
  siteData : outcome json;
  exampleFiles : option (outcome (list jsstring));
  examplePath : jsstring -> jsstring;
  testPath : jsstring;
  canWrite : bool;
  readFileSync : jsstring -> outcome jsstring;
  matter : list jsstring -> jsstring -> outcome (json * jsstring);
  compile : json -> outcome (json -> Verdict)
}.

Definition Files : Type := jsstring -> outcome jsstring.

Definition testContent : jsstring := js "---
title: Test Document
category: example
layout: content.njk
tags: [test, sample]
audience: [General]
dateAdded: 2024-11-06
lastReviewed: 2024-11-06
---

# Test Content

This is a test markdown document for validation.
".

(** [createTestFile]: the test file is written and its path returned;
    [None] when [fs.writeFileSync] throws. *)
Definition createTestFile (S : Sources) : option (Files * jsstring) :=
  if canWrite S then
    Some (fun p => if bool_decide (p = testPath S) then Ok testContent
                   else readFileSync S p,
          testPath S)
  else None.

(** [f.endsWith(suffix)] *)
Definition ends_with (suffix f : jsstring) : bool :=
  Validate.starts_with (rev suffix) (rev f).

Inductive Result : Type := Passed | Failed.

(** The body of the [forEach] callback for one file, gray-matter having
    been given the texts [seen]: [Passed] when [passCount++] is reached,
    [Failed] when [failCount++] is.  On a valid file the title and the
    category are logged in template literals, which throws for a [null]
    front matter and for a value that does not convert to a string, and
    a truthy [tags] is joined, which throws when it is no array or holds
    an element that does not convert. *)
Definition check (S : Sources) (files : Files) (validate : json -> Verdict)
    (seen : list jsstring) (filePath : jsstring) : Result :=
  match files filePath with
  | Throw _ => Failed
  | Ok content =>
      match matter S seen content with
      | Throw _ => Failed
      | Ok (frontmatter, _) =>
          match validate frontmatter, frontmatter with
          | Valid, JNull => Failed
          | Valid, _ =>
              let tags := prop frontmatter (js "tags") in
              if converts (prop frontmatter (js "title"))
                 && converts (prop frontmatter (js "category")) then
                if truthy tags then
                  match tags with
                  | Some (JArr _) => if converts tags then Passed else Failed
                  | _ => Failed
                  end
                else Passed
              else Failed
          | Invalid _, _ => Failed
          end
      end
  end.

(** The texts gray-matter has been given once [filePath] is tested. *)
Definition given (files : Files) (seen : list jsstring)
    (filePath : jsstring) : list jsstring :=
  match files filePath with
  | Ok content => seen ++ [content]
  | Throw _ => seen
  end.

Record Summary : Type := {
  testFiles : list jsstring;
  passCount : nat;
  failCount : nat
}.

(** The loop over the test files, from the counts so far. *)
Fixpoint forEach (S : Sources) (files : Files) (validate : json -> Verdict)
    (seen : list jsstring) (rest : list jsstring) (pass fail : nat)
  : nat * nat :=
  match rest with
  | [] => (pass, fail)
  | filePath :: rest' =>
      let seen' := given files seen filePath in
      match check S files validate seen filePath with
      | Passed => forEach S files validate seen' rest' (pass + 1)%nat fail
      | Failed => forEach S files validate seen' rest' pass (fail + 1)%nat
      end
  end.

(** [testValidation] up to its summary line; [None] when the run ends
    before it, by [process.exit(1)] or by an exception, which the caller
    turns into [process.exit(1)]. *)
Definition testValidation (S : Sources) : option Summary :=
  match siteData S with
  | Throw _ => None
  | Ok JNull => None
  | Ok data =>
      let schema := prop data (js "frontmatterSchema") in
      if truthy schema then
        match opt_prop schema (js "required") with
        | Some (JArr required) =>
            if converts (Some (JArr required)) then
              let found :=
                match exampleFiles S with
                | Some (Ok names) =>
                    Some (map (examplePath S)
                            (List.filter (ends_with (js ".md")) names))
                | Some (Throw _) => None
                | None => Some []
                end in
              match found with
              | None => None
              | Some found =>
                  let chosen :=
                    match found with
                    | [] =>
                        match createTestFile S with
                        | Some (files, path) => Some (files, [path])
                        | None => None
                        end
                    | _ :: _ => Some (readFileSync S, found)
                    end in
                  match chosen, schema with
                  | Some (files, tested), Some schema =>
                      match compile S schema with
                      | Throw _ => None
                      | Ok validate =>
                          let (pass, fail) :=
                            forEach S files validate [] tested 0%nat 0%nat in
                          Some {| testFiles := tested;
                                  passCount := pass;
                                  failCount := fail |}
                      end
                  | _, _ => None
                  end
              end
            else None
        | _ => None
        end
      else None
  end.

(** The exit code of the script. *)
Definition exit_code (S : Sources) : Z :=
  match testValidation S with
  | None => 1
  | Some summary => if (0 <? failCount summary)%nat then 1 else 0
  end.

End TestValidation.

(** ** Further notions *)

Module Notions.

(** The schema at [url] cannot be obtained: [fetch] throws, the response is
    not [ok], or its body does not parse.  [details] is the message of the
    error the handler catches. *)
Definition FetchFails (E : Env) (w : World) (url : json)
    (details : jsstring) : Prop :=
  match fetch E w url with
  | Throw e => details = message e
  | Ok resp =>
      if ok resp then
        match json_body resp with
        | Throw e => details = message e
        | Ok _ => False
        end
      else details = js "Schema fetch failed: " ++ dec_str (status resp)
  end.

(** The metadata passes the schema check: no schema was asked for, or the
    schema at [schemaUrl] is fetched, compiles and accepts the metadata. *)
Definition SchemaPasses (E : Env) (w : World) (schemaUrl : value)
    (frontmatter : json) : Prop :=
  truthy schemaUrl = false
  \/ exists url resp schema validate,
       schemaUrl = Some url
       /\ fetch E w url = Ok resp /\ ok resp = true
       /\ json_body resp = Ok schema
       /\ ajv_compile E schema = Ok validate
       /\ validate frontmatter = Valid.

(** The requests of the schema check: one fetch when a schema is asked
    for. *)
Definition schema_calls (schemaUrl : value) : list Call :=
  match schemaUrl with
  | Some url => if truthy schemaUrl then [Fetch url] else []
  | None => []
  end.

(** The Octokit routes among the requests, in order. *)
Definition routes (cs : list Call) : list Route :=
  omap (fun c => match c with Octokit r _ => Some r | _ => None end) cs.

(** The GitHub requests of a dispatch, in the order of the source. *)
Definition dispatch_routes : list Route :=
  [ GitGetRef; GitCreateRef; ReposGetContent;
    ReposCreateOrUpdateFileContents; ActionsCreateWorkflowDispatch ].

(** GitHub is configured: an owner (GITHUB_ORG, else GITHUB_OWNER) and a
    repository, both not empty. *)
Definition github_configured (E : Env) : bool :=
  env_truthy (Build.github_owner E) && env_truthy (getenv E GITHUB_REPO).

(** The world once the dispatcher has drawn its identifier. *)
Definition drawn (w : World) : World :=
  {| table := table w; uuid_ctr := S (uuid_ctr w); now := now w;
     calls := calls w |}.

(** The record of a dispatch is written: a table is configured and the put
    of [item] does not fail. *)
Definition Stores (E : Env) (w : World) (item : Item) : Prop :=
  exists tbl,
    getenv E AWS_DYNAMODB_TABLE = Some tbl /\ nonempty tbl = true
    /\ dynamo_fault E w (DynamoPut tbl item) = None.

(** The 500 response of the dispatcher for a thrown error. *)
Definition build_failed (E : Env) (e : Error) : Response :=
  Build.reply 500
    [ (js "error", Some (JStr (js "Build trigger failed")));
      (js "message", Some (JStr (message e)));
      (js "stack",
       if bool_decide (getenv E NODE_ENV = Some (js "development"))
       then Some (JStr (stack e)) else None) ].

(** The error thrown when GitHub is not configured. *)
Definition config_error : Error :=
  {| message := js "GitHub configuration missing: GITHUB_ORG and GITHUB_REPO required";
     stack := [] |}.

(** A body with no backtick, [[], [#], [*], [_] or [~]. *)
Definition syntax_free (body : jsstring) : Prop :=
  Forall (fun c => c ∉ [96; 91; 35; 42; 95; 126]%N) body.

(** A content file that is read and whose front matter parses, to
    something other than [null], gray-matter having been given the texts
    [seen]. *)
Definition readable (S : SearchIndex.Sources) (seen : list jsstring)
    (file : jsstring) : bool :=
  match SearchIndex.readFileSync S file with
  | Ok text =>
      match SearchIndex.matter S seen text with
      | Ok (JNull, _) => false
      | Ok _ => true
      | Throw _ => false
      end
  | Throw _ => false
  end.

(** The texts of the files of a list that are read, in order: what
    gray-matter has been given once they are processed. *)
Definition texts (read : jsstring -> outcome jsstring)
    (files : list jsstring) : list jsstring :=
  omap (fun file => match read file with
                    | Ok text => Some text
                    | Throw _ => None
                    end) files.

(** The files of a list that are readable when their turn comes, in
    order. *)
Fixpoint indexed (S : SearchIndex.Sources) (seen : list jsstring)
    (files : list jsstring) : list jsstring :=
  match files with
  | [] => []
  | file :: rest =>
      (if readable S seen file then [file] else [])
      ++ indexed S (seen ++ texts (SearchIndex.readFileSync S) [file]) rest
  end.

(** A test file that is read, parses to a front matter other than [null]
    (gray-matter having been given the texts [seen]), satisfies the
    schema, has a title and a category that convert to strings, and whose
    [tags], when truthy, are an array of elements that convert. *)
Definition Passes (S : TestValidation.Sources) (files : TestValidation.Files)
    (validate : json -> Verdict) (seen : list jsstring)
    (filePath : jsstring) : Prop :=
  exists content frontmatter body,
    files filePath = Ok content /\
    TestValidation.matter S seen content = Ok (frontmatter, body) /\
    frontmatter <> JNull /\
    validate frontmatter = Valid /\
    converts (prop frontmatter (js "title")) = true /\
    converts (prop frontmatter (js "category")) = true /\
    (truthy (prop frontmatter (js "tags")) = false \/
     exists items,
       prop frontmatter (js "tags") = Some (JArr items)
       /\ converts (Some (JArr items)) = true).

End Notions.

(** ** Further sample environments *)

Module Samples.

Definition with_fetch (fetch' : World -> json -> outcome FetchResponse)
    (E : Env) : Env :=
  {| getenv := getenv E; matter := matter E; md_render := md_render E;
     ajv_compile := ajv_compile E; fetch := fetch';
     octokit := octokit E; dynamo_fault := dynamo_fault E;
     buffer_base64 := buffer_base64 E; uuidv4 := uuidv4 E;
     toISOString := toISOString E;
     number_to_string := number_to_string E |}.

Definition with_compile (compile' : json -> outcome (json -> Verdict))
    (E : Env) : Env :=
  {| getenv := getenv E; matter := matter E; md_render := md_render E;
     ajv_compile := compile'; fetch := fetch E;
     octokit := octokit E; dynamo_fault := dynamo_fault E;
     buffer_base64 := buffer_base64 E; uuidv4 := uuidv4 E;
     toISOString := toISOString E;
     number_to_string := number_to_string E |}.

Definition with_getenv (getenv' : EnvVar -> option jsstring) (E : Env)
  : Env :=
  {| getenv := getenv'; matter := matter E; md_render := md_render E;
     ajv_compile := ajv_compile E; fetch := fetch E;
     octokit := octokit E; dynamo_fault := dynamo_fault E;
     buffer_base64 := buffer_base64 E; uuidv4 := uuidv4 E;
     toISOString := toISOString E;
     number_to_string := number_to_string E |}.

Definition with_octokit (octokit' : World -> Route -> json -> outcome json)
    (E : Env) : Env :=
  {| getenv := getenv E; matter := matter E; md_render := md_render E;
     ajv_compile := ajv_compile E; fetch := fetch E;
     octokit := octokit'; dynamo_fault := dynamo_fault E;
     buffer_base64 := buffer_base64 E; uuidv4 := uuidv4 E;
     toISOString := toISOString E;
     number_to_string := number_to_string E |}.

(** The schema host answers 404. *)
Definition offline : Env :=
  with_fetch (fun _ _ =>
      Ok {| ok := false; status := 404;
            json_body := Throw {| message := js "Unexpected token <";
                                  stack := [] |} |})
    Demo.env.

(** The compiler rejects the schema. *)
Definition schema_error : Error :=
  {| message := js "schema is invalid"; stack := [] |}.

Definition strict : Env := with_compile (fun _ => Throw schema_error) Demo.env.

(** A table, and no GitHub repository. *)
Definition unconfigured : Env :=
  with_getenv (fun v =>
      match v with
      | AWS_DYNAMODB_TABLE => Some (js "twelvety-builds")
      | _ => None
      end)
    Demo.env.

(** The site, the service and the bucket are configured as well. *)
Definition published : Env :=
  with_getenv (fun v =>
      match v with
      | SITE_URL => Some (js "https://docs.example")
      | SERVICE_URL => Some (js "https://twelvety.example")
      | AWS_BUCKET_NAME => Some (js "twelvety-archive")
      | _ => getenv Demo.env v
      end)
    Demo.env.

(** The branch of the build exists already. *)
Definition taken : Error :=
  {| message := js "Reference already exists"; stack := [] |}.

Definition branch_taken : Env :=
  with_octokit (fun w r params =>
      match r with
      | GitCreateRef => Throw taken
      | _ => Demo.github w r params
      end)
    Demo.env.

(** A GET at the polling URL of the first build. *)
Definition polling_get : Event := Demo.get "/api/build/b-/status".

(** Four content files: the home page, a page with markdown syntax and
    two files with the same text, whose front matter does not parse. *)
Definition intro_markdown : jsstring :=
  js "---" ++ [10%N] ++ js "title: Intro" ++ [10%N] ++ js "---" ++ [10%N]
     ++ js "# Intro" ++ [10%N] ++ js "See *the* [guide](/guide/).".

(** gray-matter with its cache: a text it was given before is answered
    from the cache, with the parsed data when it parsed and with no data
    and the whole text as content when it did not. *)
Definition cached_matter (seen : list jsstring) (text : jsstring)
  : outcome (json * jsstring) :=
  match Demo.gray_matter (JStr text) with
  | Ok parsed => Ok parsed
  | Throw e =>
      if bool_decide (text ∈ seen) then Ok (JObj [], text) else Throw e
  end.

Definition site : SearchIndex.Sources :=
  {| SearchIndex.site_built := true;
     SearchIndex.contentFiles :=
       [ js "content/index.md"; js "content/docs/intro.md";
         js "content/docs/broken.md"; js "content/docs/again.md" ];
     SearchIndex.readFileSync := fun file =>
       if bool_decide (file = js "content/index.md") then Ok (js "Welcome.")
       else if bool_decide (file = js "content/docs/intro.md")
            then Ok intro_markdown
       else Ok Demo.broken_markdown;
     SearchIndex.matter := cached_matter;
     SearchIndex.isoAt := fun _ => js "2024-11-06T00:00:00.000Z";
     SearchIndex.isoEnd := js "2024-11-06T00:00:01.000Z";
     SearchIndex.lunr := fun docs =>
       Some (object [ (js "version", Some (JStr (js "2.3.9"))) ]) |}.

Definition intro_doc : SearchIndex.Doc :=
  {| SearchIndex.id := js "content/docs/intro.md";
     SearchIndex.title := JStr (js "Intro");
     SearchIndex.url := js "/docs/intro/";
     SearchIndex.content := js "Intro" ++ [10%N] ++ js "See the guide.";
     SearchIndex.category := JStr (js "uncategorized");
     SearchIndex.tags := JArr [];
     SearchIndex.audience := JArr [];
     SearchIndex.dateAdded := JStr (js "2024-11-06") |}.

(** An example directory with the files [names]: [good.md] satisfies the
    schema, [tagged.md] does too and has a string for [tags]. *)
Definition tagged_markdown : jsstring :=
  js "---" ++ [10%N] ++ js "title: T" ++ [10%N] ++ js "category: example"
     ++ [10%N] ++ js "layout: content.njk" ++ [10%N] ++ js "tags: news"
     ++ [10%N] ++ js "---" ++ [10%N] ++ js "# Hi".

Definition examples (names : list jsstring) : TestValidation.Sources :=
  {| TestValidation.siteData :=
       Ok (object [ (js "frontmatterSchema", Some Demo.schema) ]);
     TestValidation.exampleFiles := Some (Ok names);
     TestValidation.examplePath := fun f => js "content/example/" ++ f;
     TestValidation.testPath := js "content/test-validation.md";
     TestValidation.canWrite := true;
     TestValidation.readFileSync := fun file =>
       if bool_decide (file = js "content/example/tagged.md")
       then Ok tagged_markdown else Ok Demo.example_markdown;
     TestValidation.matter := cached_matter;
     TestValidation.compile := fun schema =>
       Ok (Demo.required_errors schema) |}.

(** A dispatch whose [projectId] is an object with a [toString] property
    that is no function: it does not convert to a string. *)
Definition opaque_project : json := JObj [ (js "toString", JNum 0) ].

Definition opaque_post : Event :=
  Demo.post (object [ (js "markdown", Some (JStr Demo.partial_markdown));
                      (js "projectId", Some opaque_project) ]).

(** A stored record with such a [projectId]. *)
Definition opaque_item : Item :=
  Build.build_item (Demo.uuid 0) opaque_project (JStr Demo.partial_markdown)
    None (js "2024-11-06T00:00:00.000Z") (JStr (js "Untitled"))
    (JStr (js "index")) 1730851200000.

Definition opaque_world : World :=
  {| table := {[ Demo.uuid 0 := opaque_item ]}; uuid_ctr := 1;
     now := 1730851200000; calls := [] |}.

End Samples.

(** * Properties *)

(** ** Splitting a path at '/' *)

Section SplitChar.

Variable sep : N.

Lemma split_char_cons (s : jsstring) :
  exists piece rest, split_char sep s = piece :: rest.
Proof.
  destruct s as [|c s]; simpl; [by eauto|].
  destruct (c =? sep)%N; [by eauto|].
  destruct (split_char sep s); eauto.
Qed.

Lemma split_char_app (a b : jsstring) :
  split_char sep (a ++ sep :: b) = split_char sep a ++ split_char sep b.
Proof.
  induction a as [|c a IH]; simpl.
  - by rewrite N.eqb_refl.
  - destruct (c =? sep)%N; [by rewrite IH|].
    rewrite IH. destruct (split_char_cons a) as (p & r & ->). done.
Qed.

Lemma split_char_free (s : jsstring) :
  Forall (fun c => c <> sep) s -> split_char sep s = [s].
Proof.
  induction 1 as [|c s Hc _ IH]; simpl; [done|].
  destruct (N.eqb_spec c sep); [done|]. by rewrite IH.
Qed.

Lemma split_char_pieces_free (s : jsstring) :
  Forall (Forall (fun c => c <> sep)) (split_char sep s).
Proof.
  induction s as [|c s IH]; simpl.
  - by repeat constructor.
  - destruct (N.eqb_spec c sep); [by constructor|].
    destruct (split_char sep s) as [|p r]; [by repeat constructor|].
    inversion_clear IH. by repeat constructor.
Qed.

Lemma split_char_all_sep (s : jsstring) :
  Forall (fun c => c = sep) s <->
  List.filter nonempty (split_char sep s) = [].
Proof.
  induction s as [|c s IH]; simpl; [done|].
  destruct (N.eqb_spec c sep) as [->|Hc]; simpl.
  - rewrite <- IH. split; [by inversion 1|by constructor].
  - destruct (split_char sep s); simpl; split; try done; by inversion 1.
Qed.

(** The pieces, joined by the separator, give the string back. *)
Lemma split_char_join (s : jsstring) (l1 l2 : list jsstring) (x : jsstring) :
  split_char sep s = l1 ++ x :: l2 ->
  s = concat (map (fun p => p ++ [sep]) l1) ++ x
      ++ concat (map (fun p => sep :: p) l2).
Proof.
  revert l1 x l2. induction s as [|c s IH]; intros l1 x l2; simpl.
  - destruct l1 as [|? [|]]; simpl; intros [= <- <-] || intros [=]. done.
  - destruct (N.eqb_spec c sep) as [->|Hc].
    + destruct l1 as [|p l1]; simpl; intros [= <- E].
      * destruct (split_char_cons s) as (p & r & Hs).
        rewrite Hs in E. subst l2. simpl.
        by rewrite (IH [] p r Hs).
      * simpl. by rewrite (IH _ _ _ E) at 1.
    + destruct (split_char_cons s) as (p & r & Hs). rewrite Hs.
      destruct l1 as [|q l1]; simpl; intros [= <- E].
      * subst r. by rewrite (IH [] p l2 Hs) at 1.
      * subst r. by rewrite (IH (p :: l1) x l2 Hs) at 1.
Qed.

End SplitChar.

Lemma last_filter_split {A : Type} (f : A -> bool) (l : list A) (x : A) :
  last (List.filter f l) = Some x ->
  exists l1 l2, l = l1 ++ x :: l2 /\ f x = true
                /\ List.filter f l2 = [].
Proof.
  induction l as [|a l IH]; simpl; [done|].
  destruct (f a) eqn:Ha.
  - destruct (List.filter f l) as [|b t] eqn:Hl.
    + simpl. intros [= ->]. by exists [], l.
    + intros H. destruct (IH H) as (l1 & l2 & -> & ? & ?).
      by exists (a :: l1), l2.
  - intros H. destruct (IH H) as (l1 & l2 & -> & ? & ?).
    by exists (a :: l1), l2.
Qed.

Lemma filter_nonempty_nil (l : list jsstring) :
  List.filter nonempty l = [] -> Forall (fun p => p = []) l.
Proof.
  induction l as [|[|c p] l IH]; simpl; intros H; try done.
  constructor; auto.
Qed.

Lemma concat_seps (sep : N) (l : list jsstring) :
  Forall (fun p => p = []) l ->
  Forall (fun c => c = sep) (concat (map (fun p => sep :: p) l)).
Proof.
  induction 1 as [|p l -> _ IH]; simpl; by constructor.
Qed.

Lemma concat_ends_sep (sep : N) (l : list jsstring) :
  let pre := concat (map (fun p => p ++ [sep]) l) in
  pre = [] \/ exists pre', pre = pre' ++ [sep].
Proof.
  induction l as [|p l IH] using rev_ind; simpl; [by left|].
  right. rewrite map_app, concat_app. simpl.
  exists (concat (map (fun p => p ++ [sep]) l) ++ p).
  by rewrite app_nil_r, app_assoc.
Qed.

Lemma extract_buildId_last (path seg : jsstring) :
  Status.extract_buildId path = Some seg <-> Spec.LastSegment path seg.
Proof.
  unfold Status.extract_buildId, pop. split.
  - intros H. apply last_filter_split in H as (l1 & l2 & Hs & Hseg & Hl2).
    pose proof (split_char_pieces_free Status.slash path) as Hfree.
    rewrite Hs in Hfree. apply Forall_app in Hfree as [_ Hfree].
    inversion_clear Hfree as [|? ? Hsegfree _].
    exists (concat (map (fun p => p ++ [Status.slash]) l1)),
           (concat (map (fun p => Status.slash :: p) l2)).
    split; [by apply split_char_join|].
    split; [by destruct seg|]. split; [done|].
    split; [by apply concat_seps, filter_nonempty_nil|].
    apply concat_ends_sep.
  - intros (pre & post & -> & Hne & Hfree & Hpost & Hpre).
    assert (Hright : List.filter nonempty
                       (split_char Status.slash (seg ++ post)) = [seg]).
    { destruct post as [|c post].
      - rewrite app_nil_r, split_char_free by done. by destruct seg.
      - inversion_clear Hpost as [|? ? -> Hpost'].
        rewrite split_char_app, List.filter_app, split_char_free by done.
        apply split_char_all_sep in Hpost'. rewrite Hpost'. by destruct seg. }
    destruct Hpre as [->|(pre' & ->)]; simpl; [by rewrite Hright|].
    rewrite <- app_assoc. simpl.
    rewrite split_char_app, List.filter_app, Hright.
    by rewrite last_snoc.
Qed.

Lemma extract_buildId_none (path : jsstring) :
  Status.extract_buildId path = None <-> Spec.NoSegment path.
Proof.
  unfold Status.extract_buildId, pop, Spec.NoSegment.
  rewrite last_None. symmetry. apply split_char_all_sep.
Qed.

Lemma extract_buildId_nonempty (path seg : jsstring) :
  Status.extract_buildId path = Some seg -> nonempty seg = true.
Proof.
  intros H. apply last_filter_split in H as (? & ? & ? & ? & ?). done.
Qed.

(** ** Splitting a text at whitespace *)

Lemma token_starts_true (s : jsstring) :
  Spec.token_starts true s =
  ((match s with c :: _ => if is_space c then 0 else 1 | [] => 0 end)
   + Spec.token_starts false s)%nat.
Proof. destruct s as [|c s]; simpl; [done|]. by destruct (is_space c). Qed.

Lemma split_spaces_head (s : jsstring) :
  exists piece rest,
    split_spaces s = piece :: rest
    /\ length (List.filter (fun w => (0 <? length w)%nat) rest)
       = Spec.token_starts false s
    /\ (0 <? length piece)%nat
       = match s with c :: _ => negb (is_space c) | [] => false end.
Proof.
  induction s as [|c s IH]; [by exists [], []|].
  destruct IH as (p & r & Hs & Hr & Hp).
  change (split_spaces (c :: s)) with
    (if is_space c then
       match s with
       | [] => [[]; []]
       | c' :: _ => if is_space c' then split_spaces s
                    else [] :: split_spaces s
       end
     else match split_spaces s with
          | piece :: rest => (c :: piece) :: rest
          | [] => [[c]]
          end).
  cbn [Spec.token_starts]. destruct (is_space c) eqn:Hc; cbn [andb negb].
  - destruct s as [|c' s]; [by exists [], [[]]|].
    rewrite Hs. cbn [Spec.token_starts andb] in Hr |- *.
    destruct (is_space c') eqn:Hc'; cbn [negb Nat.add] in *.
    + by exists p, r.
    + exists [], (p :: r). cbn [List.filter]. rewrite Hp. cbn [length].
      by rewrite Hr.
  - rewrite Hs. by exists (c :: p), r.
Qed.

Lemma wordCount_token_count (content : jsstring) :
  Validate.wordCount content = Z.of_nat (Spec.token_count content).
Proof.
  unfold Validate.wordCount, Spec.token_count. f_equal.
  destruct (split_spaces_head content) as (p & r & -> & Hr & Hp).
  rewrite token_starts_true, <- Hr. simpl. rewrite Hp.
  destruct content as [|c ?]; [done|]. by destruct (is_space c).
Qed.

(** The pieces hold no whitespace: each kept piece is one token. *)
Lemma split_spaces_pieces_free (s : jsstring) :
  Forall (Forall (fun c => is_space c = false)) (split_spaces s).
Proof.
  induction s as [|c s IH]; simpl; [by repeat constructor|].
  destruct (is_space c) eqn:Hc.
  - destruct s as [|c' s]; [by repeat constructor|].
    destruct (is_space c'); [done|by constructor].
  - destruct (split_spaces s) as [|p r]; [by repeat constructor|].
    inversion_clear IH. by repeat constructor.
Qed.

(** The pieces, one after the other, are the text without its
    whitespace. *)
Lemma split_spaces_concat (s : jsstring) :
  concat (split_spaces s) = List.filter (fun c => negb (is_space c)) s.
Proof.
  induction s as [|c s IH]; [done|].
  cbn [List.filter].
  change (split_spaces (c :: s)) with
    (if is_space c then
       match s with
       | [] => [[]; []]
       | c' :: _ => if is_space c' then split_spaces s
                    else [] :: split_spaces s
       end
     else match split_spaces s with
          | piece :: rest => (c :: piece) :: rest
          | [] => [[c]]
          end).
  destruct (is_space c) eqn:Hc; cbn [negb].
  - destruct s as [|c' s]; [done|]. by destruct (is_space c').
  - rewrite <- IH. by destruct (split_spaces s).
Qed.

Lemma ceil_div_200 (n : Z) :
  Spec.minutes_rounded_up n (ceil_div n 200).
Proof.
  unfold Spec.minutes_rounded_up, ceil_div.
  pose proof (Z.div_mod (n + 200 - 1) 200 ltac:(lia)) as Hd.
  pose proof (Z.mod_pos_bound (n + 200 - 1) 200 ltac:(lia)) as Hm.
  split; [lia|]. intros m' Hm'. lia.
Qed.

Example wordCount_heading :
  Validate.wordCount (js "# Hi") = 2.
Proof. reflexivity. Qed.

Example wordCount_spaces :
  Validate.wordCount (js "  one two
 three  ") = 3.
Proof. reflexivity. Qed.

(** ** Running the handlers *)

Lemma post_not_options (ev : Event) :
  is_method ev "POST" = true -> is_method ev "OPTIONS" = false.
Proof.
  unfold is_method. intros H%bool_decide_eq_true. by rewrite H.
Qed.

Lemma get_not_options (ev : Event) :
  is_method ev "GET" = true -> is_method ev "OPTIONS" = false.
Proof.
  unfold is_method. intros H%bool_decide_eq_true. by rewrite H.
Qed.

(** Unfold the monad and reduce, leaving literals and responses folded. *)
Ltac run :=
  cbv beta iota zeta
    delta [bind ret throw try_catch lift get_world date_now
           fetch_call octokit_call record_call fresh_uuid
           dynamodb_get dynamodb_put];
  cbn [table uuid_ctr now calls].

Ltac run_in H :=
  cbv beta iota zeta
    delta [bind ret throw try_catch lift get_world date_now member
           fetch_call octokit_call record_call fresh_uuid
           dynamodb_get dynamodb_put] in H;
  cbn [table uuid_ctr now calls] in H.

Lemma member_obj (props : list (jsstring * json)) (k : jsstring) :
  member (Some (JObj props)) k = ret (assoc k props).
Proof. reflexivity. Qed.

Lemma member_prop (j : json) (k : jsstring) (v : json) :
  prop j k = Some v -> member (Some j) k = ret (Some v).
Proof. destruct j; try done. simpl. by intros ->. Qed.

(** Reads of properties of the parsed body, an object. *)
Ltac read_body := rewrite ?member_obj; run.

(** A template literal over a value that converts, and over one that
    does not. *)
Lemma template_ok (E : Env) (v : value) :
  converts v = true ->
  template E v = ret (string_of_v (number_to_string E) v).
Proof.
  unfold template, to_string_v, to_string, converts.
  destruct v as [j|]; [|done]. by destruct (throws_on j).
Qed.

Lemma template_throws (E : Env) (v : value) :
  converts v = false -> template E v = throw type_error.
Proof.
  unfold template, to_string_v, to_string, converts.
  destruct v as [j|]; [|done]. by destruct (throws_on j).
Qed.

(** Split on whether the value of a template literal converts. *)
Ltac split_template_in E v H :=
  let Hv := fresh "Hconv" in
  destruct (converts v) eqn:Hv;
  [ rewrite (template_ok E v Hv) in H
  | rewrite (template_throws E v Hv) in H ];
  run_in H.

Ltac split_template E v :=
  let Hv := fresh "Hconv" in
  destruct (converts v) eqn:Hv;
  [ rewrite (template_ok E v Hv)
  | rewrite (template_throws E v Hv) ];
  run.

Lemma template_world (E : Env) (v : value) (w : World) :
  fst (template E v w) = w.
Proof.
  destruct (converts v) eqn:Hv;
    [rewrite template_ok|rewrite template_throws]; done.
Qed.

(** A template literal leaves the world as it is. *)
Ltac template_worlds :=
  repeat match goal with
         | Ht : template ?E0 ?v ?x = (?y, _) |- _ =>
             let Hw := fresh "Hw" in
             pose proof (template_world E0 v x) as Hw;
             rewrite Ht in Hw; cbn [fst] in Hw; subst y; clear Ht
         end.

(** ** Validator *)

(** C7.  A request whose metadata block fails to parse is answered 422
    with one error for the frontmatter that carries the message of the
    parse error, whatever [schemaUrl] is; no request is sent to any
    external service, so the schema is not fetched. *)
Theorem bad_frontmatter_is_422 (E : Env) (ev : Event) (w : World)
    (parsed markdown : json) (e : Error) :
  is_method ev "POST" = true ->
  parsed_body ev = Ok parsed ->
  prop parsed (js "markdown") = Some markdown ->
  truthy (Some markdown) = true ->
  matter E markdown = Throw e ->
  exists w' r entry,
    Validate.handler E ev w = (w', Ok r)
    /\ calls w' = calls w
    /\ statusCode r = 422
    /\ field r "status" = Some (JStr (js "invalid"))
    /\ field r "errors" = Some (JArr [entry])
    /\ prop entry (js "path") = Some (JStr (js "frontmatter"))
    /\ prop entry (js "message")
       = Some (JStr (js "Invalid YAML frontmatter syntax"))
    /\ prop entry (js "details") = Some (JStr (message e)).
Proof.
  intros Hpost Hbody Hmd Htruthy Hm.
  destruct parsed as [| | | | |props]; try discriminate Hmd.
  cbn [prop] in Hmd.
  eexists w, _, _. split.
  - unfold Validate.handler.
    rewrite (post_not_options _ Hpost), Hpost. cbn [negb].
    unfold Validate.parse_frontmatter. run. rewrite Hbody.
    read_body. rewrite Hmd, Htruthy, Hm. reflexivity.
  - repeat split; reflexivity.
Qed.

Lemma error_entry_fields (err : ErrorObject) :
  prop (Validate.error_entry err) (js "path")
    = Some (JStr (match instancePath err with
                  | [] => schemaPath err
                  | _ :: _ => instancePath err
                  end))
  /\ prop (Validate.error_entry err) (js "message") = err_message err
  /\ prop (Validate.error_entry err) (js "keyword")
     = Some (JStr (keyword err))
  /\ prop (Validate.error_entry err) (js "params") = Some (params err).
Proof.
  unfold Validate.error_entry.
  destruct err as [ip sp kw ps [m|]]; destruct ip; repeat split; reflexivity.
Qed.

(** C6.  When the compiled schema rejects the metadata, the response is
    422 and its [errors] array has one entry for each entry of the
    validator's error list, in the same order: none is dropped.  Each entry
    carries the instance path, or the schema path when the instance path is
    empty, the message, the keyword and the keyword's parameters. *)
Theorem schema_violations_all_reported (E : Env) (ev : Event) (w : World)
    (parsed markdown url frontmatter schema : json) (content : jsstring)
    (resp : FetchResponse) (validate : json -> Verdict)
    (errors : list ErrorObject) :
  is_method ev "POST" = true ->
  parsed_body ev = Ok parsed ->
  prop parsed (js "markdown") = Some markdown ->
  truthy (Some markdown) = true ->
  prop parsed (js "schemaUrl") = Some url ->
  truthy (Some url) = true ->
  matter E markdown = Ok (frontmatter, content) ->
  fetch E w url = Ok resp ->
  ok resp = true ->
  json_body resp = Ok schema ->
  ajv_compile E schema = Ok validate ->
  validate frontmatter = Invalid errors ->
  exists w' r entries,
    Validate.handler E ev w = (w', Ok r)
    /\ statusCode r = 422
    /\ field r "status" = Some (JStr (js "invalid"))
    /\ field r "errors" = Some (JArr entries)
    /\ length entries = length errors
    /\ forall (i : nat) (err : ErrorObject),
         errors !! i = Some err ->
         exists entry,
           entries !! i = Some entry
           /\ prop entry (js "path")
              = Some (JStr (match instancePath err with
                            | [] => schemaPath err
                            | _ :: _ => instancePath err
                            end))
           /\ prop entry (js "message") = err_message err
           /\ prop entry (js "keyword") = Some (JStr (keyword err))
           /\ prop entry (js "params") = Some (params err).
Proof.
  intros Hpost Hbody Hmd Htruthy Hurl Hutruthy Hm Hf Hok Hjson Hc Hv.
  destruct parsed as [| | | | |props]; try discriminate Hmd.
  cbn [prop] in Hmd, Hurl.
  eexists _, _, (map Validate.error_entry errors). split.
  - unfold Validate.handler.
    rewrite (post_not_options _ Hpost), Hpost. cbn [negb].
    unfold Validate.parse_frontmatter, Validate.check_schema,
      Validate.fetch_schema.
    run. rewrite Hbody. read_body.
    rewrite Hmd, Hurl, Htruthy, Hm, Hutruthy.
    rewrite Hf, Hok, Hjson, Hc, Hv. reflexivity.
  - repeat split; try reflexivity.
    + by rewrite length_map.
    + intros i err Hi. exists (Validate.error_entry err).
      rewrite list_lookup_fmap, Hi. split; [done|].
      apply error_entry_fields.
Qed.

(** What a POST that is answered 200 went through. *)
Lemma validate_200_inv (E : Env) (ev : Event) (w w' : World) (r : Response) :
  is_method ev "POST" = true ->
  Validate.handler E ev w = (w', Ok r) ->
  statusCode r = 200 ->
  exists parsed markdown frontmatter content preview,
    parsed_body ev = Ok parsed
    /\ prop parsed (js "markdown") = Some markdown
    /\ matter E markdown = Ok (frontmatter, content)
    /\ r = Validate.success frontmatter content preview.
Proof.
  intros Hpost. unfold Validate.handler.
  rewrite (post_not_options _ Hpost), Hpost. cbn [negb].
  unfold Validate.parse_frontmatter, Validate.check_schema,
    Validate.fetch_schema.
  run. unfold member. run. intros H Hcode.
  repeat (case_match; simplify_eq; try discriminate Hcode).
  all: eexists _, _, _, _, _; repeat split; eauto.
Qed.

(** C5.  In every success response of the validator, [metadata.wordCount]
    is the number of whitespace-delimited tokens of the content that
    gray-matter returned for the submitted markdown, and
    [metadata.readingTime] is that count divided by 200 and rounded up. *)
Theorem success_metrics (E : Env) (ev : Event) (w w' : World)
    (r : Response) :
  is_method ev "POST" = true ->
  Validate.handler E ev w = (w', Ok r) ->
  statusCode r = 200 ->
  exists parsed markdown frontmatter content meta (minutes : Z),
    parsed_body ev = Ok parsed
    /\ prop parsed (js "markdown") = Some markdown
    /\ matter E markdown = Ok (frontmatter, content)
    /\ field r "content" = Some (JStr content)
    /\ field r "metadata" = Some meta
    /\ prop meta (js "wordCount")
       = Some (JNum (Z.of_nat (Spec.token_count content)))
    /\ prop meta (js "readingTime") = Some (JNum minutes)
    /\ Spec.minutes_rounded_up (Z.of_nat (Spec.token_count content)) minutes.
Proof.
  intros Hpost Hrun Hcode.
  destruct (validate_200_inv _ _ _ _ _ Hpost Hrun Hcode)
    as (parsed & markdown & frontmatter & content & preview
        & Hbody & Hmd & Hm & ->).
  eexists parsed, markdown, frontmatter, content, _, _.
  repeat split; try eassumption; try reflexivity.
  - cbn. by rewrite wordCount_token_count.
  - rewrite <- wordCount_token_count. apply ceil_div_200.
  - rewrite <- wordCount_token_count. apply ceil_div_200.
Qed.

Lemma success_metrics_witness :
  exists parsed markdown frontmatter content meta (minutes : Z),
    parsed_body Demo.partial_post = Ok parsed
    /\ prop parsed (js "markdown") = Some markdown
    /\ matter Demo.env markdown = Ok (frontmatter, content)
    /\ field Demo.partial_valid "content" = Some (JStr content)
    /\ field Demo.partial_valid "metadata" = Some meta
    /\ prop meta (js "wordCount")
       = Some (JNum (Z.of_nat (Spec.token_count content)))
    /\ prop meta (js "readingTime") = Some (JNum minutes)
    /\ Spec.minutes_rounded_up (Z.of_nat (Spec.token_count content)) minutes.
Proof.
  apply (success_metrics Demo.env Demo.partial_post Demo.world Demo.world
           Demo.partial_valid); reflexivity.
Defined.

(** C4, as the code has it.  For the body
    [{markdown: "---\ntitle: T\ncategory: example\nlayout: content.njk\n---\n# Hi"}]
    without [schemaUrl], gray-matter giving the content ["# Hi"], the
    validator answers 200 with [metadata.wordCount] equal to 2: the two
    tokens are ["#"] and ["Hi"]. *)
Theorem example_wordCount_is_2 (E : Env) (ev : Event) (w : World)
    (frontmatter : json) (preview : jsstring) :
  is_method ev "POST" = true ->
  parsed_body ev
    = Ok (object [ (js "markdown", Some (JStr Demo.example_markdown)) ]) ->
  matter E (JStr Demo.example_markdown) = Ok (frontmatter, js "# Hi") ->
  md_render E (js "# Hi") = Ok preview ->
  exists r meta,
    Validate.handler E ev w = (w, Ok r)
    /\ statusCode r = 200
    /\ field r "metadata" = Some meta
    /\ prop meta (js "wordCount") = Some (JNum 2).
Proof.
  intros Hpost Hbody Hm Hr. eexists _, _. split.
  - unfold Validate.handler.
    rewrite (post_not_options _ Hpost), Hpost. cbn [negb].
    unfold Validate.parse_frontmatter, Validate.check_schema.
    run. rewrite Hbody. unfold object. read_body.
    change (assoc (js "markdown") _)
      with (Some (JStr Demo.example_markdown)).
    change (assoc (js "schemaUrl") _) with (@None json).
    change (truthy (Some (JStr Demo.example_markdown))) with true.
    cbv beta iota. rewrite Hm, Hr. reflexivity.
  - repeat split; reflexivity.
Qed.

Lemma example_wordCount_is_2_witness :
  exists r meta,
    Validate.handler Demo.env Demo.example_post Demo.world
      = (Demo.world, Ok r)
    /\ statusCode r = 200
    /\ field r "metadata" = Some meta
    /\ prop meta (js "wordCount") = Some (JNum 2).
Proof.
  apply (example_wordCount_is_2 Demo.env Demo.example_post Demo.world
           (JObj [ (js "title", JStr (js "T"));
                   (js "category", JStr (js "example"));
                   (js "layout", JStr (js "content.njk")) ])
           (js "<div># Hi</div>")); reflexivity.
Defined.

(** C4 as stated does not hold: on the example document the validator
    reports two words, not one. *)
Lemma example_wordCount_is_not_1 :
  exists r meta,
    Demo.response_of (Validate.handler Demo.env Demo.example_post) Demo.world
      = Some r
    /\ statusCode r = 200
    /\ field r "metadata" = Some meta
    /\ prop meta (js "wordCount") = Some (JNum 2)
    /\ prop meta (js "wordCount") <> Some (JNum 1).
Proof.
  eexists _, _. split; [reflexivity|]. repeat split; try reflexivity.
  discriminate.
Qed.

(** ** Build dispatcher *)

Lemma store_metadata_ok (E : Env) (buildId : jsstring) (pid md : json)
    (metadata : value) (ts : jsstring) (title slug : json) (w : World) :
  exists w',
    Build.store_metadata E buildId pid md metadata ts title slug w
      = (w', Ok tt)
    /\ uuid_ctr w' = uuid_ctr w /\ now w' = now w.
Proof.
  unfold Build.store_metadata.
  destruct (getenv E AWS_DYNAMODB_TABLE) as [tbl|]; [|by eexists].
  destruct (nonempty tbl); [|by eexists].
  run. destruct (dynamo_fault E w _); by eexists.
Qed.

Lemma trigger_workflow_ok (E : Env) (owner repo branch buildId : jsstring)
    (pid : json) (w : World) :
  exists w',
    Build.trigger_workflow E owner repo branch buildId pid w = (w', Ok tt)
    /\ uuid_ctr w' = uuid_ctr w /\ now w' = now w.
Proof.
  unfold Build.trigger_workflow. run.
  destruct (octokit E w _ _); by eexists.
Qed.

(** The response to an accepted dispatch, from the request, the
    configuration, the identifier drawn and the time. *)
Lemma accepted_fields (buildId branch filePath serviceUrl ts : jsstring)
    (pid title slug : json) :
  let r := Build.accepted buildId branch filePath serviceUrl pid title slug ts in
  statusCode r = 202
  /\ field r "status" = Some (JStr (js "queued"))
  /\ field r "buildId" = Some (JStr buildId)
  /\ field r "branchName" = Some (JStr branch).
Proof. repeat split; reflexivity. Qed.

(** C3.  When the reference of the main branch is resolved, the branch is
    created and the file is committed, the dispatcher answers 202 with
    status [queued], the identifier it drew and the branch name
    [build/<identifier>].  Nothing is assumed about the DynamoDB put, about
    the table being configured or about the explicit workflow dispatch:
    whether they succeed or fail, the response is the same.  The commit of
    the file includes the making of its path and of its message, which
    are template literals over [projectId], [slug] and [title]: these
    three convert to strings. *)
Theorem dispatch_accepted (E : Env) (ev : Event) (w : World)
    (parsed markdown projectId : json) (owner repo content : jsstring) :
  is_method ev "POST" = true ->
  parsed_body ev = Ok parsed ->
  prop parsed (js "markdown") = Some markdown ->
  truthy (Some markdown) = true ->
  prop parsed (js "projectId") = Some projectId ->
  truthy (Some projectId) = true ->
  Build.github_owner E = Some owner -> nonempty owner = true ->
  getenv E GITHUB_REPO = Some repo -> nonempty repo = true ->
  (forall w0 p, exists resp,
      octokit E w0 GitGetRef p = Ok resp /\ Spec.ref_resolved resp) ->
  (forall w0 p, exists resp, octokit E w0 GitCreateRef p = Ok resp) ->
  buffer_base64 E markdown = Ok content ->
  (forall w0 p, exists resp,
      octokit E w0 ReposCreateOrUpdateFileContents p = Ok resp) ->
  let buildId := uuidv4 E (uuid_ctr w) in
  let metadata := prop parsed (js "metadata") in
  let slug := or_else (opt_prop metadata (js "slug")) (JStr (js "index")) in
  let title := or_else (opt_prop metadata (js "title"))
                 (JStr (js "Untitled")) in
  converts (Some projectId) = true ->
  converts (Some slug) = true ->
  converts (Some title) = true ->
  exists w' r,
    Build.handler E ev w = (w', Ok r)
    /\ r = Build.accepted buildId (js "build/" ++ buildId)
             (js "content/" ++ string_of (number_to_string E) projectId
                ++ js "/" ++ string_of (number_to_string E) slug ++ js ".md")
             (Build.serviceUrl E ev)
             projectId title slug (toISOString E (now w))
    /\ statusCode r = 202
    /\ field r "status" = Some (JStr (js "queued"))
    /\ field r "buildId" = Some (JStr buildId)
    /\ field r "branchName" = Some (JStr (js "build/" ++ buildId)).
Proof.
  intros Hpost Hbody Hmd Hmdt Hpid Hpidt Ho Hot Hr Hrt Href Hcreate Hb64
    Hcommit buildId metadata slug title Hproject Hslug Htitle.
  destruct parsed as [| | | | |props]; try discriminate Hmd.
  cbn [prop] in Hmd, Hpid.
  cut (exists w', Build.handler E ev w
          = (w', Ok (Build.accepted buildId (js "build/" ++ buildId)
               (js "content/" ++ string_of (number_to_string E) projectId
                  ++ js "/" ++ string_of (number_to_string E) slug
                  ++ js ".md")
               (Build.serviceUrl E ev)
               projectId title slug (toISOString E (now w))))).
  { intros [w' H]. eexists w', _.
    split; [exact H|split; [reflexivity|apply accepted_fields]]. }
  unfold Build.handler.
  rewrite (post_not_options _ Hpost), Hpost. cbn [negb].
  run. rewrite Hbody. read_body. rewrite Hmd, Hpid, Hmdt, Hpidt. cbn [andb].
  rewrite (template_ok _ _ Hproject). run.
  match goal with
  | |- context [Build.store_metadata ?a ?b ?c ?d ?e ?f ?g ?h ?x] =>
      destruct (store_metadata_ok a b c d e f g h x) as (w1 & -> & Hu & Hn)
  end.
  unfold Build.push_and_dispatch. rewrite Ho, Hr, Hot, Hrt. cbn [andb].
  run.
  match goal with
  | |- context [octokit E ?w0 GitGetRef ?p] =>
      destruct (Href w0 p)
        as (resp & -> & data & obj & sha & Hdata & Hobj & Hsha)
  end.
  rewrite (member_prop _ _ _ Hdata). run.
  rewrite (member_prop _ _ _ Hobj). run.
  rewrite (member_prop _ _ _ Hsha). run.
  match goal with
  | |- context [octokit E ?w0 GitCreateRef ?p] =>
      destruct (Hcreate w0 p) as [? ->]
  end.
  rewrite (template_ok _ _ Hproject). run.
  fold metadata. fold slug. rewrite (template_ok _ _ Hslug). run.
  match goal with
  | |- context [octokit E ?w0 ReposGetContent ?p] =>
      destruct (octokit E w0 ReposGetContent p)
  end.
  all: fold title; rewrite (template_ok _ _ Htitle); run.
  all: rewrite Hb64.
  all: match goal with
       | |- context [octokit _ ?w0 ReposCreateOrUpdateFileContents ?p] =>
           destruct (Hcommit w0 p) as [? ->]
       end.
  all: match goal with
       | |- context [Build.trigger_workflow ?a ?b ?c ?d ?e ?f ?x] =>
           destruct (trigger_workflow_ok a b c d e f x) as (w2 & -> & _ & _)
       end.
  all: by eexists.
Qed.

(** What a successful run of the GitHub part returns. *)
Lemma push_and_dispatch_inv (E : Env) (ev : Event) (buildId : jsstring)
    (pid md : json) (metadata : value) (ts : jsstring) (title slug : json)
    (w w' : World) (r : Response) :
  Build.push_and_dispatch E ev buildId pid md metadata ts title slug w
    = (w', Ok r) ->
  uuid_ctr w' = uuid_ctr w
  /\ exists filePath serviceUrl,
       r = Build.accepted buildId (js "build/" ++ buildId) filePath
             serviceUrl pid title slug ts.
Proof.
  unfold Build.push_and_dispatch. intros H. run_in H.
  repeat (first
    [ match type of H with
      | context [Build.trigger_workflow ?a ?b ?c ?d ?e ?f ?x] =>
          destruct (trigger_workflow_ok a b c d e f x) as (? & Ht & Hu & _);
          rewrite Ht in H; cbn [table uuid_ctr now calls] in Hu
      | context [template ?E0 ?v _] => split_template_in E0 v H
      end
    | case_match ]; simplify_eq; cbn [table uuid_ctr now calls] in * ).
  all: split; [congruence|by eexists _, _].
Qed.

(** What a dispatch that is answered 202 did: it drew one identifier and
    reports it, with the branch named after it. *)
Lemma build_202_inv (E : Env) (ev : Event) (w w' : World) (r : Response) :
  Build.handler E ev w = (w', Ok r) ->
  statusCode r = 202 ->
  uuid_ctr w' = S (uuid_ctr w)
  /\ field r "buildId" = Some (JStr (uuidv4 E (uuid_ctr w)))
  /\ field r "branchName"
     = Some (JStr (js "build/" ++ uuidv4 E (uuid_ctr w))).
Proof.
  unfold Build.handler. intros H Hcode. run_in H.
  repeat (case_match; simplify_eq; cbn [table uuid_ctr now calls] in *;
          try discriminate Hcode).
  template_worlds.
  match goal with
  | Hs : Build.store_metadata ?a ?b ?c ?d ?e ?f ?g ?h ?x = _,
    Hp : Build.push_and_dispatch _ _ _ _ _ _ _ _ _ _ = _ |- _ =>
      destruct (store_metadata_ok a b c d e f g h x) as (? & Hs' & Hu & _);
      rewrite Hs' in Hs; simplify_eq;
      apply push_and_dispatch_inv in Hp as (Hu' & fp & su & ->)
  end.
  cbn [uuid_ctr] in Hu. split; [congruence|]. split; reflexivity.
Qed.

(** ** Status reconciler *)

Lemma find_run_world (branch : jsstring) (runs : list json) (w : World) :
  fst (Status.find_run branch runs w) = w.
Proof.
  induction runs as [|x runs IH]; [done|].
  cbn [Status.find_run]. unfold member. run.
  destruct x; try done; by destruct (is_str _ _).
Qed.

Lemma find_run_some (branch : jsstring) (runs : list json) (w w' : World)
    (run : json) :
  Status.find_run branch runs w = (w', Ok (Some run)) ->
  exists before after,
    runs = before ++ run :: after
    /\ Forall (fun x => is_str (prop x (js "head_branch")) branch = false)
         before
    /\ is_str (prop run (js "head_branch")) branch = true.
Proof.
  revert w. induction runs as [|x runs IH]; intros w; [done|].
  cbn [Status.find_run]. unfold member. run.
  destruct (is_str (prop x (js "head_branch")) branch) eqn:Hx.
  - destruct x; try done; rewrite Hx; intros [= <- <-];
      by exists [], runs.
  - intros H.
    assert (Status.find_run branch runs w = (w', Ok (Some run)))
      as (before & after & -> & ? & ?)%IH.
    { destruct x; try done; by rewrite Hx in H. }
    exists (x :: before), after. by repeat constructor.
Qed.

(** The workflow query always yields a workflow; it only lists runs, and
    what it yields is the match for the branch [build/<buildId>]. *)
Lemma query_workflow_spec (E : Env) (buildId : jsstring) (w : World) :
  exists w' wf new,
    Status.query_workflow E buildId w = (w', Ok wf)
    /\ table w' = table w
    /\ calls w' = calls w ++ new
    /\ Forall (fun c => is_octokit c = true) new
    /\ Spec.Matched E (js "build/" ++ buildId) wf.
Proof.
  unfold Status.query_workflow.
  assert (Hno : forall w0 new,
    table w0 = table w -> calls w0 = calls w ++ new ->
    Forall (fun c => is_octokit c = true) new ->
    exists w' wf new,
      (w0, Ok Status.no_workflow) = (w', Ok wf)
      /\ table w' = table w /\ calls w' = calls w ++ new
      /\ Forall (fun c => is_octokit c = true) new
      /\ Spec.Matched E (js "build/" ++ buildId) wf).
  { intros w0 new ? ? ?. exists w0, Status.no_workflow, new.
    repeat split; try done. by left. }
  destruct (Build.github_owner E) as [owner|];
    [|by apply (Hno w []); rewrite ?app_nil_r].
  destruct (getenv E GITHUB_REPO) as [repo|];
    [|by apply (Hno w []); rewrite ?app_nil_r].
  destruct (nonempty owner && nonempty repo);
    [|by apply (Hno w []); rewrite ?app_nil_r].
  run.
  match goal with
  | |- context [octokit E w ?r ?p] =>
      pose (params := p); destruct (octokit E w r p) as [resp|e] eqn:Hl
  end; [|by (eapply Hno; [reflexivity|reflexivity|repeat constructor])].
  unfold member. run.
  destruct resp as [| | | | |rprops] eqn:Hresp;
    try by (eapply Hno; [reflexivity|reflexivity|repeat constructor]).
  destruct (prop (JObj rprops) (js "data")) as [data|] eqn:Hdata;
    [|by (eapply Hno; [reflexivity|reflexivity|repeat constructor])].
  destruct data as [| | | | |dprops] eqn:Hd;
    try by (eapply Hno; [reflexivity|reflexivity|repeat constructor]).
  destruct (prop (JObj dprops) (js "workflow_runs")) as [[| | | |runs|]|]
    eqn:Hruns;
    try by (eapply Hno; [reflexivity|reflexivity|repeat constructor]).
  match goal with
  | |- context [Status.find_run ?b runs ?w0] =>
      pose proof (find_run_world b runs w0) as Hw;
      destruct (Status.find_run b runs w0) as [w1 [[run|]|e]] eqn:Hf;
      cbn [fst] in Hw; subst w1
  end; try by (eapply Hno; [reflexivity|reflexivity|repeat constructor]).
  apply find_run_some in Hf as (before & after & -> & Hb & Hr).
  eexists _, _, _. split; [reflexivity|].
  split; [reflexivity|]. split; [reflexivity|].
  split; [by repeat constructor|].
  right. exists w, params, (JObj rprops), (JObj dprops), before, run, after.
  by repeat split.
Qed.

Lemma find_run_first (branch : jsstring) (before after : list json)
    (run : json) (w : World) :
  Forall (fun x => x <> JNull
                   /\ is_str (prop x (js "head_branch")) branch = false)
    before ->
  is_str (prop run (js "head_branch")) branch = true ->
  Status.find_run branch (before ++ run :: after) w = (w, Ok (Some run)).
Proof.
  intros Hb Hr. induction Hb as [|x before [Hx Hn] _ IH];
    cbn [app Status.find_run]; unfold member; run.
  - destruct run; try done; by rewrite Hr.
  - destruct x; try done; by rewrite Hn.
Qed.

(** With the repository configured and the listing answered, the first
    run of the branch [build/<buildId>] is the one reported. *)
Lemma query_workflow_first (E : Env) (buildId owner repo : jsstring)
    (w : World) (resp data run : json) (before after : list json) :
  Build.github_owner E = Some owner -> nonempty owner = true ->
  getenv E GITHUB_REPO = Some repo -> nonempty repo = true ->
  octokit E w ActionsListWorkflowRunsForRepo (object
    [ (js "owner", Some (JStr owner)); (js "repo", Some (JStr repo));
      (js "per_page", Some (JNum 50)) ]) = Ok resp ->
  prop resp (js "data") = Some data ->
  prop data (js "workflow_runs") = Some (JArr (before ++ run :: after)) ->
  Forall (fun x => x <> JNull
                   /\ is_str (prop x (js "head_branch"))
                        (js "build/" ++ buildId) = false) before ->
  is_str (prop run (js "head_branch")) (js "build/" ++ buildId) = true ->
  exists w',
    Status.query_workflow E buildId w
    = (w', Ok {| Status.workflowStatus := prop run (js "status");
                 Status.workflowConclusion := prop run (js "conclusion");
                 Status.workflowUrl := prop run (js "html_url") |}).
Proof.
  intros Ho Hot Hr Hrt Hl Hd Hruns Hb Hm. unfold Status.query_workflow.
  rewrite Ho, Hr, Hot, Hrt. cbn [andb]. run. rewrite Hl.
  rewrite (member_prop _ _ _ Hd). run.
  rewrite (member_prop _ _ _ Hruns). run.
  rewrite (find_run_first _ _ _ _ _ Hb Hm). by eexists.
Qed.

(** The record lookup always yields a result; it sends at most one
    request, a read of the key [buildId], and leaves the table as it is. *)
Lemma lookup_build_spec (E : Env) (buildId : jsstring) (w : World) :
  exists w' found,
    Status.lookup_build E buildId w = (w', Ok found)
    /\ table w' = table w
    /\ calls w' = calls w ++ Spec.lookup_calls E buildId
    /\ match found with
       | Some item =>
           exists tbl,
             getenv E AWS_DYNAMODB_TABLE = Some tbl
             /\ nonempty tbl = true
             /\ dynamo_fault E w (DynamoGet tbl buildId) = None
             /\ table w !! buildId = Some item
       | None => Spec.NoRecord E w buildId
       end.
Proof.
  unfold Status.lookup_build, Spec.NoRecord, Spec.lookup_calls.
  destruct (getenv E AWS_DYNAMODB_TABLE) as [tbl|] eqn:Ht.
  2: { exists w, None. rewrite app_nil_r. repeat split; auto. }
  destruct (nonempty tbl) eqn:Hne.
  2: { exists w, None. rewrite app_nil_r. repeat split; auto. }
  run. destruct (dynamo_fault E w (DynamoGet tbl buildId)) as [e|] eqn:Hf.
  { eexists _, None. repeat split; eauto 10. }
  destruct (table w !! buildId) as [item|] eqn:Hl.
  - eexists _, (Some item). repeat split. eauto 10.
  - eexists _, None. repeat split; eauto 10.
Qed.

Lemma lookup_calls_reads (E : Env) (buildId : jsstring) :
  Forall (fun c => is_octokit c = false /\ is_dynamo_write c = false)
    (Spec.lookup_calls E buildId).
Proof.
  unfold Spec.lookup_calls.
  destruct (getenv E AWS_DYNAMODB_TABLE) as [tbl|]; [|constructor].
  destruct (nonempty tbl); by repeat constructor.
Qed.

Lemma no_record_not_found (E : Env) (w : World) (buildId tbl : jsstring)
    (item : Item) :
  Spec.NoRecord E w buildId ->
  getenv E AWS_DYNAMODB_TABLE = Some tbl ->
  nonempty tbl = true ->
  dynamo_fault E w (DynamoGet tbl buildId) = None ->
  table w !! buildId = Some item ->
  False.
Proof.
  unfold Spec.NoRecord. intros H Ht Hne Hf Hl. rewrite Ht in H.
  destruct H as [H|[[e H]|H]]; congruence.
Qed.

(** The three URLs: built from the stored [projectId] when that converts
    to a string; a throw only when it does not, and SITE_URL or
    AWS_BUCKET_NAME is set. *)
Lemma build_urls_cases (E : Env) (buildId : jsstring) (item : Item)
    (w : World) :
  let projectId :=
    string_of_v (number_to_string E) (assoc (js "projectId") item) in
  let url (v : EnvVar) (f : jsstring -> jsstring) : json :=
    match getenv E v with
    | Some base => if nonempty base then JStr (f base) else JNull
    | None => JNull
    end in
  exists o,
    Status.build_urls E buildId (JObj item) w = (w, o)
    /\ (converts (assoc (js "projectId") item) = true
         \/ (env_truthy (getenv E SITE_URL) = false
             /\ env_truthy (getenv E AWS_BUCKET_NAME) = false) ->
        o = Ok {| Status.siteUrl :=
                    url SITE_URL (fun base =>
                      base ++ js "/" ++ projectId ++ js "/");
                  Status.downloadUrl :=
                    url SERVICE_URL (fun base =>
                      base ++ js "/download/" ++ buildId);
                  Status.archiveUrl :=
                    url AWS_BUCKET_NAME (fun base =>
                      js "s3://" ++ base ++ js "/archives/" ++ projectId
                         ++ js "/" ++ buildId ++ js "/") |})
    /\ (converts (assoc (js "projectId") item) = false ->
        env_truthy (getenv E SITE_URL) = true
        \/ env_truthy (getenv E AWS_BUCKET_NAME) = true ->
        o = Throw type_error).
Proof.
  intros projectId url. unfold Status.build_urls, Status.url_if, env_truthy.
  cbn [prop]. subst url. cbn beta.
  destruct (converts (assoc (js "projectId") item)) eqn:Hconv;
    [rewrite !(template_ok _ _ Hconv)|rewrite !(template_throws _ _ Hconv)];
    fold projectId;
    (destruct (getenv E SITE_URL) as [site|]; [destruct (nonempty site)|]);
    (destruct (getenv E SERVICE_URL) as [service|];
     [destruct (nonempty service)|]);
    (destruct (getenv E AWS_BUCKET_NAME) as [bucket|];
     [destruct (nonempty bucket)|]);
    run; (eexists; split; [reflexivity|]);
    (split; [intros [?|[? ?]]; done|intros ? [?|?]; done]).
Qed.

(** The three ways a GET ends; when the record is found, the answer is
    the 200 response unless building the URLs throws. *)
Lemma status_handler_cases (E : Env) (ev : Event) (w : World) :
  is_method ev "GET" = true ->
  match Status.extract_buildId (path ev) with
  | None => Status.handler E ev w = (w, Ok Status.id_required)
  | Some buildId =>
      exists w1 found,
        Status.lookup_build E buildId w = (w1, Ok found)
        /\ match found with
           | None => Status.handler E ev w = (w1, Ok Status.not_found)
           | Some item =>
               exists w2 wf o,
                 Status.query_workflow E buildId w1 = (w2, Ok wf)
                 /\ Status.build_urls E buildId (JObj item) w2 = (w2, o)
                 /\ Status.handler E ev w
                    = (w2, Ok match o with
                              | Ok urls =>
                                  Status.report buildId (JObj item) wf urls
                              | Throw error =>
                                  Status.reply 500
                                    [ (js "error",
                                       Some (JStr (js "Status check failed")));
                                      (js "message",
                                       Some (JStr (message error))) ]
                              end)
           end
  end.
Proof.
  intros Hget. unfold Status.handler.
  rewrite (get_not_options _ Hget), Hget. cbn [negb].
  destruct (Status.extract_buildId (path ev)) as [buildId|] eqn:Hx; [|done].
  rewrite (extract_buildId_nonempty _ _ Hx).
  destruct (lookup_build_spec E buildId w) as (w1 & found & Hl & _).
  exists w1, found. split; [done|].
  run. rewrite Hl. destruct found as [item|]; [|done].
  destruct (query_workflow_spec E buildId w1) as (w2 & wf & ? & Hq & _).
  destruct (build_urls_cases E buildId item w2) as (o & Hu & _).
  exists w2, wf, o. split; [done|]. split; [done|].
  rewrite Hq, Hu. by destruct o.
Qed.

Lemma is_str_true (v : value) (s : jsstring) :
  is_str v s = true <-> v = Some (JStr s).
Proof.
  destruct v as [[| | |s'| |]|]; simpl; try by split.
  rewrite bool_decide_eq_true. split; [by intros ->|by intros [= ->]].
Qed.

Lemma is_str_false (v : value) (s : jsstring) :
  is_str v s = false <-> v <> Some (JStr s).
Proof.
  rewrite <- is_str_true. by destruct (is_str v s).
Qed.

Lemma report_fields (buildId : jsstring) (item : Item)
    (wf : Status.Workflow) (urls : Status.Urls) :
  let r := Status.report buildId (JObj item) wf urls in
  statusCode r = 200
  /\ field r "buildId" = Some (JStr buildId)
  /\ field r "status" = Some (Status.finalStatus (JObj item) wf)
  /\ field r "workflow"
     = Some (object [ (js "status", Status.workflowStatus wf);
                      (js "conclusion", Status.workflowConclusion wf);
                      (js "url", Status.workflowUrl wf) ]).
Proof.
  unfold Status.report, field, Status.reply, object.
  cbn [body statusCode prop]. repeat split.
  all: destruct (assoc (js "projectId") item), (assoc (js "title") item),
         (assoc (js "slug") item), (assoc (js "createdAt") item),
         (assoc (js "authorEmail") item), (assoc (js "fileSize") item);
       reflexivity.
Qed.

(** A status of a BuildRecord is a string that is not empty. *)
Lemma record_status_kept (item : Item) :
  Spec.BuildRecord item ->
  or_else (assoc (js "status") item) (JStr (js "queued"))
  = match assoc (js "status") item with
    | Some stored => stored
    | None => JStr (js "queued")
    end.
Proof.
  intros [[->|(s & Hs & ->)] _]; [done|].
  unfold or_else, truthy. destruct s as [|c s]; [|done].
  exfalso. revert Hs. by apply (bool_decide_unpack _).
Qed.

(** Every row the dispatcher writes is a BuildRecord: its status is
    [queued], and its [projectId] has been converted before the put. *)
Lemma written_rows_are_records (buildId ts : jsstring)
    (projectId markdown title slug : json) (metadata : value) (t : Z) :
  converts (Some projectId) = true ->
  Spec.BuildRecord
    (Build.build_item buildId projectId markdown metadata ts title slug t).
Proof.
  intros Hconv. split; [right; exists (js "queued")|].
  - split; [apply list_elem_of_here|reflexivity].
  - exact Hconv.
Qed.

(** C1.  When the record of the build is stored, a BuildRecord, the
    response is 200 and its [status] follows from the workflow it reports
    (the first listed run of the branch [build/<buildId>], or [unknown]):
    [completed] or [failed] for a completed run, by its conclusion being
    [success] or not; [building] for a run in progress; in every other
    case the stored [status], and [queued] when the record has none. *)
Theorem final_status_rule (E : Env) (ev : Event) (w : World)
    (buildId tbl : jsstring) (item : Item) :
  is_method ev "GET" = true ->
  Spec.LastSegment (path ev) buildId ->
  getenv E AWS_DYNAMODB_TABLE = Some tbl ->
  nonempty tbl = true ->
  dynamo_fault E w (DynamoGet tbl buildId) = None ->
  table w !! buildId = Some item ->
  Spec.BuildRecord item ->
  exists w' r wf final,
    Status.handler E ev w = (w', Ok r)
    /\ statusCode r = 200
    /\ Spec.Matched E (js "build/" ++ buildId) wf
    /\ field r "workflow"
       = Some (object [ (js "status", Status.workflowStatus wf);
                        (js "conclusion", Status.workflowConclusion wf);
                        (js "url", Status.workflowUrl wf) ])
    /\ field r "status" = Some final
    /\ (Status.workflowStatus wf = Some (JStr (js "completed")) ->
        Status.workflowConclusion wf = Some (JStr (js "success")) ->
        final = JStr (js "completed"))
    /\ (Status.workflowStatus wf = Some (JStr (js "completed")) ->
        Status.workflowConclusion wf <> Some (JStr (js "success")) ->
        final = JStr (js "failed"))
    /\ (Status.workflowStatus wf = Some (JStr (js "in_progress")) ->
        final = JStr (js "building"))
    /\ (Status.workflowStatus wf <> Some (JStr (js "completed")) ->
        Status.workflowStatus wf <> Some (JStr (js "in_progress")) ->
        final = match assoc (js "status") item with
                | Some stored => stored
                | None => JStr (js "queued")
                end).
Proof.
  intros Hget Hseg%extract_buildId_last Ht Hne Hf Hl Hrecord.
  pose proof (status_handler_cases E ev w Hget) as Hc. rewrite Hseg in Hc.
  destruct Hc as (w1 & found & Hlook & Hc).
  destruct (lookup_build_spec E buildId w) as (? & ? & Hlook' & _ & _ & Hfound).
  rewrite Hlook in Hlook'. symmetry in Hlook'. simplify_eq.
  destruct found as [item'|].
  2: by destruct (no_record_not_found _ _ _ _ _ Hfound Ht Hne Hf Hl).
  destruct Hfound as (tbl' & ? & _ & _ & ?). simplify_eq.
  destruct Hc as (w2 & wf & o & Hq & Hu & ->).
  destruct (query_workflow_spec E buildId w1) as (? & ? & ? & Hq' & _ & _ & _ & Hm).
  rewrite Hq in Hq'. symmetry in Hq'. simplify_eq.
  destruct (build_urls_cases E buildId item w2) as (o' & Hu' & Hok & _).
  rewrite Hu in Hu'. symmetry in Hu'. simplify_eq.
  rewrite Hok by (left; apply Hrecord).
  match goal with
  | |- context [Status.report buildId (JObj item) wf ?u] =>
      destruct (report_fields buildId item wf u) as (Hcode & _ & Hst & Hwf);
      exists w2, (Status.report buildId (JObj item) wf u), wf,
        (Status.finalStatus (JObj item) wf)
  end.
  repeat split; try done; unfold Status.finalStatus.
  - intros H1 H2.
    by rewrite (proj2 (is_str_true _ _) H1), (proj2 (is_str_true _ _) H2).
  - intros H1 H2.
    by rewrite (proj2 (is_str_true _ _) H1), (proj2 (is_str_false _ _) H2).
  - intros Hs. rewrite Hs. reflexivity.
  - intros H1 H2.
    rewrite (proj2 (is_str_false _ _) H1), (proj2 (is_str_false _ _) H2).
    cbn [prop]. by apply record_status_kept.
Qed.

(** C2.  A GET for a build without stored record (table not configured,
    lookup failed, or no item) is answered 404 "Build not found", and no
    request is sent to GitHub, whatever runs GitHub would list. *)
Theorem missing_record_is_404 (E : Env) (ev : Event) (w : World)
    (buildId : jsstring) :
  is_method ev "GET" = true ->
  Spec.LastSegment (path ev) buildId ->
  Spec.NoRecord E w buildId ->
  exists w' r new,
    Status.handler E ev w = (w', Ok r)
    /\ statusCode r = 404
    /\ field r "error" = Some (JStr (js "Build not found"))
    /\ calls w' = calls w ++ new
    /\ Forall (fun c => is_octokit c = false) new.
Proof.
  intros Hget Hseg%extract_buildId_last Hno.
  pose proof (status_handler_cases E ev w Hget) as Hc. rewrite Hseg in Hc.
  destruct Hc as (w1 & found & Hlook & Hc).
  destruct (lookup_build_spec E buildId w)
    as (? & ? & Hlook' & _ & Hcalls & Hfound).
  rewrite Hlook in Hlook'. symmetry in Hlook'. simplify_eq.
  destruct found as [item|].
  { destruct Hfound as (tbl & Ht & Hne & Hf & Hl).
    by destruct (no_record_not_found _ _ _ _ _ Hno Ht Hne Hf Hl). }
  exists w1, Status.not_found, (Spec.lookup_calls E buildId).
  repeat split; try done.
  eapply Forall_impl; [apply lookup_calls_reads|]. by intros ? [].
Qed.

(** C9.  Every request to the status function is answered, and leaves the
    table as it was: the requests it sends are reads of the table and
    listings of workflow runs, never a write. *)
Theorem status_leaves_table (E : Env) (ev : Event) (w : World) :
  exists w' r new,
    Status.handler E ev w = (w', Ok r)
    /\ table w' = table w
    /\ calls w' = calls w ++ new
    /\ Forall (fun c => is_dynamo_write c = false) new.
Proof.
  destruct (is_method ev "GET") eqn:Hget.
  2: { unfold Status.handler. rewrite Hget. cbn [negb].
       destruct (is_method ev "OPTIONS");
         eexists w, _, []; rewrite app_nil_r; by repeat split. }
  pose proof (status_handler_cases E ev w Hget) as Hc.
  destruct (Status.extract_buildId (path ev)) as [buildId|].
  2: { eexists w, _, []. rewrite app_nil_r. by repeat split. }
  destruct Hc as (w1 & found & Hlook & Hc).
  destruct (lookup_build_spec E buildId w)
    as (? & ? & Hlook' & Htable & Hcalls & Hfound).
  rewrite Hlook in Hlook'. symmetry in Hlook'. simplify_eq.
  set (new := Spec.lookup_calls E buildId) in *.
  assert (Hnew : Forall (fun c => is_dynamo_write c = false) new).
  { eapply Forall_impl; [apply lookup_calls_reads|]. by intros ? []. }
  destruct found as [item|]; [|by eexists w1, _, new].
  destruct Hc as (w2 & wf & o & Hq & _ & ->).
  destruct (query_workflow_spec E buildId w1)
    as (? & ? & new2 & Hq' & Htable2 & Hcalls2 & Hnew2 & _).
  rewrite Hq in Hq'. symmetry in Hq'. simplify_eq.
  eexists w2, _, (new ++ new2). split; [done|].
  split; [congruence|]. split; [by rewrite Hcalls2, Hcalls, app_assoc|].
  apply Forall_app. split; [done|].
  eapply Forall_impl; [exact Hnew2|]. by intros [].
Qed.

(** C10.  On a GET, the identifier of the build is the last non-empty
    segment of the path: the table is read at that key, the response
    carries it, and the workflow reported is the match for the branch
    [build/<segment>].  The 400 "Build ID required" answers exactly the
    paths that have no non-empty segment. *)
Theorem buildId_is_last_segment (E : Env) (ev : Event) (w : World) :
  is_method ev "GET" = true ->
  exists w' r new,
    Status.handler E ev w = (w', Ok r)
    /\ calls w' = calls w ++ new
    /\ (statusCode r = 400 <-> Spec.NoSegment (path ev))
    /\ (Spec.NoSegment (path ev) -> r = Status.id_required)
    /\ forall seg,
         Spec.LastSegment (path ev) seg ->
         Status.extract_buildId (path ev) = Some seg
         /\ (exists rest,
               new = Spec.lookup_calls E seg ++ rest
               /\ Forall (fun c => is_octokit c = true) rest)
         /\ (statusCode r = 200 ->
             field r "buildId" = Some (JStr seg)
             /\ exists wf,
                  Spec.Matched E (js "build/" ++ seg) wf
                  /\ field r "workflow"
                     = Some (object
                         [ (js "status", Status.workflowStatus wf);
                           (js "conclusion", Status.workflowConclusion wf);
                           (js "url", Status.workflowUrl wf) ])).
Proof.
  intros Hget. pose proof (status_handler_cases E ev w Hget) as Hc.
  destruct (Status.extract_buildId (path ev)) as [buildId|] eqn:Hx.
  - assert (Hsome : ~ Spec.NoSegment (path ev)).
    { intros Hn%extract_buildId_none. congruence. }
    assert (Hseg : forall seg, Spec.LastSegment (path ev) seg -> seg = buildId).
    { intros seg Hs%extract_buildId_last. congruence. }
    destruct Hc as (w1 & found & Hlook & Hc).
    destruct (lookup_build_spec E buildId w)
      as (? & ? & Hlook' & _ & Hcalls & _).
    rewrite Hlook in Hlook'. symmetry in Hlook'. simplify_eq.
    destruct found as [item|].
    + destruct Hc as (w2 & wf & o & Hq & _ & ->).
      destruct (query_workflow_spec E buildId w1)
        as (? & ? & new2 & Hq' & _ & Hcalls2 & Hnew2 & Hm).
      rewrite Hq in Hq'. symmetry in Hq'. simplify_eq.
      eexists w2, _, (Spec.lookup_calls E buildId ++ new2).
      split; [done|]. split; [by rewrite Hcalls2, Hcalls, app_assoc|].
      destruct o as [urls|error].
      * destruct (report_fields buildId item wf urls)
          as (Hcode & Hid & _ & Hwf).
        split; [by rewrite Hcode|]. split; [done|].
        intros seg ->%Hseg. split; [done|]. split; [by eexists|].
        intros _. split; [done|]. by exists wf.
      * split; [done|]. split; [done|].
        intros seg ->%Hseg. split; [done|]. split; [by eexists|].
        intros Hcode. discriminate Hcode.
    + eexists w1, _, (Spec.lookup_calls E buildId).
      split; [exact Hc|]. split; [done|]. split; [done|]. split; [done|].
      intros seg ->%Hseg. split; [done|]. split; [|done].
      exists []. by rewrite app_nil_r.
  - assert (Hnone : Spec.NoSegment (path ev)) by by apply extract_buildId_none.
    eexists w, _, []. split; [exact Hc|]. rewrite app_nil_r.
    split; [done|]. split; [done|]. split; [done|].
    intros seg Hs%extract_buildId_last. congruence.
Qed.

(** ** Distinct identifiers *)

Lemma build_prefix_inj (a b : jsstring) :
  js "build/" ++ a = js "build/" ++ b -> a = b.
Proof. apply app_inv_head. Qed.

(** C8.  With [uuidv4] handing out an identifier once only, two accepted
    dispatches, whatever their markdown and [projectId] (the same or not),
    carry distinct [buildId]s, and distinct branch names, each branch name
    being [build/] followed by the [buildId]. *)
Theorem dispatches_have_distinct_ids (E : Env) (ev1 ev2 : Event)
    (w1 w1' w2 w2' : World) (r1 r2 : Response) :
  (forall i j, uuidv4 E i = uuidv4 E j -> i = j) ->
  Build.handler E ev1 w1 = (w1', Ok r1) ->
  statusCode r1 = 202 ->
  (uuid_ctr w1' <= uuid_ctr w2)%nat ->
  Build.handler E ev2 w2 = (w2', Ok r2) ->
  statusCode r2 = 202 ->
  exists id1 id2,
    field r1 "buildId" = Some (JStr id1)
    /\ field r1 "branchName" = Some (JStr (js "build/" ++ id1))
    /\ field r2 "buildId" = Some (JStr id2)
    /\ field r2 "branchName" = Some (JStr (js "build/" ++ id2))
    /\ id1 <> id2
    /\ js "build/" ++ id1 <> js "build/" ++ id2.
Proof.
  intros Hinj H1 Hc1 Hle H2 Hc2.
  destruct (build_202_inv _ _ _ _ _ H1 Hc1) as (Hu1 & Hid1 & Hb1).
  destruct (build_202_inv _ _ _ _ _ H2 Hc2) as (Hu2 & Hid2 & Hb2).
  exists (uuidv4 E (uuid_ctr w1)), (uuidv4 E (uuid_ctr w2)).
  assert (Hne : uuidv4 E (uuid_ctr w1) <> uuidv4 E (uuid_ctr w2)).
  { intros Heq%Hinj. lia. }
  repeat split; try done. by intros Heq%build_prefix_inj.
Qed.

(** ** The handlers on concrete requests *)

Lemma demo_uuid_inj (i j : nat) : Demo.uuid i = Demo.uuid j -> i = j.
Proof.
  unfold Demo.uuid. intros H%app_inv_head.
  apply (f_equal length) in H. by rewrite !length_replicate in H.
Qed.

Lemma bad_frontmatter_is_422_witness :
  exists w' r entry,
    Validate.handler Demo.env Demo.broken_post Demo.world = (w', Ok r)
    /\ calls w' = calls Demo.world
    /\ statusCode r = 422
    /\ field r "status" = Some (JStr (js "invalid"))
    /\ field r "errors" = Some (JArr [entry])
    /\ prop entry (js "path") = Some (JStr (js "frontmatter"))
    /\ prop entry (js "message")
       = Some (JStr (js "Invalid YAML frontmatter syntax"))
    /\ prop entry (js "details")
       = Some (JStr (js "bad indentation of a mapping entry")).
Proof.
  apply (bad_frontmatter_is_422 Demo.env Demo.broken_post Demo.world
           (object [ (js "markdown", Some (JStr Demo.broken_markdown));
                     (js "schemaUrl",
                      Some (JStr (js "https://twelvety.example/schema.json"))) ])
           (JStr Demo.broken_markdown)
           {| message := js "bad indentation of a mapping entry";
              stack := [] |}); reflexivity.
Defined.

Lemma schema_violations_all_reported_witness :
  exists w' r entries,
    Validate.handler Demo.env Demo.schema_post Demo.world = (w', Ok r)
    /\ statusCode r = 422
    /\ field r "status" = Some (JStr (js "invalid"))
    /\ field r "errors" = Some (JArr entries)
    /\ length entries = 2%nat.
Proof.
  destruct (schema_violations_all_reported Demo.env Demo.schema_post
              Demo.world
              (object [ (js "markdown", Some (JStr Demo.partial_markdown));
                        (js "schemaUrl",
                         Some (JStr (js "https://twelvety.example/schema.json"))) ])
              (JStr Demo.partial_markdown)
              (JStr (js "https://twelvety.example/schema.json"))
              (JObj [ (js "category", JStr (js "example")) ])
              Demo.schema (js "some text")
              {| ok := true; status := 200; json_body := Ok Demo.schema |}
              (Demo.required_errors Demo.schema)
              [ {| instancePath := []; schemaPath := js "#/required";
                   keyword := js "required";
                   params := object
                     [ (js "missingProperty", Some (JStr (js "title"))) ];
                   err_message :=
                     Some (JStr (js "must have required property 'title'")) |};
                {| instancePath := []; schemaPath := js "#/required";
                   keyword := js "required";
                   params := object
                     [ (js "missingProperty", Some (JStr (js "layout"))) ];
                   err_message :=
                     Some (JStr (js "must have required property 'layout'")) |} ])
    as (w' & r & entries & H & Hc & Hs & He & Hl & _); try reflexivity.
  by exists w', r, entries.
Defined.

Lemma demo_ref_resolved (E : Env) :
  octokit E = octokit Demo.env \/ octokit E = octokit Demo.degraded ->
  forall (w0 : World) (p : json), exists resp,
    octokit E w0 GitGetRef p = Ok resp /\ Spec.ref_resolved resp.
Proof.
  intros [-> | ->] w0 p; (eexists; split; [reflexivity|]);
    by eexists _, _, _.
Qed.

(** The table and the explicit workflow dispatch are both down here. *)
Lemma dispatch_accepted_witness :
  exists w' r,
    Build.handler Demo.degraded Demo.build_post Demo.world = (w', Ok r)
    /\ r = Demo.accepted 0
    /\ statusCode r = 202
    /\ field r "status" = Some (JStr (js "queued"))
    /\ field r "buildId" = Some (JStr (Demo.uuid 0))
    /\ field r "branchName" = Some (JStr (js "build/" ++ Demo.uuid 0)).
Proof.
  apply (dispatch_accepted Demo.degraded Demo.build_post Demo.world
           (object [ (js "markdown", Some (JStr Demo.partial_markdown));
                     (js "projectId", Some (JStr (js "docs"))) ])
           (JStr Demo.partial_markdown) (JStr (js "docs"))
           (js "your-org") (js "twelvety") Demo.partial_markdown);
    try reflexivity.
  all: first [ apply demo_ref_resolved; by right
             | intros w0 p; by eexists ].
Defined.

Lemma dispatches_have_distinct_ids_witness :
  exists id1 id2,
    field (Demo.accepted 0) "buildId" = Some (JStr id1)
    /\ field (Demo.accepted 0) "branchName" = Some (JStr (js "build/" ++ id1))
    /\ field (Demo.accepted 1) "buildId" = Some (JStr id2)
    /\ field (Demo.accepted 1) "branchName" = Some (JStr (js "build/" ++ id2))
    /\ id1 <> id2
    /\ js "build/" ++ id1 <> js "build/" ++ id2.
Proof.
  apply (dispatches_have_distinct_ids Demo.env Demo.build_post Demo.build_post
           Demo.world
           (Demo.world_after (Build.handler Demo.env Demo.build_post)
              Demo.world)
           (Demo.world_after (Build.handler Demo.env Demo.build_post)
              Demo.world)
           (Demo.world_after (Build.handler Demo.env Demo.build_post)
              (Demo.world_after (Build.handler Demo.env Demo.build_post)
                 Demo.world))).
  - apply demo_uuid_inj.
  - vm_compute. reflexivity.
  - reflexivity.
  - vm_compute. lia.
  - vm_compute. reflexivity.
  - reflexivity.
Defined.

Lemma status_get_segment :
  Spec.LastSegment (path Demo.status_get) (Demo.uuid 0).
Proof. by apply extract_buildId_last. Qed.

(** The row the dispatcher stored is a BuildRecord. *)
Lemma stored_item_record : Spec.BuildRecord Demo.stored_item.
Proof.
  split; [|reflexivity]. right. exists (js "queued").
  split; [apply list_elem_of_here|reflexivity].
Qed.

Lemma final_status_rule_witness :
  exists w' r wf final,
    Status.handler Demo.env Demo.status_get Demo.stored_world = (w', Ok r)
    /\ statusCode r = 200
    /\ Spec.Matched Demo.env (js "build/" ++ Demo.uuid 0) wf
    /\ field r "workflow"
       = Some (object [ (js "status", Status.workflowStatus wf);
                        (js "conclusion", Status.workflowConclusion wf);
                        (js "url", Status.workflowUrl wf) ])
    /\ field r "status" = Some final
    /\ (Status.workflowStatus wf = Some (JStr (js "completed")) ->
        Status.workflowConclusion wf = Some (JStr (js "success")) ->
        final = JStr (js "completed"))
    /\ (Status.workflowStatus wf = Some (JStr (js "completed")) ->
        Status.workflowConclusion wf <> Some (JStr (js "success")) ->
        final = JStr (js "failed"))
    /\ (Status.workflowStatus wf = Some (JStr (js "in_progress")) ->
        final = JStr (js "building"))
    /\ (Status.workflowStatus wf <> Some (JStr (js "completed")) ->
        Status.workflowStatus wf <> Some (JStr (js "in_progress")) ->
        final = match assoc (js "status") Demo.stored_item with
                | Some stored => stored
                | None => JStr (js "queued")
                end).
Proof.
  apply (final_status_rule Demo.env Demo.status_get Demo.stored_world
           (Demo.uuid 0) (js "twelvety-builds") Demo.stored_item);
    try reflexivity.
  - apply status_get_segment.
  - apply stored_item_record.
Defined.

Lemma missing_record_is_404_witness :
  exists w' r new,
    Status.handler Demo.env Demo.status_get Demo.world = (w', Ok r)
    /\ statusCode r = 404
    /\ field r "error" = Some (JStr (js "Build not found"))
    /\ calls w' = calls Demo.world ++ new
    /\ Forall (fun c => is_octokit c = false) new.
Proof.
  apply (missing_record_is_404 Demo.env Demo.status_get Demo.world
           (Demo.uuid 0)).
  - reflexivity.
  - apply status_get_segment.
  - right. right. vm_compute. reflexivity.
Defined.

Lemma buildId_is_last_segment_witness :
  exists w' r new,
    Status.handler Demo.env Demo.status_get Demo.stored_world = (w', Ok r)
    /\ calls w' = calls Demo.stored_world ++ new
    /\ (statusCode r = 400 <-> Spec.NoSegment (path Demo.status_get))
    /\ (Spec.NoSegment (path Demo.status_get) -> r = Status.id_required)
    /\ forall seg,
         Spec.LastSegment (path Demo.status_get) seg ->
         Status.extract_buildId (path Demo.status_get) = Some seg
         /\ (exists rest,
               new = Spec.lookup_calls Demo.env seg ++ rest
               /\ Forall (fun c => is_octokit c = true) rest)
         /\ (statusCode r = 200 ->
             field r "buildId" = Some (JStr seg)
             /\ exists wf,
                  Spec.Matched Demo.env (js "build/" ++ seg) wf
                  /\ field r "workflow"
                     = Some (object
                         [ (js "status", Status.workflowStatus wf);
                           (js "conclusion", Status.workflowConclusion wf);
                           (js "url", Status.workflowUrl wf) ])).
Proof.
  apply (buildId_is_last_segment Demo.env Demo.status_get Demo.stored_world).
  reflexivity.
Defined.

(** The response to a dispatch is the same with the table and the
    workflow dispatch up or down; only the request log and the table
    differ. *)
Example degraded_dispatch_same_response :
  Demo.response_of (Build.handler Demo.degraded Demo.build_post) Demo.world
  = Demo.response_of (Build.handler Demo.env Demo.build_post) Demo.world
  /\ table (Demo.world_after (Build.handler Demo.degraded Demo.build_post)
              Demo.world) = ∅
  /\ table (Demo.world_after (Build.handler Demo.env Demo.build_post)
              Demo.world) = {[ Demo.uuid 0 := Demo.stored_item ]}.
Proof. repeat split; vm_compute; reflexivity. Qed.

(** The reconciler reports [completed] for the stored build while the
    stored row keeps saying [queued]. *)
Example completed_is_only_reported :
  (exists r,
     Demo.response_of (Status.handler Demo.env Demo.status_get)
       Demo.stored_world = Some r
     /\ field r "status" = Some (JStr (js "completed")))
  /\ table (Demo.world_after (Status.handler Demo.env Demo.status_get)
              Demo.stored_world) !! Demo.uuid 0 = Some Demo.stored_item
  /\ assoc (js "status") Demo.stored_item = Some (JStr (js "queued")).
Proof.
  split; [eexists; split; vm_compute; reflexivity|].
  split; vm_compute; reflexivity.
Qed.

(** For the documented route, the last segment is [status]. *)
Example documented_route_segment :
  Status.extract_buildId (js "/api/build/b-/status") = Some (js "status").
Proof. reflexivity. Qed.

(** * Further properties of the handlers *)

(** ** Validator: requests that are turned away *)

(** X1.  A POST whose body has no truthy [markdown] (absent, [null],
    [false], [0], the empty string, or a body that is not an object) is
    answered 400 "Missing markdown content"; nothing is parsed or fetched. *)
Theorem validate_missing_markdown (E : Env) (ev : Event) (w : World)
    (parsed : json) :
  is_method ev "POST" = true ->
  parsed_body ev = Ok parsed ->
  parsed <> JNull ->
  truthy (prop parsed (js "markdown")) = false ->
  exists r,
    Validate.handler E ev w = (w, Ok r)
    /\ statusCode r = 400
    /\ field r "error" = Some (JStr (js "Missing markdown content")).
Proof.
  intros Hpost Hbody Hnull Hmd.
  exists (Validate.reply 400
            [ (js "error", Some (JStr (js "Missing markdown content"))) ]).
  split.
  - unfold Validate.handler.
    rewrite (post_not_options _ Hpost), Hpost. cbn [negb].
    run. rewrite Hbody. unfold member. run.
    destruct parsed; try done;
      destruct (prop _ (js "markdown")) as [md|] eqn:Hp; try done;
      rewrite ?Hmd; reflexivity.
  - split; reflexivity.
Qed.

(** X2.  A POST whose body does not parse, or parses to [null] (as a
    missing body does), is answered 500 "Internal server error", not 400;
    for a parse error the response carries its message. *)
Theorem validate_unreadable_body (E : Env) (ev : Event) (w : World) :
  is_method ev "POST" = true ->
  parsed_body ev = Ok JNull \/ (exists e, parsed_body ev = Throw e) ->
  exists r,
    Validate.handler E ev w = (w, Ok r)
    /\ statusCode r = 500
    /\ field r "error" = Some (JStr (js "Internal server error"))
    /\ forall e, parsed_body ev = Throw e ->
                 field r "message" = Some (JStr (message e)).
Proof.
  intros Hpost Hbody. unfold Validate.handler.
  rewrite (post_not_options _ Hpost), Hpost. cbn [negb]. run.
  destruct Hbody as [Hbody|[e Hbody]]; rewrite Hbody; cbn [member]; run;
    eexists; (split; [reflexivity|]); repeat split; try reflexivity.
  - intros e He. congruence.
  - intros e' He. by simplify_eq.
Qed.

(** X3.  When a schema is asked for and cannot be obtained ([fetch]
    throws, the response is not [ok], or its body is not JSON), the answer
    is 400 "Failed to fetch schema" with the message of the failure, after
    that one fetch; the metadata is not validated. *)
Theorem schema_fetch_failure_is_400 (E : Env) (ev : Event) (w : World)
    (parsed markdown url frontmatter : json) (content details : jsstring) :
  is_method ev "POST" = true ->
  parsed_body ev = Ok parsed ->
  prop parsed (js "markdown") = Some markdown ->
  truthy (Some markdown) = true ->
  prop parsed (js "schemaUrl") = Some url ->
  truthy (Some url) = true ->
  matter E markdown = Ok (frontmatter, content) ->
  Notions.FetchFails E w url details ->
  exists w' r,
    Validate.handler E ev w = (w', Ok r)
    /\ table w' = table w
    /\ calls w' = calls w ++ [Fetch url]
    /\ statusCode r = 400
    /\ field r "error" = Some (JStr (js "Failed to fetch schema"))
    /\ field r "details" = Some (JStr details).
Proof.
  intros Hpost Hbody Hmd Htruthy Hurl Hutruthy Hm Hf.
  destruct parsed as [| | | | |props]; try discriminate Hmd.
  cbn [prop] in Hmd, Hurl. unfold Notions.FetchFails in Hf.
  unfold Validate.handler.
  rewrite (post_not_options _ Hpost), Hpost. cbn [negb].
  unfold Validate.parse_frontmatter, Validate.check_schema,
    Validate.fetch_schema.
  run. rewrite Hbody. read_body.
  rewrite Hmd, Hurl, Htruthy, Hm, Hutruthy.
  destruct (fetch E w url) as [resp|e]; [destruct (ok resp)|].
  - destruct (json_body resp) as [?|e]; [done|]. subst details.
    eexists _, _. split; [reflexivity|]. by repeat split.
  - subst details. eexists _, _. split; [reflexivity|]. by repeat split.
  - subst details. eexists _, _. split; [reflexivity|]. by repeat split.
Qed.

(** X4.  When the metadata parses, the schema check passes (no schema
    asked for, or the fetched schema accepts the metadata) and the body
    renders, the answer is 200 with status [valid] and the parsed
    metadata, body and preview; a schema costs one fetch, no schema costs
    none, and then any metadata passes. *)
Theorem validate_accepts (E : Env) (ev : Event) (w : World)
    (parsed markdown frontmatter : json) (content preview : jsstring) :
  is_method ev "POST" = true ->
  parsed_body ev = Ok parsed ->
  prop parsed (js "markdown") = Some markdown ->
  truthy (Some markdown) = true ->
  matter E markdown = Ok (frontmatter, content) ->
  Notions.SchemaPasses E w (prop parsed (js "schemaUrl")) frontmatter ->
  md_render E content = Ok preview ->
  exists w' r,
    Validate.handler E ev w = (w', Ok r)
    /\ calls w' = calls w ++ Notions.schema_calls (prop parsed (js "schemaUrl"))
    /\ statusCode r = 200
    /\ field r "status" = Some (JStr (js "valid"))
    /\ field r "frontmatter" = Some frontmatter
    /\ field r "content" = Some (JStr content)
    /\ field r "preview" = Some (JStr preview).
Proof.
  intros Hpost Hbody Hmd Htruthy Hm Hs Hr.
  destruct parsed as [| | | | |props]; try discriminate Hmd.
  cbn [prop] in *. unfold Notions.schema_calls.
  unfold Validate.handler.
  rewrite (post_not_options _ Hpost), Hpost. cbn [negb].
  unfold Validate.parse_frontmatter, Validate.check_schema,
    Validate.fetch_schema.
  run. rewrite Hbody. read_body. rewrite Hmd, Htruthy, Hm.
  destruct Hs as [Hs|(url & resp & schema & validate & Hu & Hf & Hok & Hj
                      & Hc & Hv)].
  - destruct (assoc (js "schemaUrl") props) as [url|]; rewrite ?Hs, Hr;
      (eexists _, _; split; [reflexivity|]);
      rewrite ?app_nil_r; by repeat split.
  - rewrite Hu.
    destruct (truthy (Some url)); rewrite ?Hf, ?Hok, ?Hj, ?Hc, ?Hv, Hr;
      (eexists _, _; split; [reflexivity|]);
      rewrite ?app_nil_r; by repeat split.
Qed.

(** X5.  A schema that was fetched but does not compile is answered 500
    "Internal server error" with the compiler's message, not 400 or 422. *)
Theorem schema_compile_failure_is_500 (E : Env) (ev : Event) (w : World)
    (parsed markdown url frontmatter schema : json) (content : jsstring)
    (resp : FetchResponse) (e : Error) :
  is_method ev "POST" = true ->
  parsed_body ev = Ok parsed ->
  prop parsed (js "markdown") = Some markdown ->
  truthy (Some markdown) = true ->
  prop parsed (js "schemaUrl") = Some url ->
  truthy (Some url) = true ->
  matter E markdown = Ok (frontmatter, content) ->
  fetch E w url = Ok resp ->
  ok resp = true ->
  json_body resp = Ok schema ->
  ajv_compile E schema = Throw e ->
  exists w' r,
    Validate.handler E ev w = (w', Ok r)
    /\ statusCode r = 500
    /\ field r "error" = Some (JStr (js "Internal server error"))
    /\ field r "message" = Some (JStr (message e)).
Proof.
  intros Hpost Hbody Hmd Htruthy Hurl Hutruthy Hm Hf Hok Hjson Hc.
  destruct parsed as [| | | | |props]; try discriminate Hmd.
  cbn [prop] in Hmd, Hurl. eexists _, _. split.
  - unfold Validate.handler.
    rewrite (post_not_options _ Hpost), Hpost. cbn [negb].
    unfold Validate.parse_frontmatter, Validate.check_schema,
      Validate.fetch_schema.
    run. rewrite Hbody. read_body.
    rewrite Hmd, Hurl, Htruthy, Hm, Hutruthy, Hf, Hok, Hjson, Hc.
    reflexivity.
  - by repeat split.
Qed.

Lemma null_or_not (j : json) : j = JNull \/ j <> JNull.
Proof. destruct j; auto; by right. Qed.

Lemma member_not_null (j : json) (k : jsstring) :
  j <> JNull -> member (Some j) k = ret (prop j k).
Proof. by destruct j. Qed.

(** The schema check sends at most one request, a fetch, and an early
    response of it is a 400 or a 422. *)
Lemma check_schema_frame (E : Env) (schemaUrl : value) (fm : json)
    (w : World) :
  exists w' o,
    Validate.check_schema E schemaUrl fm w = (w', o)
    /\ table w' = table w /\ uuid_ctr w' = uuid_ctr w /\ now w' = now w
    /\ (calls w' = calls w \/ exists url, calls w' = calls w ++ [Fetch url])
    /\ forall r, o = Ok (Some r) -> statusCode r = 400 \/ statusCode r = 422.
Proof.
  unfold Validate.check_schema, Validate.fetch_schema.
  destruct schemaUrl as [url|]; [destruct (truthy (Some url))|]; run.
  2,3: by eexists _, _; repeat split; auto.
  destruct (fetch E w url) as [resp|e]; [destruct (ok resp)|].
  2,3: eexists _, _; repeat split; eauto; intros r [= <-]; by left.
  destruct (json_body resp) as [schema|e].
  2: eexists _, _; repeat split; eauto; intros r [= <-]; by left.
  destruct (ajv_compile E schema) as [validate|e].
  2: by eexists _, _; repeat split; eauto.
  destruct (validate fm).
  - by eexists _, _; repeat split; eauto.
  - eexists _, _; repeat split; eauto. intros r [= <-]. by right.
Qed.

(** X6.  Whatever the request, the validator answers, with one of the
    codes 200, 400, 405, 422 and 500; it leaves the table, the clock and
    the identifier source alone and sends at most one request, a fetch. *)
Theorem validate_touches_nothing (E : Env) (ev : Event) (w : World) :
  exists w' r,
    Validate.handler E ev w = (w', Ok r)
    /\ table w' = table w
    /\ uuid_ctr w' = uuid_ctr w
    /\ now w' = now w
    /\ (calls w' = calls w \/ exists url, calls w' = calls w ++ [Fetch url])
    /\ In (statusCode r) [200; 400; 405; 422; 500].
Proof.
  assert (Hsame : forall r, In (statusCode r) [200; 400; 405; 422; 500] ->
    exists w' r',
      (w, @Ok Response r) = (w', Ok r')
      /\ table w' = table w /\ uuid_ctr w' = uuid_ctr w /\ now w' = now w
      /\ (calls w' = calls w
          \/ exists url, calls w' = calls w ++ [Fetch url])
      /\ In (statusCode r') [200; 400; 405; 422; 500]).
  { intros r Hr. exists w, r. repeat split; auto. }
  unfold Validate.handler.
  destruct (is_method ev "OPTIONS"); [apply Hsame; cbn; tauto|].
  destruct (negb (is_method ev "POST")); [apply Hsame; cbn; tauto|].
  run. destruct (parsed_body ev) as [parsed|e]; [|apply Hsame; cbn; tauto].
  destruct (null_or_not parsed) as [->|Hnn];
    [cbn [member]; run; apply Hsame; cbn; tauto|].
  rewrite !(member_not_null _ _ Hnn). run.
  destruct (prop parsed (js "markdown")) as [md|];
    [|apply Hsame; cbn; tauto].
  destruct (truthy (Some md)); [|apply Hsame; cbn; tauto].
  unfold Validate.parse_frontmatter. run.
  destruct (matter E md) as [[fm content]|e]; [|apply Hsame; cbn; tauto].
  destruct (check_schema_frame E (prop parsed (js "schemaUrl")) fm w)
    as (w' & o & -> & Ht & Hu & Hn & Hc & Hcode).
  destruct o as [[early|]|e].
  - exists w', early. repeat split; auto.
    destruct (Hcode early eq_refl) as [-> | ->]; cbn; tauto.
  - destruct (md_render E content);
      eexists w', _; (split; [reflexivity|]); repeat split; auto;
      cbn; tauto.
  - eexists w', _. split; [reflexivity|]. repeat split; auto. cbn; tauto.
Qed.

(** ** Validator: content metrics *)

Lemma starts_with_prefix (p s : jsstring) :
  Validate.starts_with p s = true <-> exists rest, s = p ++ rest.
Proof.
  revert s. induction p as [|a p IH]; intros s; cbn.
  - split; [by exists s|done].
  - destruct s as [|b s]; [split; [done|by intros [? [=]]]|].
    rewrite andb_true_iff, N.eqb_eq, IH. split.
    + intros [-> [rest ->]]. by exists rest.
    + intros [rest [= -> ->]]. split; [done|by exists rest].
Qed.

(** [includes p s] says that [p] occurs in [s]. *)
Lemma includes_occurs (p s : jsstring) :
  Validate.includes p s = true <-> exists before after, s = before ++ p ++ after.
Proof.
  induction s as [|c s IH]; cbn [Validate.includes].
  - rewrite starts_with_prefix. split.
    + intros [rest H]. by exists [], rest.
    + intros (before & after & H). symmetry in H.
      apply app_eq_nil in H as [-> H]. by exists after.
  - rewrite orb_true_iff, starts_with_prefix, IH. split.
    + intros [[rest H]|(before & after & ->)].
      * by exists [], rest.
      * by exists (c :: before), after.
    + intros ([|c' before] & after & H).
      * left. by exists after.
      * right. injection H as -> ->. by exists before, after.
Qed.

(** X7.  In every success response of the validator, [contentLength] is
    the number of code units of the body, [hasCode] says whether three
    backticks occur in it, and [hasImages] whether ["<img"] or ["!["]
    occurs in it. *)
Theorem success_flags (E : Env) (ev : Event) (w w' : World) (r : Response) :
  is_method ev "POST" = true ->
  Validate.handler E ev w = (w', Ok r) ->
  statusCode r = 200 ->
  exists content meta hasImages hasCode,
    field r "content" = Some (JStr content)
    /\ field r "metadata" = Some meta
    /\ prop meta (js "contentLength")
       = Some (JNum (Z.of_nat (length content)))
    /\ prop meta (js "hasImages") = Some (JBool hasImages)
    /\ prop meta (js "hasCode") = Some (JBool hasCode)
    /\ (hasCode = true <->
        exists before after, content = before ++ js "```" ++ after)
    /\ (hasImages = true <->
        (exists before after, content = before ++ js "<img" ++ after)
        \/ (exists before after, content = before ++ js "![" ++ after)).
Proof.
  intros Hpost Hrun Hcode.
  destruct (validate_200_inv _ _ _ _ _ Hpost Hrun Hcode)
    as (parsed & markdown & frontmatter & content & preview & _ & _ & _ & ->).
  eexists content, _, _, _.
  split; [reflexivity|]. split; [reflexivity|]. split; [reflexivity|].
  split; [reflexivity|]. split; [reflexivity|].
  split; [apply includes_occurs|].
  by rewrite orb_true_iff, !includes_occurs.
Qed.

Lemma token_starts_zero (s : jsstring) :
  Spec.token_starts true s = 0%nat <-> Forall (fun c => is_space c = true) s.
Proof.
  induction s as [|c s IH]; cbn [Spec.token_starts]; [by split|].
  destruct (is_space c) eqn:Hc; cbn [andb negb Nat.add].
  - rewrite IH. split; [by constructor|by inversion 1].
  - split; [done|]. inversion 1. congruence.
Qed.

(** X8.  The word count is zero exactly for a body made of whitespace
    only (the empty body included), and so is the reading time: a body
    with a word takes at least one minute. *)
Theorem blank_body_counts_zero (content : jsstring) :
  (Validate.wordCount content = 0
   <-> Forall (fun c => is_space c = true) content)
  /\ (Validate.readingTime content = 0
      <-> Forall (fun c => is_space c = true) content)
  /\ 0 <= Validate.readingTime content <= Validate.wordCount content.
Proof.
  unfold Validate.readingTime. rewrite wordCount_token_count.
  rewrite <- token_starts_zero. unfold Spec.token_count, ceil_div.
  set (n := Spec.token_starts true content).
  pose proof (Z.div_mod (Z.of_nat n + 200 - 1) 200 ltac:(lia)) as Hd.
  pose proof (Z.mod_pos_bound (Z.of_nat n + 200 - 1) 200 ltac:(lia)) as Hm.
  repeat split; try lia.
Qed.

Lemma token_starts_app (f : bool) (a b : jsstring) (c : N) :
  is_space c = true ->
  Spec.token_starts f (a ++ c :: b)
  = (Spec.token_starts f a + Spec.token_starts true b)%nat.
Proof.
  intros Hc. revert f. induction a as [|x a IH]; intros f;
    cbn [app Spec.token_starts].
  - rewrite Hc. by rewrite andb_false_r.
  - rewrite IH. lia.
Qed.

(** X9.  Word counts add up over a whitespace character: the count of two
    texts joined by one is the sum of their counts. *)
Theorem wordCount_joined (a b : jsstring) (c : N) :
  is_space c = true ->
  Validate.wordCount (a ++ c :: b)
  = Validate.wordCount a + Validate.wordCount b.
Proof.
  intros Hc. rewrite !wordCount_token_count. unfold Spec.token_count.
  rewrite (token_starts_app _ _ _ _ Hc). lia.
Qed.

(** ** Dispatcher: requests that are turned away, and what is stored *)

Lemma build_rejects_incomplete_aux (E : Env) (ev : Event) (w : World)
    (parsed : json) :
  is_method ev "POST" = true ->
  parsed_body ev = Ok parsed ->
  parsed <> JNull ->
  truthy (prop parsed (js "markdown")) = false
  \/ truthy (prop parsed (js "projectId")) = false ->
  exists r,
    Build.handler E ev w = (w, Ok r)
    /\ statusCode r = 400
    /\ field r "error"
       = Some (JStr (js "Missing required fields: markdown, projectId")).
Proof.
  intros Hpost Hbody Hnn Hmiss.
  exists (Build.reply 400
    [ (js "error",
       Some (JStr (js "Missing required fields: markdown, projectId"))) ]).
  split; [|by split].
  unfold Build.handler.
  rewrite (post_not_options _ Hpost), Hpost. cbn [negb].
  run. rewrite Hbody. rewrite !(member_not_null _ _ Hnn). run.
  destruct (prop parsed (js "markdown")) as [md|]; [|done].
  destruct (prop parsed (js "projectId")) as [pid|]; [|done].
  by destruct Hmiss as [-> | ->]; rewrite ?andb_false_r.
Qed.

(** X10.  A POST to the dispatcher without a truthy [markdown] or without
    a truthy [projectId] is answered 400; no identifier is drawn, nothing
    is stored and no request is sent. *)
Theorem build_rejects_incomplete (E : Env) (ev : Event) (w : World)
    (parsed : json) :
  is_method ev "POST" = true ->
  parsed_body ev = Ok parsed ->
  parsed <> JNull ->
  truthy (prop parsed (js "markdown")) = false
  \/ truthy (prop parsed (js "projectId")) = false ->
  exists r,
    Build.handler E ev w = (w, Ok r)
    /\ statusCode r = 400
    /\ field r "error"
       = Some (JStr (js "Missing required fields: markdown, projectId")).
Proof. apply build_rejects_incomplete_aux. Qed.

(** What the optional put does to the world. *)
Lemma store_metadata_spec (E : Env) (buildId : jsstring) (pid md : json)
    (metadata : value) (ts : jsstring) (title slug : json) (w : World) :
  let item := Build.build_item buildId pid md metadata ts title slug (now w) in
  exists w',
    Build.store_metadata E buildId pid md metadata ts title slug w
      = (w', Ok tt)
    /\ uuid_ctr w' = uuid_ctr w /\ now w' = now w
    /\ Notions.routes (calls w') = Notions.routes (calls w)
    /\ (exists new, calls w' = calls w ++ new
                    /\ Forall (fun c => is_octokit c = false) new)
    /\ (table w' = table w \/ table w' = <[buildId := item]> (table w))
    /\ (Notions.Stores E w item -> table w' = <[buildId := item]> (table w))
    /\ (~ Notions.Stores E w item -> table w' = table w).
Proof.
  intros item. unfold Build.store_metadata, Notions.Stores.
  assert (Hskip : getenv E AWS_DYNAMODB_TABLE = None
                  \/ (exists tbl, getenv E AWS_DYNAMODB_TABLE = Some tbl
                                  /\ nonempty tbl = false) ->
    exists w',
      (w, @Ok unit tt) = (w', Ok tt)
      /\ uuid_ctr w' = uuid_ctr w /\ now w' = now w
      /\ Notions.routes (calls w') = Notions.routes (calls w)
      /\ (exists new, calls w' = calls w ++ new
                      /\ Forall (fun c => is_octokit c = false) new)
      /\ (table w' = table w \/ table w' = <[buildId := item]> (table w))
      /\ ((exists tbl,
             getenv E AWS_DYNAMODB_TABLE = Some tbl /\ nonempty tbl = true
             /\ dynamo_fault E w (DynamoPut tbl item) = None) ->
          table w' = <[buildId := item]> (table w))
      /\ (~ (exists tbl,
             getenv E AWS_DYNAMODB_TABLE = Some tbl /\ nonempty tbl = true
             /\ dynamo_fault E w (DynamoPut tbl item) = None) ->
          table w' = table w)).
  { intros Hcfg. exists w. split_and!; try done.
    - exists []. by rewrite app_nil_r.
    - by left.
    - intros (tbl & Ht & Hne & _).
      destruct Hcfg as [Hcfg|(tbl' & Hcfg & Hne')]; congruence. }
  destruct (getenv E AWS_DYNAMODB_TABLE) as [tbl|] eqn:Ht; [|by auto].
  destruct (nonempty tbl) eqn:Hne; [|by eauto].
  clear Hskip. run. fold item.
  assert (Hr : forall c, is_octokit c = false ->
            Notions.routes (calls w ++ [c]) = Notions.routes (calls w)).
  { intros c Hc. unfold Notions.routes. rewrite omap_app. cbn.
    destruct c; try done; by rewrite app_nil_r. }
  destruct (dynamo_fault E w (DynamoPut tbl item)) as [e|] eqn:Hf.
  - eexists. split; [reflexivity|]. cbn [table uuid_ctr now calls].
    split_and!; try done.
    + by apply Hr.
    + by exists [DynamoPut tbl item]; repeat constructor.
    + by left.
    + intros (? & [= <-] & _ & ?). congruence.
  - eexists. split; [reflexivity|]. cbn [table uuid_ctr now calls].
    split_and!; try done.
    + by apply Hr.
    + by exists [DynamoPut tbl item]; repeat constructor.
    + by right.
    + intros H. destruct H. by exists tbl.
Qed.

Ltac stop_at H l :=
  apply (H _ _ l);
  [ reflexivity | reflexivity | by rewrite <- ?app_assoc
  | by repeat constructor | by eexists | done ].

Lemma member_cases (v : value) (k : jsstring) (w : World) :
  member v k w = (w, Throw type_error) \/ exists x, member v k w = (w, Ok x).
Proof. destruct v as [[| | | | |]|]; cbn; eauto. Qed.

Lemma trigger_workflow_calls (E : Env) (owner repo branch buildId : jsstring)
    (pid : json) (w : World) :
  exists w' params,
    Build.trigger_workflow E owner repo branch buildId pid w = (w', Ok tt)
    /\ table w' = table w /\ uuid_ctr w' = uuid_ctr w /\ now w' = now w
    /\ calls w' = calls w ++ [Octokit ActionsCreateWorkflowDispatch params]
    /\ prop params (js "ref") = Some (JStr branch)
    /\ prop params (js "workflow_id") = Some (JStr (js "build.yml")).
Proof.
  unfold Build.trigger_workflow. run.
  destruct (octokit E w _ _); eexists _, _; (split; [reflexivity|]);
    by repeat split.
Qed.

(** The GitHub part of a dispatch: its requests, in order, are a first
    part of the five of [dispatch_routes]; it ends well exactly when all
    five were sent. *)
Lemma push_and_dispatch_routes (E : Env) (ev : Event) (buildId : jsstring)
    (pid md : json) (metadata : value) (ts : jsstring) (title slug : json)
    (w : World) :
  exists w' o new,
    Build.push_and_dispatch E ev buildId pid md metadata ts title slug w
      = (w', o)
    /\ table w' = table w /\ uuid_ctr w' = uuid_ctr w
    /\ calls w' = calls w ++ new
    /\ Forall (fun c => is_octokit c = true) new
    /\ Notions.routes new `prefix_of` Notions.dispatch_routes
    /\ match o with
       | Ok r => Notions.routes new = Notions.dispatch_routes
                 /\ statusCode r = 202
       | Throw e => Notions.routes new <> Notions.dispatch_routes
       end
    /\ (Notions.github_configured E = false ->
        new = [] /\ o = Throw Notions.config_error).
Proof.
  unfold Build.push_and_dispatch, Notions.github_configured. run.
  assert (Hcfg : forall e, (env_truthy (Build.github_owner E)
                     && env_truthy (getenv E GITHUB_REPO) = false ->
                     e = Notions.config_error) ->
    exists w' o new,
      (w, @Throw Response e) = (w', o)
      /\ table w' = table w /\ uuid_ctr w' = uuid_ctr w
      /\ calls w' = calls w ++ new
      /\ Forall (fun c => is_octokit c = true) new
      /\ Notions.routes new `prefix_of` Notions.dispatch_routes
      /\ match o with
         | Ok r => Notions.routes new = Notions.dispatch_routes
                   /\ statusCode r = 202
         | Throw e => Notions.routes new <> Notions.dispatch_routes
         end
      /\ (env_truthy (Build.github_owner E)
          && env_truthy (getenv E GITHUB_REPO) = false ->
          new = [] /\ o = Throw Notions.config_error)).
  { intros e He. exists w, (Throw e), []. rewrite app_nil_r.
    split_and!; try done; [by eexists|].
    intros H. by rewrite (He H). }
  destruct (Build.github_owner E) as [owner|]; [|by apply Hcfg].
  destruct (getenv E GITHUB_REPO) as [repo|];
    [|apply Hcfg; by rewrite ?andb_false_r].
  cbn [env_truthy] in Hcfg |- *.
  destruct (nonempty owner && nonempty repo) eqn:Hne; [|by apply Hcfg].
  clear Hcfg.
  (* a failure after the requests [new] were sent *)
  assert (Hstop : forall (w0 : World) (e : Error) (new : list Call),
    table w0 = table w -> uuid_ctr w0 = uuid_ctr w ->
    calls w0 = calls w ++ new ->
    Forall (fun c => is_octokit c = true) new ->
    Notions.routes new `prefix_of` Notions.dispatch_routes ->
    Notions.routes new <> Notions.dispatch_routes ->
    exists w' o new,
      (w0, @Throw Response e) = (w', o)
      /\ table w' = table w /\ uuid_ctr w' = uuid_ctr w
      /\ calls w' = calls w ++ new
      /\ Forall (fun c => is_octokit c = true) new
      /\ Notions.routes new `prefix_of` Notions.dispatch_routes
      /\ match o with
         | Ok r => Notions.routes new = Notions.dispatch_routes
                   /\ statusCode r = 202
         | Throw e => Notions.routes new <> Notions.dispatch_routes
         end
      /\ (true = false -> new = [] /\ o = Throw Notions.config_error)).
  { intros w0 e new ? ? ? ? ? ?. exists w0, (Throw e), new.
    by split_and!. }
  match goal with
  | |- context [octokit E w GitGetRef ?p] =>
      set (c1 := Octokit GitGetRef p);
      destruct (octokit E w GitGetRef p) as [mainRef|e]
  end.
  2: { stop_at Hstop [c1]. }
  destruct (member_cases (Some mainRef) (js "data")
              {| table := table w; uuid_ctr := uuid_ctr w; now := now w;
                 calls := calls w ++ [c1] |}) as [->|[data ->]].
  { stop_at Hstop [c1]. }
  destruct (member_cases data (js "object")
              {| table := table w; uuid_ctr := uuid_ctr w; now := now w;
                 calls := calls w ++ [c1] |}) as [->|[obj ->]].
  { stop_at Hstop [c1]. }
  destruct (member_cases obj (js "sha")
              {| table := table w; uuid_ctr := uuid_ctr w; now := now w;
                 calls := calls w ++ [c1] |}) as [->|[sha ->]].
  { stop_at Hstop [c1]. }
  destruct sha as [[| | |sha| |]|];
    try stop_at Hstop [c1].
  cbn [table uuid_ctr now calls].
  match goal with
  | |- context [octokit E ?w0 GitCreateRef ?p] =>
      set (c2 := Octokit GitCreateRef p);
      destruct (octokit E w0 GitCreateRef p) as [?|e]
  end.
  2: stop_at Hstop [c1; c2].
  cbn [table uuid_ctr now calls].
  split_template E (Some pid); [|stop_at Hstop [c1; c2]].
  split_template E (Some slug); [|stop_at Hstop [c1; c2]].
  match goal with
  | |- context [octokit E ?w0 ReposGetContent ?p] =>
      set (c3 := Octokit ReposGetContent p);
      destruct (octokit E w0 ReposGetContent p) as [existing|e3]
  end.
  all: cbn [table uuid_ctr now calls].
  all: (split_template E (Some title); [|stop_at Hstop [c1; c2; c3]]).
  all: destruct (buffer_base64 E md) as [content|e4];
    [|stop_at Hstop [c1; c2; c3]].
  all: cbn [table uuid_ctr now calls].
  all: match goal with
       | |- context [octokit _ ?w0 ReposCreateOrUpdateFileContents ?p] =>
           set (c4 := Octokit ReposCreateOrUpdateFileContents p);
           destruct (octokit E w0 ReposCreateOrUpdateFileContents p) as [?|e5]
       end;
    [|stop_at Hstop [c1; c2; c3; c4]].
  all: cbn [table uuid_ctr now calls].
  all: match goal with
       | |- context [Build.trigger_workflow ?a ?b ?c ?d ?e ?f ?x] =>
           destruct (trigger_workflow_calls a b c d e f x)
             as (w5 & p5 & -> & Ht & Hu & _ & Hc & _)
       end.
  all: cbn [table uuid_ctr now calls] in Ht, Hu, Hc.
  all: eexists w5, _, [c1; c2; c3; c4; Octokit ActionsCreateWorkflowDispatch p5].
  all: split; [reflexivity|].
  all: split_and!; try done;
    [by rewrite Hc, <- !app_assoc|by repeat constructor].
Qed.

(** A request with [markdown] and a [projectId] that does not convert to
    a string: one identifier is drawn, and the TypeError becomes the 500
    response before anything is stored or sent. *)
Lemma build_unconvertible (E : Env) (ev : Event) (w : World)
    (parsed markdown projectId : json) :
  is_method ev "POST" = true ->
  parsed_body ev = Ok parsed ->
  prop parsed (js "markdown") = Some markdown ->
  truthy (Some markdown) = true ->
  prop parsed (js "projectId") = Some projectId ->
  truthy (Some projectId) = true ->
  converts (Some projectId) = false ->
  Build.handler E ev w
  = (Notions.drawn w, Ok (Notions.build_failed E type_error)).
Proof.
  intros Hpost Hbody Hmd Hmdt Hpid Hpidt Hconv.
  destruct parsed as [| | | | |props]; try discriminate Hmd.
  cbn [prop] in Hmd, Hpid. unfold Build.handler.
  rewrite (post_not_options _ Hpost), Hpost. cbn [negb].
  run. rewrite Hbody. read_body. rewrite Hmd, Hpid, Hmdt, Hpidt. cbn [andb].
  by rewrite (template_throws _ _ Hconv).
Qed.

(** A request with [markdown] and a [projectId] that converts: one
    identifier is drawn, the record is put (or not), the GitHub part
    runs, and its error, if any, becomes the 500 response. *)
Lemma build_valid_run (E : Env) (ev : Event) (w : World)
    (parsed markdown projectId : json) :
  is_method ev "POST" = true ->
  parsed_body ev = Ok parsed ->
  prop parsed (js "markdown") = Some markdown ->
  truthy (Some markdown) = true ->
  prop parsed (js "projectId") = Some projectId ->
  truthy (Some projectId) = true ->
  converts (Some projectId) = true ->
  let buildId := uuidv4 E (uuid_ctr w) in
  let metadata := prop parsed (js "metadata") in
  let ts := toISOString E (now w) in
  let slug := or_else (opt_prop metadata (js "slug")) (JStr (js "index")) in
  let title := or_else (opt_prop metadata (js "title"))
                 (JStr (js "Untitled")) in
  exists w1 w2 o,
    Build.store_metadata E buildId projectId markdown metadata ts title slug
      (Notions.drawn w) = (w1, Ok tt)
    /\ Build.push_and_dispatch E ev buildId projectId markdown metadata ts
         title slug w1 = (w2, o)
    /\ Build.handler E ev w
       = (w2, Ok match o with
                 | Ok r => r
                 | Throw e => Notions.build_failed E e
                 end).
Proof.
  intros Hpost Hbody Hmd Hmdt Hpid Hpidt Hconv buildId metadata ts slug title.
  destruct parsed as [| | | | |props]; try discriminate Hmd.
  cbn [prop] in Hmd, Hpid.
  destruct (store_metadata_spec E buildId projectId markdown metadata ts
              title slug (Notions.drawn w)) as (w1 & Hs & _).
  destruct (Build.push_and_dispatch E ev buildId projectId markdown metadata
              ts title slug w1) as [w2 o] eqn:Hp.
  exists w1, w2, o. split; [exact Hs|]. split; [exact Hp|].
  unfold Build.handler.
  rewrite (post_not_options _ Hpost), Hpost. cbn [negb].
  run. rewrite Hbody. read_body. rewrite Hmd, Hpid, Hmdt, Hpidt. cbn [andb].
  rewrite (template_ok _ _ Hconv). run.
  subst buildId metadata ts slug title. unfold Notions.drawn in Hs.
  cbn [prop] in Hs, Hp. rewrite Hs, Hp. by destruct o.
Qed.

Lemma build_item_fields (buildId : jsstring) (pid md : json)
    (metadata : value) (ts : jsstring) (title slug : json) (t : Z) :
  let item := Build.build_item buildId pid md metadata ts title slug t in
  assoc (js "buildId") item = Some (JStr buildId)
  /\ assoc (js "projectId") item = Some pid
  /\ assoc (js "status") item = Some (JStr (js "queued"))
  /\ assoc (js "createdAt") item = Some (JStr ts)
  /\ assoc (js "title") item = Some title
  /\ assoc (js "slug") item = Some slug
  /\ assoc (js "fileSize") item = length_of md
  /\ assoc (js "ttl") item = Some (JNum (t / 1000 + 220752000)).
Proof.
  unfold Build.build_item, present. cbn [omap fmap option_fmap option_map].
  destruct (length_of md); repeat split; reflexivity.
Qed.

(** X11.  A dispatch with [markdown] and [projectId] draws one
    identifier and writes at most one row, at that identifier.  The
    [projectId] is converted to a string before the put: when it
    converts, a table is configured and the put succeeds, the row is
    there whatever the response (202 or 500), with status [queued], the
    request's [projectId], and a [ttl] of the creation time in seconds
    plus 220752000 (seven years of 365 days); when it does not convert,
    or without a successful put, the table is as before.  Every other
    row is untouched. *)
Theorem dispatch_writes_one_queued_row (E : Env) (ev : Event) (w : World)
    (parsed markdown projectId : json) :
  is_method ev "POST" = true ->
  parsed_body ev = Ok parsed ->
  prop parsed (js "markdown") = Some markdown ->
  truthy (Some markdown) = true ->
  prop parsed (js "projectId") = Some projectId ->
  truthy (Some projectId) = true ->
  let buildId := uuidv4 E (uuid_ctr w) in
  let metadata := prop parsed (js "metadata") in
  let slug := or_else (opt_prop metadata (js "slug")) (JStr (js "index")) in
  let title := or_else (opt_prop metadata (js "title"))
                 (JStr (js "Untitled")) in
  let item := Build.build_item buildId projectId markdown metadata
                (toISOString E (now w)) title slug (now w) in
  exists w' r,
    Build.handler E ev w = (w', Ok r)
    /\ uuid_ctr w' = S (uuid_ctr w)
    /\ (converts (Some projectId) = true ->
        Notions.Stores E (Notions.drawn w) item ->
        table w' !! buildId = Some item)
    /\ (converts (Some projectId) = false
        \/ ~ Notions.Stores E (Notions.drawn w) item ->
        table w' = table w)
    /\ (converts (Some projectId) = false ->
        statusCode r = 500 /\ calls w' = calls w)
    /\ (forall k, k <> buildId -> table w' !! k = table w !! k)
    /\ assoc (js "status") item = Some (JStr (js "queued"))
    /\ assoc (js "projectId") item = Some projectId
    /\ assoc (js "ttl") item = Some (JNum (now w / 1000 + 220752000)).
Proof.
  intros Hpost Hbody Hmd Hmdt Hpid Hpidt buildId metadata slug title item.
  destruct (build_item_fields buildId projectId markdown metadata
              (toISOString E (now w)) title slug (now w))
    as (_ & Hfp & Hfs & _ & _ & _ & _ & Hft).
  destruct (converts (Some projectId)) eqn:Hconv.
  2: { rewrite (build_unconvertible E ev w parsed markdown projectId)
         by done.
       eexists _, _. split; [reflexivity|]. by split_and!; auto. }
  destruct (build_valid_run E ev w parsed markdown projectId)
    as (w1 & w2 & o & Hs & Hp & Hh); try done.
  fold buildId metadata slug title in Hs, Hp.
  destruct (store_metadata_spec E buildId projectId markdown metadata
              (toISOString E (now w)) title slug (Notions.drawn w))
    as (? & Hs' & Hu1 & _ & _ & _ & Hor & Hyes & Hnot).
  rewrite Hs in Hs'. symmetry in Hs'. simplify_eq.
  destruct (push_and_dispatch_routes E ev buildId projectId markdown metadata
              (toISOString E (now w)) title slug w1)
    as (? & ? & ? & Hp' & Ht2 & Hu2 & _).
  rewrite Hp in Hp'. symmetry in Hp'. simplify_eq.
  cbn [Notions.drawn table uuid_ctr now] in *. fold item in Hor, Hyes, Hnot.
  eexists w2, _. split; [exact Hh|]. split; [congruence|].
  split_and!; try done.
  - intros _ Hst. rewrite Ht2, (Hyes Hst). apply lookup_insert_eq.
  - intros [?|Hst]; [done|]. by rewrite Ht2, (Hnot Hst).
  - intros k Hk. rewrite Ht2. destruct Hor as [-> | ->]; [done|].
    by apply lookup_insert_ne.
Qed.

(** X12.  Without a GitHub owner or repository configured, a dispatch
    with [markdown] and a [projectId] that converts to a string is
    answered 500 "Build trigger failed" with the configuration message and
    sends nothing to GitHub; the put comes before that check, so with the
    table up the [queued] row of the failed dispatch is stored all the
    same. *)
Theorem dispatch_without_github_config (E : Env) (ev : Event) (w : World)
    (parsed markdown projectId : json) :
  is_method ev "POST" = true ->
  parsed_body ev = Ok parsed ->
  prop parsed (js "markdown") = Some markdown ->
  truthy (Some markdown) = true ->
  prop parsed (js "projectId") = Some projectId ->
  truthy (Some projectId) = true ->
  converts (Some projectId) = true ->
  Notions.github_configured E = false ->
  let buildId := uuidv4 E (uuid_ctr w) in
  let metadata := prop parsed (js "metadata") in
  let slug := or_else (opt_prop metadata (js "slug")) (JStr (js "index")) in
  let title := or_else (opt_prop metadata (js "title"))
                 (JStr (js "Untitled")) in
  let item := Build.build_item buildId projectId markdown metadata
                (toISOString E (now w)) title slug (now w) in
  exists w' r,
    Build.handler E ev w = (w', Ok r)
    /\ statusCode r = 500
    /\ field r "error" = Some (JStr (js "Build trigger failed"))
    /\ field r "message"
       = Some (JStr (js "GitHub configuration missing: GITHUB_ORG and GITHUB_REPO required"))
    /\ Notions.routes (calls w') = Notions.routes (calls w)
    /\ (Notions.Stores E (Notions.drawn w) item ->
        table w' !! buildId = Some item
        /\ assoc (js "status") item = Some (JStr (js "queued"))).
Proof.
  intros Hpost Hbody Hmd Hmdt Hpid Hpidt Hconv Hcfg buildId metadata slug
    title item.
  destruct (build_valid_run E ev w parsed markdown projectId)
    as (w1 & w2 & o & Hs & Hp & Hh); try done.
  fold buildId metadata slug title in Hs, Hp.
  destruct (store_metadata_spec E buildId projectId markdown metadata
              (toISOString E (now w)) title slug (Notions.drawn w))
    as (? & Hs' & _ & _ & Hr1 & _ & _ & Hyes & _).
  rewrite Hs in Hs'. symmetry in Hs'. simplify_eq.
  destruct (push_and_dispatch_routes E ev buildId projectId markdown metadata
              (toISOString E (now w)) title slug w1)
    as (? & ? & new & Hp' & Ht2 & _ & Hc2 & _ & _ & _ & Ho).
  rewrite Hp in Hp'. symmetry in Hp'. simplify_eq.
  cbn [Notions.drawn table uuid_ctr now calls] in *. fold item in Hyes.
  destruct (Ho Hcfg) as [-> ->]. rewrite app_nil_r in Hc2.
  eexists w2, _. split; [exact Hh|].
  split; [reflexivity|]. split; [reflexivity|]. split.
  { unfold field, Notions.build_failed, Build.reply, object, present.
    cbn [body omap fmap option_fmap option_map prop].
    by destruct (bool_decide _). }
  split; [by rewrite Hc2|].
  intros Hst. split.
  - rewrite Ht2, (Hyes Hst). apply lookup_insert_eq.
  - apply build_item_fields.
Qed.

(** X13.  Whatever the request, the dispatcher answers, and what it sends
    comes in one order: the put of the record, if any, before anything
    goes to GitHub, then a first part of: reference lookup, branch
    creation, content lookup, commit, workflow dispatch.  A later step is
    never attempted without the earlier ones, and the answer is 202
    exactly when all five were sent. *)
Theorem dispatch_requests_in_order (E : Env) (ev : Event) (w : World) :
  exists w' r puts gh,
    Build.handler E ev w = (w', Ok r)
    /\ calls w' = calls w ++ puts ++ gh
    /\ Forall (fun c => is_octokit c = false) puts
    /\ Forall (fun c => is_octokit c = true) gh
    /\ Notions.routes gh `prefix_of` Notions.dispatch_routes
    /\ (statusCode r = 202 <-> Notions.routes gh = Notions.dispatch_routes).
Proof.
  assert (Hidle : forall r, statusCode r <> 202 ->
    exists w' r' puts gh,
      (w, @Ok Response r) = (w', Ok r')
      /\ calls w' = calls w ++ puts ++ gh
      /\ Forall (fun c => is_octokit c = false) puts
      /\ Forall (fun c => is_octokit c = true) gh
      /\ Notions.routes gh `prefix_of` Notions.dispatch_routes
      /\ (statusCode r' = 202
          <-> Notions.routes gh = Notions.dispatch_routes)).
  { intros r Hr. exists w, r, [], []. rewrite !app_nil_r.
    split_and!; try done. by eexists. }
  destruct (is_method ev "POST") eqn:Hpost.
  2: { unfold Build.handler. rewrite Hpost. cbn [negb].
       destruct (is_method ev "OPTIONS"); by apply Hidle. }
  destruct (parsed_body ev) as [parsed|e] eqn:Hbody.
  2: { unfold Build.handler.
       rewrite (post_not_options _ Hpost), Hpost. cbn [negb].
       run. rewrite Hbody. by apply Hidle. }
  destruct (null_or_not parsed) as [->|Hnn].
  { unfold Build.handler.
    rewrite (post_not_options _ Hpost), Hpost. cbn [negb].
    run. rewrite Hbody. cbn [member]. run. by apply Hidle. }
  destruct (truthy (prop parsed (js "markdown"))
            && truthy (prop parsed (js "projectId"))) eqn:Hboth.
  2: { apply andb_false_iff in Hboth.
       destruct (build_rejects_incomplete_aux E ev w parsed Hpost Hbody Hnn
                   Hboth) as (r & -> & Hr & _).
       apply Hidle. by rewrite Hr. }
  apply andb_true_iff in Hboth as [Hmdt Hpidt].
  destruct (prop parsed (js "markdown")) as [markdown|] eqn:Hmd; [|done].
  destruct (prop parsed (js "projectId")) as [projectId|] eqn:Hpid; [|done].
  destruct (converts (Some projectId)) eqn:Hconv.
  2: { rewrite (build_unconvertible E ev w parsed markdown projectId)
         by done.
       eexists _, _, [], []. split; [reflexivity|]. rewrite !app_nil_r.
       split_and!; try done. by eexists. }
  destruct (build_valid_run E ev w parsed markdown projectId)
    as (w1 & w2 & o & Hs & Hp & ->); try done.
  match type of Hs with
  | Build.store_metadata ?a ?b ?c ?d ?e ?f ?g ?h ?x = _ =>
      destruct (store_metadata_spec a b c d e f g h x)
        as (? & Hs' & _ & _ & _ & (puts & Hc1 & Hputs) & _)
  end.
  rewrite Hs in Hs'. symmetry in Hs'. simplify_eq.
  match type of Hp with
  | Build.push_and_dispatch ?a ?b ?c ?d ?e ?f ?g ?h ?i ?x = _ =>
      destruct (push_and_dispatch_routes a b c d e f g h i x)
        as (? & ? & gh & Hp' & _ & _ & Hc2 & Hgh & Hpre & Ho & _)
  end.
  rewrite Hp in Hp'. symmetry in Hp'. simplify_eq.
  cbn [Notions.drawn calls] in Hc1.
  eexists w2, _, puts, gh. split; [reflexivity|].
  split; [by rewrite Hc2, Hc1, app_assoc|].
  split_and!; try done.
  destruct o as [r|e]; [by destruct Ho as [-> ->]|].
  split; [done|]. intros H. by destruct Ho.
Qed.

(** ** Dispatcher and reconciler together *)

(** A dispatch that is answered 202 came with [markdown] and a
    [projectId] that converts to a string. *)
Lemma build_202_valid (E : Env) (ev : Event) (w w' : World) (r : Response) :
  Build.handler E ev w = (w', Ok r) ->
  statusCode r = 202 ->
  exists parsed markdown projectId,
    is_method ev "POST" = true
    /\ parsed_body ev = Ok parsed
    /\ prop parsed (js "markdown") = Some markdown
    /\ truthy (Some markdown) = true
    /\ prop parsed (js "projectId") = Some projectId
    /\ truthy (Some projectId) = true
    /\ converts (Some projectId) = true.
Proof.
  intros H Hcode.
  destruct (is_method ev "POST") eqn:Hpost.
  2: { unfold Build.handler in H. rewrite Hpost in H. cbn [negb] in H.
       run_in H. destruct (is_method ev "OPTIONS"); by simplify_eq. }
  destruct (parsed_body ev) as [parsed|e] eqn:Hbody.
  2: { unfold Build.handler in H.
       rewrite (post_not_options _ Hpost), Hpost in H. cbn [negb] in H.
       run_in H. rewrite Hbody in H. by simplify_eq. }
  destruct (null_or_not parsed) as [->|Hnn].
  { unfold Build.handler in H.
    rewrite (post_not_options _ Hpost), Hpost in H. cbn [negb] in H.
    run_in H. rewrite Hbody in H. by simplify_eq. }
  destruct (truthy (prop parsed (js "markdown"))
            && truthy (prop parsed (js "projectId"))) eqn:Hboth.
  2: { apply andb_false_iff in Hboth.
       destruct (build_rejects_incomplete_aux E ev w parsed Hpost Hbody Hnn
                   Hboth) as (r' & Hr' & Hc' & _).
       rewrite Hr' in H. simplify_eq. lia. }
  apply andb_true_iff in Hboth as [Hmdt Hpidt].
  destruct (prop parsed (js "markdown")) as [markdown|] eqn:Hmd; [|done].
  destruct (prop parsed (js "projectId")) as [projectId|] eqn:Hpid; [|done].
  exists parsed, markdown, projectId. split_and!; try done.
  destruct (converts (Some projectId)) eqn:Hconv; [done|].
  rewrite (build_unconvertible E ev w parsed markdown projectId) in H
    by done.
  injection H as _ <-. discriminate Hcode.
Qed.

Lemma report_echo (buildId : jsstring) (item : Item)
    (wf : Status.Workflow) (urls : Status.Urls) (p t s c : json) :
  assoc (js "projectId") item = Some p ->
  assoc (js "title") item = Some t ->
  assoc (js "slug") item = Some s ->
  assoc (js "createdAt") item = Some c ->
  let r := Status.report buildId (JObj item) wf urls in
  field r "projectId" = Some p /\ field r "title" = Some t
  /\ field r "slug" = Some s /\ field r "createdAt" = Some c.
Proof.
  intros Hp Ht Hs Hc. unfold Status.report, field, Status.reply, object.
  cbn [body prop]. rewrite Hp, Ht, Hs, Hc. repeat split; reflexivity.
Qed.

(** X14.  A build that was accepted and whose record was written is found
    by the reconciler: with the table configured and up, a GET whose path
    ends in the [buildId] of the 202 response is answered 200, not 404,
    and gives back that [buildId], the [projectId], and the title, slug
    and creation time of the 202 response's [metadata]. *)
Theorem accepted_build_is_found (E : Env) (ev1 ev2 : Event)
    (w w1 : World) (r1 : Response) (tbl : jsstring) :
  Build.handler E ev1 w = (w1, Ok r1) ->
  statusCode r1 = 202 ->
  getenv E AWS_DYNAMODB_TABLE = Some tbl ->
  nonempty tbl = true ->
  (forall w0 c, dynamo_fault E w0 c = None) ->
  is_method ev2 "GET" = true ->
  (forall id, field r1 "buildId" = Some (JStr id) ->
              Spec.LastSegment (path ev2) id) ->
  exists w2 r2 meta,
    Status.handler E ev2 w1 = (w2, Ok r2)
    /\ statusCode r2 = 200
    /\ field r2 "buildId" = field r1 "buildId"
    /\ field r2 "projectId" = field r1 "projectId"
    /\ field r1 "metadata" = Some meta
    /\ field r2 "title" = prop meta (js "title")
    /\ field r2 "slug" = prop meta (js "slug")
    /\ field r2 "createdAt" = prop meta (js "createdAt").
Proof.
  intros H1 Hcode Ht Hne Hup Hget Hpath.
  destruct (build_202_valid _ _ _ _ _ H1 Hcode)
    as (parsed & markdown & projectId & Hpost & Hbody & Hmd & Hmdt & Hpid
        & Hpidt & Hconv).
  destruct (build_valid_run E ev1 w parsed markdown projectId)
    as (w' & w'' & o & Hs & Hp & Hh); try done.
  rewrite H1 in Hh. injection Hh as Hw Hr1. subst w''.
  set (buildId := uuidv4 E (uuid_ctr w)) in *.
  set (metadata := prop parsed (js "metadata")) in *.
  set (slug := or_else (opt_prop metadata (js "slug")) (JStr (js "index"))) in *.
  set (title := or_else (opt_prop metadata (js "title"))
                  (JStr (js "Untitled"))) in *.
  set (ts := toISOString E (now w)) in *.
  destruct (store_metadata_spec E buildId projectId markdown metadata ts
              title slug (Notions.drawn w))
    as (? & Hs' & _ & _ & _ & _ & _ & Hyes & _).
  rewrite Hs in Hs'. symmetry in Hs'. simplify_eq.
  cbn [Notions.drawn now] in Hyes.
  set (item := Build.build_item buildId projectId markdown metadata ts title
                 slug (now w)) in *.
  assert (Hrow : table w' = <[buildId := item]> (table (Notions.drawn w))).
  { apply Hyes. exists tbl. by repeat split. }
  destruct o as [r|e]; [|discriminate Hcode].
  destruct (push_and_dispatch_routes E ev1 buildId projectId markdown
              metadata ts title slug w')
    as (? & ? & ? & Hp' & Htab & _).
  rewrite Hp in Hp'. symmetry in Hp'. simplify_eq.
  apply push_and_dispatch_inv in Hp as (_ & fp & su & ->).
  assert (Hrow' : table w1 !! buildId = Some item).
  { rewrite Htab, Hrow. apply lookup_insert_eq. }
  assert (Hseg : Status.extract_buildId (path ev2) = Some buildId).
  { apply extract_buildId_last, Hpath. reflexivity. }
  pose proof (status_handler_cases E ev2 w1 Hget) as Hc. rewrite Hseg in Hc.
  destruct Hc as (w2 & found & Hlook & Hc).
  destruct (lookup_build_spec E buildId w1)
    as (? & ? & Hlook' & _ & _ & Hfound).
  rewrite Hlook in Hlook'. symmetry in Hlook'. simplify_eq.
  destruct found as [item'|].
  2: { exfalso. eapply no_record_not_found; eauto. }
  destruct Hfound as (? & _ & _ & _ & Hitem). simplify_eq.
  destruct Hc as (w3 & wf & o & _ & Hurls & Hh).
  destruct (build_item_fields buildId projectId markdown metadata ts title
              slug (now w)) as (_ & Hfp & _ & Hfc & Hft & Hfs & _).
  fold item in Hfp, Hfc, Hft, Hfs.
  destruct (build_urls_cases E buildId item w3) as (o' & Hurls' & Hok & _).
  rewrite Hurls in Hurls'. symmetry in Hurls'. simplify_eq.
  rewrite Hok in Hh by (left; by rewrite Hfp).
  match type of Hh with
  | context [Status.report buildId (JObj item) wf ?u] =>
      destruct (report_echo buildId item wf u _ _ _ _ Hfp Hft Hfs Hfc)
        as (Ep & Et & Es & Ec);
      destruct (report_fields buildId item wf u) as (Hcode2 & Hid & _)
  end.
  eexists w3, _, _. split; [exact Hh|]. split; [exact Hcode2|].
  split; [by rewrite Hid|]. split; [by rewrite Ep|].
  split; [reflexivity|]. by rewrite Et, Es, Ec.
Qed.

(** X15.  The polling URL of a 202 response ends in
    [/api/build/<buildId>/status].  On a GET with such a path the
    reconciler takes the last segment, [status], for the identifier: it
    reads the table at the key [status], and without a row there it
    answers 404, whatever row the [buildId] has. *)
Theorem polling_path_reads_key_status (E : Env) (ev : Event) (w : World)
    (base buildId : jsstring) :
  is_method ev "GET" = true ->
  path ev = base ++ js "/api/build/" ++ buildId ++ js "/status" ->
  table w !! js "status" = None ->
  (forall branch filePath serviceUrl projectId title slug ts,
     field (Build.accepted buildId branch filePath serviceUrl projectId
              title slug ts) "pollingUrl"
     = Some (JStr (serviceUrl ++ js "/api/build/" ++ buildId
                     ++ js "/status")))
  /\ Status.extract_buildId (path ev) = Some (js "status")
  /\ exists w' r,
       Status.handler E ev w = (w', Ok r)
       /\ statusCode r = 404
       /\ calls w' = calls w ++ Spec.lookup_calls E (js "status").
Proof.
  intros Hget Hpath Hrow. split; [done|].
  assert (Hseg : Status.extract_buildId (path ev) = Some (js "status")).
  { apply extract_buildId_last. rewrite Hpath.
    exists (base ++ js "/api/build/" ++ buildId ++ [Status.slash]), [].
    split; [by rewrite app_nil_r, <- !app_assoc|].
    split; [done|]. split; [by repeat constructor|]. split; [done|].
    right. exists (base ++ js "/api/build/" ++ buildId).
    by rewrite <- !app_assoc. }
  split; [done|].
  pose proof (status_handler_cases E ev w Hget) as Hc. rewrite Hseg in Hc.
  destruct Hc as (w1 & found & Hlook & Hc).
  destruct (lookup_build_spec E (js "status") w)
    as (? & ? & Hlook' & _ & Hcalls & Hfound).
  rewrite Hlook in Hlook'. symmetry in Hlook'. simplify_eq.
  destruct found as [item|].
  { destruct Hfound as (? & _ & _ & _ & Hitem). congruence. }
  by exists w1, Status.not_found.
Qed.

(** ** Reconciler: what it reports besides the status *)

(** Without configuration, or when the listing fails, there is no
    workflow. *)
Lemma query_workflow_degraded (E : Env) (buildId : jsstring) (w : World) :
  Notions.github_configured E = false
  \/ (forall w0 p, exists e,
        octokit E w0 ActionsListWorkflowRunsForRepo p = Throw e) ->
  exists w',
    Status.query_workflow E buildId w = (w', Ok Status.no_workflow)
    /\ (Notions.github_configured E = false -> w' = w).
Proof.
  unfold Status.query_workflow, Notions.github_configured.
  destruct (Build.github_owner E) as [owner|]; [|by exists w].
  destruct (getenv E GITHUB_REPO) as [repo|]; [|by exists w].
  cbn [env_truthy].
  destruct (nonempty owner && nonempty repo); [|by exists w].
  intros [?|Hfail]; [done|]. run.
  match goal with
  | |- context [octokit E w ?r ?p] => destruct (Hfail w p) as [e ->]
  end.
  by eexists.
Qed.

(** X16.  When the record exists, with a [projectId] that converts to a
    string, but GitHub is not configured, or the listing of workflow runs
    fails, the reconciler still answers 200: the workflow is reported as
    [unknown] with [null] conclusion and URL, and the status is the stored
    one, or [queued] when that is absent or falsy.  Without configuration
    nothing is sent to GitHub. *)
Theorem status_without_live_signal (E : Env) (ev : Event) (w : World)
    (buildId tbl : jsstring) (item : Item) :
  is_method ev "GET" = true ->
  Spec.LastSegment (path ev) buildId ->
  getenv E AWS_DYNAMODB_TABLE = Some tbl ->
  nonempty tbl = true ->
  dynamo_fault E w (DynamoGet tbl buildId) = None ->
  table w !! buildId = Some item ->
  converts (assoc (js "projectId") item) = true ->
  Notions.github_configured E = false
  \/ (forall w0 p, exists e,
        octokit E w0 ActionsListWorkflowRunsForRepo p = Throw e) ->
  exists w' r,
    Status.handler E ev w = (w', Ok r)
    /\ statusCode r = 200
    /\ field r "workflow"
       = Some (object [ (js "status", Some (JStr (js "unknown")));
                        (js "conclusion", Some JNull);
                        (js "url", Some JNull) ])
    /\ field r "status"
       = Some (or_else (assoc (js "status") item) (JStr (js "queued")))
    /\ (Notions.github_configured E = false ->
        calls w' = calls w ++ [DynamoGet tbl buildId]).
Proof.
  intros Hget Hseg%extract_buildId_last Ht Hne Hf Hl Hconv Hno.
  pose proof (status_handler_cases E ev w Hget) as Hc. rewrite Hseg in Hc.
  destruct Hc as (w1 & found & Hlook & Hc).
  destruct (lookup_build_spec E buildId w)
    as (? & ? & Hlook' & _ & Hcalls & Hfound).
  rewrite Hlook in Hlook'. symmetry in Hlook'. simplify_eq.
  destruct found as [item'|].
  2: by destruct (no_record_not_found _ _ _ _ _ Hfound Ht Hne Hf Hl).
  destruct Hfound as (tbl' & ? & _ & _ & ?). simplify_eq.
  destruct Hc as (w2 & wf & o & Hq & Hurls & ->).
  destruct (query_workflow_degraded E buildId w1 Hno) as (? & Hq' & Hsame).
  rewrite Hq in Hq'. symmetry in Hq'. simplify_eq.
  destruct (build_urls_cases E buildId item w2) as (o' & Hurls' & Hok & _).
  rewrite Hurls in Hurls'. symmetry in Hurls'. simplify_eq.
  rewrite Hok by by left.
  match goal with
  | |- context [Status.report buildId (JObj item) _ ?u] =>
      destruct (report_fields buildId item Status.no_workflow u)
        as (Hcode & _ & Hst & Hwf)
  end.
  eexists w2, _. split; [reflexivity|]. split; [done|]. split; [done|].
  split; [done|].
  intros ->%Hsame. rewrite Hcalls. unfold Spec.lookup_calls.
  by rewrite Ht, Hne.
Qed.

Ltac solve_neq := apply (bool_decide_unpack _); vm_compute; exact I.

Lemma assoc_present_skip (k k' : jsstring) (v : value)
    (rest : list (jsstring * value)) :
  k <> k' -> assoc k (present ((k', v) :: rest)) = assoc k (present rest).
Proof.
  intros Hk. unfold present. cbn [omap]. destruct v as [j|]; [|done].
  cbn. by destruct (decide (k = k')).
Qed.

Lemma assoc_present_here (k : jsstring) (v : value)
    (rest : list (jsstring * value)) :
  is_Some v -> assoc k (present ((k, v) :: rest)) = v.
Proof.
  intros [j ->]. unfold present. cbn. by destruct (decide (k = k)).
Qed.

Lemma assoc_present_absent (k k' : jsstring)
    (rest : list (jsstring * value)) :
  assoc k (present ((k', None) :: rest)) = assoc k (present rest).
Proof. reflexivity. Qed.

Lemma report_urls (buildId : jsstring) (item : Item)
    (wf : Status.Workflow) (urls : Status.Urls) :
  exists links,
    field (Status.report buildId (JObj item) wf urls) "urls" = Some links
    /\ prop links (js "site") = Some (Status.siteUrl urls)
    /\ prop links (js "download") = Some (Status.downloadUrl urls)
    /\ prop links (js "archive") = Some (Status.archiveUrl urls).
Proof.
  eexists. split.
  - unfold Status.report, field, Status.reply, object. cbn [body prop].
    rewrite !assoc_present_skip by solve_neq.
    by rewrite assoc_present_here.
  - cbn [prop]. split_and!.
    + by rewrite assoc_present_here.
    + rewrite assoc_present_skip by solve_neq.
      by rewrite assoc_present_here.
    + rewrite !assoc_present_skip by solve_neq.
      by rewrite assoc_present_here.
Qed.

(** X17.  A GET for a stored record is answered 200 when the [projectId]
    of the record converts to a string, or neither SITE_URL nor
    AWS_BUCKET_NAME is set.  The three URLs of the response are then
    present: [site], [download] and [archive] are [null] when SITE_URL,
    SERVICE_URL and AWS_BUCKET_NAME (in that order) are unset or empty,
    and otherwise the site URL [<SITE_URL>/<projectId>/], the download URL
    [<SERVICE_URL>/download/<buildId>] and the archive locator
    [s3://<bucket>/archives/<projectId>/<buildId>/], with the
    [projectId] of the stored record as a template literal prints it.
    When the [projectId] does not convert and one of the two variables is
    set, the answer is 500 "Status check failed". *)
Theorem status_urls (E : Env) (ev : Event) (w : World)
    (buildId tbl : jsstring) (item : Item) :
  is_method ev "GET" = true ->
  Spec.LastSegment (path ev) buildId ->
  getenv E AWS_DYNAMODB_TABLE = Some tbl ->
  nonempty tbl = true ->
  dynamo_fault E w (DynamoGet tbl buildId) = None ->
  table w !! buildId = Some item ->
  let projectId :=
    string_of_v (number_to_string E) (assoc (js "projectId") item) in
  let url (v : EnvVar) (f : jsstring -> jsstring) : json :=
    match getenv E v with
    | Some base => if nonempty base then JStr (f base) else JNull
    | None => JNull
    end in
  exists w' r,
    Status.handler E ev w = (w', Ok r)
    /\ (converts (assoc (js "projectId") item) = true
        \/ (env_truthy (getenv E SITE_URL) = false
            /\ env_truthy (getenv E AWS_BUCKET_NAME) = false) ->
        statusCode r = 200
        /\ exists urls,
             field r "urls" = Some urls
             /\ prop urls (js "site")
                = Some (url SITE_URL (fun base =>
                          base ++ js "/" ++ projectId ++ js "/"))
             /\ prop urls (js "download")
                = Some (url SERVICE_URL (fun base =>
                          base ++ js "/download/" ++ buildId))
             /\ prop urls (js "archive")
                = Some (url AWS_BUCKET_NAME (fun base =>
                          js "s3://" ++ base ++ js "/archives/" ++ projectId
                             ++ js "/" ++ buildId ++ js "/")))
    /\ (converts (assoc (js "projectId") item) = false ->
        env_truthy (getenv E SITE_URL) = true
        \/ env_truthy (getenv E AWS_BUCKET_NAME) = true ->
        statusCode r = 500
        /\ field r "error" = Some (JStr (js "Status check failed"))).
Proof.
  intros Hget Hseg%extract_buildId_last Ht Hne Hf Hl projectId url.
  pose proof (status_handler_cases E ev w Hget) as Hc. rewrite Hseg in Hc.
  destruct Hc as (w1 & found & Hlook & Hc).
  destruct (lookup_build_spec E buildId w)
    as (? & ? & Hlook' & _ & _ & Hfound).
  rewrite Hlook in Hlook'. symmetry in Hlook'. simplify_eq.
  destruct found as [item'|].
  2: by destruct (no_record_not_found _ _ _ _ _ Hfound Ht Hne Hf Hl).
  destruct Hfound as (tbl' & ? & _ & _ & ?). simplify_eq.
  destruct Hc as (w2 & wf & o & _ & Hurls & ->).
  destruct (build_urls_cases E buildId item w2) as (o' & Hurls' & Hok & Hno).
  rewrite Hurls in Hurls'. symmetry in Hurls'. simplify_eq.
  eexists w2, _. split; [reflexivity|]. split.
  - intros Hyes. rewrite (Hok Hyes).
    match goal with
    | |- context [Status.report buildId (JObj item) wf ?u] =>
        destruct (report_urls buildId item wf u) as (links & Hu & Hs & Hd & Ha)
    end.
    split; [reflexivity|]. exists links. by split_and!.
  - intros Hconv Hset. rewrite (Hno Hconv Hset). by split.
Qed.

(** X18.  Each function answers an OPTIONS request with 200 and an empty
    body, and any method other than OPTIONS and its own (POST for the
    validator and the dispatcher, GET for the reconciler; the comparison
    is exact) with 405 "Method not allowed"; in both cases nothing else
    happens. *)
Theorem method_gate (E : Env) (ev : Event) (w : World) :
  (is_method ev "OPTIONS" = true ->
   exists r1 r2 r3,
     Validate.handler E ev w = (w, Ok r1)
     /\ Build.handler E ev w = (w, Ok r2)
     /\ Status.handler E ev w = (w, Ok r3)
     /\ Forall (fun r => statusCode r = 200 /\ body r = Empty) [r1; r2; r3])
  /\ (is_method ev "OPTIONS" = false ->
      forall verb handle,
        (verb = "POST" /\ (handle = Validate.handler \/ handle = Build.handler))
        \/ (verb = "GET" /\ handle = Status.handler) ->
        is_method ev verb = false ->
        exists r,
          handle E ev w = (w, Ok r)
          /\ statusCode r = 405
          /\ field r "error" = Some (JStr (js "Method not allowed"))).
Proof.
  split.
  - intros Ho. eexists _, _, _.
    unfold Validate.handler, Build.handler, Status.handler. rewrite Ho.
    split; [reflexivity|]. split; [reflexivity|]. split; [reflexivity|].
    by repeat constructor.
  - intros Ho verb handle [[-> [-> | ->]] | [-> ->]] Hv;
      unfold Validate.handler, Build.handler, Status.handler;
      rewrite Ho, Hv; eexists; by repeat split.
Qed.

(** ** Dispatcher: a required step fails *)

(** X19.  When the branch cannot be created (it exists already, say),
    a dispatch with [markdown] and a [projectId] that converts to a string
    is answered 500 "Build trigger failed" with the message of that
    failure; the reference lookup and the branch creation are the only
    requests to GitHub: nothing is committed and no workflow is
    dispatched. *)
Theorem branch_creation_failure_is_fatal (E : Env) (ev : Event) (w : World)
    (parsed markdown projectId : json) (owner repo : jsstring) (e : Error) :
  is_method ev "POST" = true ->
  parsed_body ev = Ok parsed ->
  prop parsed (js "markdown") = Some markdown ->
  truthy (Some markdown) = true ->
  prop parsed (js "projectId") = Some projectId ->
  truthy (Some projectId) = true ->
  converts (Some projectId) = true ->
  Build.github_owner E = Some owner -> nonempty owner = true ->
  getenv E GITHUB_REPO = Some repo -> nonempty repo = true ->
  (forall w0 p, exists resp,
      octokit E w0 GitGetRef p = Ok resp /\ Spec.ref_resolved resp) ->
  (forall w0 p, octokit E w0 GitCreateRef p = Throw e) ->
  exists w' r new,
    Build.handler E ev w = (w', Ok r)
    /\ statusCode r = 500
    /\ field r "error" = Some (JStr (js "Build trigger failed"))
    /\ field r "message" = Some (JStr (message e))
    /\ calls w' = calls w ++ new
    /\ Notions.routes new = [GitGetRef; GitCreateRef].
Proof.
  intros Hpost Hbody Hmd Hmdt Hpid Hpidt Hconv Ho Hot Hr Hrt Href Hcreate.
  destruct (build_valid_run E ev w parsed markdown projectId)
    as (w1 & w2 & o & Hs & Hp & Hh); try done.
  match type of Hs with
  | Build.store_metadata ?a ?b ?c ?d ?e ?f ?g ?h ?x = _ =>
      destruct (store_metadata_spec a b c d e f g h x)
        as (? & Hs' & _ & _ & _ & (puts & Hc1 & Hputs) & _)
  end.
  rewrite Hs in Hs'. symmetry in Hs'. simplify_eq.
  cbn [Notions.drawn calls] in Hc1.
  assert (Hrp : Notions.routes puts = []).
  { clear -Hputs. induction Hputs as [|c puts Hc _ IH]; [done|].
    destruct c; try done. }
  unfold Build.push_and_dispatch in Hp.
  rewrite Ho, Hr, Hot, Hrt in Hp. cbn [andb] in Hp.
  cbv beta iota zeta
    delta [bind ret throw try_catch lift get_world octokit_call record_call]
    in Hp.
  cbn [table uuid_ctr now calls] in Hp.
  match type of Hp with
  | context [octokit E w1 GitGetRef ?p] =>
      destruct (Href w1 p)
        as (resp & Hg & data & obj & sha & Hdata & Hobj & Hsha);
      rewrite Hg in Hp
  end.
  rewrite (member_prop _ _ _ Hdata) in Hp. unfold ret in Hp.
  rewrite (member_prop _ _ _ Hobj) in Hp. unfold ret in Hp.
  rewrite (member_prop _ _ _ Hsha) in Hp. unfold ret in Hp.
  cbn [table uuid_ctr now calls] in Hp. rewrite Hcreate in Hp.
  injection Hp as <- <-.
  eexists _, _, _. split; [exact Hh|]. split; [reflexivity|].
  split; [reflexivity|]. split.
  { unfold field, Notions.build_failed, Build.reply, object, present.
    cbn [body omap fmap option_fmap option_map prop].
    by destruct (bool_decide _). }
  cbn [calls]. rewrite Hc1, <- !app_assoc. split; [reflexivity|].
  unfold Notions.routes in *. rewrite omap_app, Hrp. reflexivity.
Qed.

(** X20.  What an accepted dispatch sends to GitHub, when [projectId],
    [slug] and [title] convert to strings: it looks up [heads/main],
    creates [refs/heads/build/<buildId>] at the commit that lookup
    returned, asks for the file [content/<projectId>/<slug>.md] on the new
    branch, commits the encoded markdown to that path on that branch with
    the message [build: <title> [<buildId>]] (with the hash of the
    existing file when the lookup found one, without a hash when it
    failed), and dispatches [build.yml] on the branch.  The put of the
    record, if any, comes first. *)
Theorem accepted_dispatch_requests (E : Env) (ev : Event) (w : World)
    (parsed markdown projectId resp data obj : json)
    (owner repo sha content : jsstring) (existing : outcome json) :
  is_method ev "POST" = true ->
  parsed_body ev = Ok parsed ->
  prop parsed (js "markdown") = Some markdown ->
  truthy (Some markdown) = true ->
  prop parsed (js "projectId") = Some projectId ->
  truthy (Some projectId) = true ->
  Build.github_owner E = Some owner -> nonempty owner = true ->
  getenv E GITHUB_REPO = Some repo -> nonempty repo = true ->
  (forall w0 p, octokit E w0 GitGetRef p = Ok resp) ->
  prop resp (js "data") = Some data ->
  prop data (js "object") = Some obj ->
  prop obj (js "sha") = Some (JStr sha) ->
  (forall w0 p, exists r, octokit E w0 GitCreateRef p = Ok r) ->
  (forall w0 p, octokit E w0 ReposGetContent p = existing) ->
  buffer_base64 E markdown = Ok content ->
  (forall w0 p, exists r,
      octokit E w0 ReposCreateOrUpdateFileContents p = Ok r) ->
  let buildId := uuidv4 E (uuid_ctr w) in
  let branch := js "build/" ++ buildId in
  let slug := or_else (opt_prop (prop parsed (js "metadata")) (js "slug"))
                (JStr (js "index")) in
  let title := or_else (opt_prop (prop parsed (js "metadata")) (js "title"))
                 (JStr (js "Untitled")) in
  converts (Some projectId) = true ->
  converts (Some slug) = true ->
  converts (Some title) = true ->
  let filePath := js "content/" ++ string_of (number_to_string E) projectId
                    ++ js "/" ++ string_of (number_to_string E) slug
                    ++ js ".md" in
  exists w' r puts p1 p2 p3 p4 p5,
    Build.handler E ev w = (w', Ok r)
    /\ statusCode r = 202
    /\ field r "filePath" = Some (JStr filePath)
    /\ calls w' = calls w ++ puts
         ++ [ Octokit GitGetRef p1; Octokit GitCreateRef p2;
              Octokit ReposGetContent p3;
              Octokit ReposCreateOrUpdateFileContents p4;
              Octokit ActionsCreateWorkflowDispatch p5 ]
    /\ Forall (fun c => is_octokit c = false) puts
    /\ prop p1 (js "ref") = Some (JStr (js "heads/main"))
    /\ prop p2 (js "ref") = Some (JStr (js "refs/heads/" ++ branch))
    /\ prop p2 (js "sha") = Some (JStr sha)
    /\ prop p3 (js "path") = Some (JStr filePath)
    /\ prop p3 (js "ref") = Some (JStr branch)
    /\ prop p4 (js "path") = Some (JStr filePath)
    /\ prop p4 (js "message")
       = Some (JStr (js "build: " ++ string_of (number_to_string E) title
                       ++ js " [" ++ buildId ++ js "]"))
    /\ prop p4 (js "branch") = Some (JStr branch)
    /\ prop p4 (js "content") = Some (JStr content)
    /\ prop p4 (js "sha")
       = match existing with
         | Ok file => opt_prop (opt_prop (Some file) (js "data")) (js "sha")
         | Throw _ => None
         end
    /\ prop p5 (js "workflow_id") = Some (JStr (js "build.yml"))
    /\ prop p5 (js "ref") = Some (JStr branch).
Proof.
  intros Hpost Hbody Hmd Hmdt Hpid Hpidt Ho Hot Hr Hrt Href Hdata Hobj Hsha
    Hcreate Hcontent Hb64 Hcommit buildId branch slug title Hproject Hslug
    Htitle filePath.
  destruct (build_valid_run E ev w parsed markdown projectId)
    as (w1 & w2 & o & Hs & Hp & Hh); try done.
  match type of Hs with
  | Build.store_metadata ?a ?b ?c ?d ?e ?f ?g ?h ?x = _ =>
      destruct (store_metadata_spec a b c d e f g h x)
        as (? & Hs' & _ & _ & _ & (puts & Hc1 & Hputs) & _)
  end.
  rewrite Hs in Hs'. symmetry in Hs'. simplify_eq.
  cbn [Notions.drawn calls] in Hc1.
  unfold Build.push_and_dispatch in Hp.
  rewrite Ho, Hr, Hot, Hrt in Hp. cbn [andb] in Hp.
  cbv beta iota zeta
    delta [bind ret throw try_catch lift get_world octokit_call record_call]
    in Hp.
  cbn [table uuid_ctr now calls] in Hp. rewrite Href in Hp.
  rewrite (member_prop _ _ _ Hdata) in Hp. unfold ret in Hp.
  rewrite (member_prop _ _ _ Hobj) in Hp. unfold ret in Hp.
  rewrite (member_prop _ _ _ Hsha) in Hp. unfold ret in Hp.
  cbn [table uuid_ctr now calls] in Hp.
  match type of Hp with
  | context [octokit E ?w0 GitCreateRef ?p] =>
      destruct (Hcreate w0 p) as [? Hcr]; rewrite Hcr in Hp
  end.
  fold slug title in Hp.
  rewrite (template_ok _ _ Hproject), (template_ok _ _ Hslug),
    (template_ok _ _ Htitle) in Hp.
  cbn [string_of_v] in Hp. unfold ret in Hp. fold filePath in Hp.
  rewrite Hcontent, Hb64 in Hp.
  set (sha4 := match existing with
               | Ok file => opt_prop (opt_prop (Some file) (js "data"))
                              (js "sha")
               | Throw _ => None
               end).
  assert (exists w5 p4 p5,
    (w5, Ok (Build.accepted buildId branch filePath (Build.serviceUrl E ev)
               projectId title slug (toISOString E (now w)))) = (w2, o)
    /\ calls w5 = calls w1
         ++ [ Octokit GitGetRef (object
                [ (js "owner", Some (JStr owner));
                  (js "repo", Some (JStr repo));
                  (js "ref", Some (JStr (js "heads/main"))) ]);
              Octokit GitCreateRef (object
                [ (js "owner", Some (JStr owner));
                  (js "repo", Some (JStr repo));
                  (js "ref", Some (JStr (js "refs/heads/" ++ branch)));
                  (js "sha", Some (JStr sha)) ]);
              Octokit ReposGetContent (object
                [ (js "owner", Some (JStr owner));
                  (js "repo", Some (JStr repo));
                  (js "path", Some (JStr filePath));
                  (js "ref", Some (JStr branch)) ]);
              Octokit ReposCreateOrUpdateFileContents p4;
              Octokit ActionsCreateWorkflowDispatch p5 ]
    /\ prop p4 (js "path") = Some (JStr filePath)
    /\ prop p4 (js "message")
       = Some (JStr (js "build: " ++ string_of (number_to_string E) title
                       ++ js " [" ++ buildId ++ js "]"))
    /\ prop p4 (js "branch") = Some (JStr branch)
    /\ prop p4 (js "content") = Some (JStr content)
    /\ prop p4 (js "sha") = sha4
    /\ prop p5 (js "workflow_id") = Some (JStr (js "build.yml"))
    /\ prop p5 (js "ref") = Some (JStr branch))
    as (w5 & p4 & p5 & Hres & Hcalls & H4p & H4m & H4b & H4c & H4s & H5w
        & H5r).
  { subst sha4. destruct existing as [file|e3];
      cbn [table uuid_ctr now calls] in Hp;
      match type of Hp with
      | context [octokit E ?w0 ReposCreateOrUpdateFileContents ?p] =>
          destruct (Hcommit w0 p) as [? Hcm]; rewrite Hcm in Hp;
          pose (p4 := p)
      end;
      cbn [table uuid_ctr now calls] in Hp;
      match type of Hp with
      | context [Build.trigger_workflow ?a ?b ?c ?d ?e ?f ?x] =>
          destruct (trigger_workflow_calls a b c d e f x)
            as (w5 & p5 & Ht & _ & Hu5 & Hn5 & Hc5 & H5r & H5w);
          rewrite Ht in Hp
      end;
      cbn [table uuid_ctr now calls] in Hc5;
      exists w5, p4, p5; (split; [exact Hp|]);
      (split; [by rewrite Hc5, <- !app_assoc|]);
      subst p4; unfold object; cbn [prop]; split_and!; try done;
      rewrite ?assoc_present_skip by solve_neq;
      try (by rewrite assoc_present_here).
    all: match goal with
         | |- assoc _ (present ((_, ?v) :: _)) = _ =>
             destruct v; [by rewrite assoc_present_here|]
         end.
    all: rewrite assoc_present_absent.
    all: by rewrite assoc_present_skip by solve_neq. }
  injection Hres as <- <-.
  eexists w5, _, puts, _, _, _, p4, p5. split; [exact Hh|].
  split; [reflexivity|]. split; [reflexivity|].
  split; [by rewrite Hcalls, Hc1, <- !app_assoc|].
  split; [done|]. by split_and!.
Qed.
(** ** The search index *)

Lemma replace_suffix_app (suffix rep a : jsstring) :
  SearchIndex.replace_suffix suffix rep (a ++ suffix) = a ++ rep.
Proof.
  induction a as [|c a IH].
  - destruct suffix; cbn; by rewrite bool_decide_eq_true_2.
  - cbn. rewrite bool_decide_eq_false_2; [by rewrite IH|].
    intros H. apply (f_equal length) in H. cbn in H.
    rewrite length_app in H. lia.
Qed.

Lemma replace_suffix_other (suffix rep s : jsstring) :
  (forall a, s <> a ++ suffix) ->
  SearchIndex.replace_suffix suffix rep s = s.
Proof.
  induction s as [|c s IH]; intros H.
  - cbn. rewrite bool_decide_eq_false_2; [done|]. exact (H []).
  - cbn. rewrite bool_decide_eq_false_2; [|exact (H [])].
    f_equal. apply IH. intros a ->. by apply (H (c :: a)).
Qed.

Lemma slashes_fixed (s : jsstring) :
  SearchIndex.backslash ∉ s ->
  map (fun c => if (c =? SearchIndex.backslash)%N then Status.slash else c) s
  = s.
Proof.
  induction s as [|c s IH]; [done|].
  rewrite not_elem_of_cons. intros [Hc Hs]. cbn [map].
  rewrite IH by done. destruct (N.eqb_spec c SearchIndex.backslash); congruence.
Qed.

Lemma slashes_none (s : jsstring) :
  SearchIndex.backslash ∉
  map (fun c => if (c =? SearchIndex.backslash)%N then Status.slash else c) s.
Proof.
  induction s as [|c s IH]; cbn [map]; [apply not_elem_of_nil|].
  apply not_elem_of_cons. split; [|done].
  destruct (N.eqb_spec c SearchIndex.backslash); [done|congruence].
Qed.

(** X21.  The URL of a file [content/<p>.md] whose path has no backslash:
    [/<p>/], except that a last segment [index] is dropped, so that
    [content/<dir>/index.md] is served at [/<dir>/] and [content/index.md]
    at [/]. *)
Theorem url_of_content_file (p : jsstring) :
  SearchIndex.backslash ∉ p ->
  (forall dir, js "/" ++ p = dir ++ js "/index" ->
     SearchIndex.url_of_file (js "content/" ++ p ++ js ".md")
     = dir ++ js "/") /\
  ((forall dir, js "/" ++ p <> dir ++ js "/index") ->
     SearchIndex.url_of_file (js "content/" ++ p ++ js ".md")
     = js "/" ++ p ++ js "/").
Proof.
  intros Hp.
  assert (Hstep : SearchIndex.replace_suffix (js ".md") (js "/")
            (SearchIndex.replace_prefix (js "content/") (js "/")
               (js "content/" ++ p ++ js ".md"))
          = (js "/" ++ p) ++ js "/").
  { unfold SearchIndex.replace_prefix.
    rewrite (proj2 (starts_with_prefix _ _)) by by eexists.
    rewrite drop_app_length, (app_assoc (js "/")).
    apply replace_suffix_app. }
  assert (Hfree : SearchIndex.backslash ∉ js "/" ++ p).
  { change (js "/") with [Status.slash]. cbn [app].
    apply not_elem_of_cons. split; [done|exact Hp]. }
  unfold SearchIndex.url_of_file. rewrite Hstep. split.
  - intros dir Hdir. rewrite Hdir, <- app_assoc.
    change (js "/index" ++ js "/") with (js "/index/").
    rewrite replace_suffix_app. apply slashes_fixed.
    rewrite Hdir in Hfree. rewrite not_elem_of_app in Hfree |- *.
    split; [apply Hfree|]. by apply (bool_decide_unpack _).
  - intros Hno. rewrite replace_suffix_other.
    + rewrite slashes_fixed; [by rewrite <- app_assoc|].
      rewrite not_elem_of_app. split; [done|]. by apply (bool_decide_unpack _).
    + intros a Ha.
      change (js "/index/") with (js "/index" ++ [Status.slash]) in Ha.
      change (js "/") with [Status.slash] in Ha at 2.
      rewrite (app_assoc a) in Ha. apply app_inj_tail in Ha as [Ha _].
      by apply (Hno a).
Qed.

(** X22.  No URL of the index has a backslash, whatever the file path. *)
Theorem url_has_no_backslash (file : jsstring) :
  SearchIndex.backslash ∉ SearchIndex.url_of_file file.
Proof. apply slashes_none. Qed.

(** X23.  A path written with backslashes, [content\<p>.md] with no slash
    in [p], keeps its [content] prefix and its last segment [index]: the
    backslashes are turned into slashes after the prefix and the [index]
    segment were looked for. *)
Theorem backslash_path_keeps_prefix (p : jsstring) :
  Status.slash ∉ p ->
  SearchIndex.url_of_file
    (js "content" ++ [SearchIndex.backslash] ++ p ++ js ".md")
  = js "content/"
    ++ map (fun c => if (c =? SearchIndex.backslash)%N then Status.slash
                     else c) p
    ++ js "/".
Proof.
  intros Hp. unfold SearchIndex.url_of_file, SearchIndex.replace_prefix.
  assert (Validate.starts_with (js "content/")
            (js "content" ++ [SearchIndex.backslash] ++ p ++ js ".md")
          = false) as -> by reflexivity.
  rewrite 2 app_assoc, replace_suffix_app.
  rewrite replace_suffix_other.
  - rewrite !map_app. reflexivity.
  - intros a Ha.
    change (js "/index/") with (js "/index" ++ [Status.slash]) in Ha.
    change (js "/") with [Status.slash] in Ha.
    rewrite (app_assoc a) in Ha. apply app_inj_tail in Ha as [Ha _].
    assert (Hin : Status.slash ∈ a ++ js "/index").
    { apply elem_of_app. right. by apply (bool_decide_unpack _). }
    rewrite <- Ha in Hin. apply elem_of_app in Hin as [Hin|Hin]; [|done].
    revert Hin. by apply (bool_decide_unpack _).
Qed.

Lemma replace_global_untouched (rule : jsstring -> option (jsstring * nat))
    (P : N -> Prop) (s : jsstring) :
  (forall t, Forall P t -> rule t = None) ->
  Forall P s -> SearchIndex.replace_global rule 0 s = s.
Proof.
  intros Hrule. induction 1 as [|c s Hc Hs IH]; [done|].
  cbn [SearchIndex.replace_global].
  rewrite (Hrule (c :: s)) by by constructor. by rewrite IH.
Qed.

Lemma span_spec (p : N -> bool) (s a b : jsstring) :
  SearchIndex.span p s = (a, b) ->
  s = a ++ b /\ Forall (fun c => p c = true) a /\
  match b with c :: _ => p c = false | [] => True end.
Proof.
  revert a b. induction s as [|c s IH]; intros a b; cbn.
  - intros [= <- <-]. by split_and!.
  - destruct (p c) eqn:Hc.
    + destruct (SearchIndex.span p s) as [a' b'].
      intros [= <- <-]. destruct (IH _ _ eq_refl) as (-> & Ha & Hb).
      split_and!; [done|by constructor|done].
    + intros [= <- <-]. by split_and!.
Qed.

Lemma cut_at_spec (p s a b : jsstring) :
  SearchIndex.cut_at p s = Some (a, b) -> s = a ++ p ++ b.
Proof.
  revert a b. induction s as [|c s IH]; intros a b; cbn [SearchIndex.cut_at].
  - destruct (Validate.starts_with p []) eqn:Hp; [|done].
    intros [= <- <-]. apply starts_with_prefix in Hp as [rest Hp].
    symmetry in Hp. apply app_eq_nil in Hp as [-> ->]. done.
  - destruct (Validate.starts_with p (c :: s)) eqn:Hp.
    + intros [= <- <-]. apply starts_with_prefix in Hp as [rest ->].
      by rewrite drop_app_length.
    + destruct (SearchIndex.cut_at p s) as [[a' b']|]; [|done].
      intros [= <- <-]. by rewrite (IH _ _ eq_refl).
Qed.

(** Each pattern starts with one of the code units that [syntax_free]
    rules out, or with [![]. *)
Lemma rules_quiet (t : jsstring) :
  Notions.syntax_free t ->
  SearchIndex.code_block t = None /\ SearchIndex.inline_code t = None /\
  SearchIndex.image t = None /\ SearchIndex.link t = None /\
  SearchIndex.heading_marker t = None /\ SearchIndex.emphasis t = None.
Proof.
  intros Ht.
  assert (Hstart : forall (q : jsstring) (c : N),
            c ∈ [96; 91; 35; 42; 95; 126]%N ->
            (exists q', q = c :: q') ->
            Validate.starts_with q t = false).
  { intros q c Hc [q' ->]. destruct (Validate.starts_with _ t) eqn:Hq; [|done].
    apply starts_with_prefix in Hq as [rest ->].
    apply Forall_cons in Ht as [Hq _]. done. }
  assert (Himage : Validate.starts_with (js "![") t = false).
  { destruct (Validate.starts_with _ t) eqn:Hq; [|done].
    apply starts_with_prefix in Hq as [rest ->].
    change (js "![" ++ rest) with (33 :: 91 :: rest)%N in Ht.
    apply Forall_cons in Ht as [_ [Hc _]%Forall_cons].
    exfalso. apply Hc. set_solver. }
  unfold SearchIndex.code_block, SearchIndex.image.
  rewrite (Hstart (js "```") 96%N), Himage by (set_solver || by eexists).
  split_and!; try done.
  - destruct Ht as [|c t Hc _]; [done|]. cbn.
    destruct (N.eqb_spec c SearchIndex.backtick) as [->|]; [|done].
    exfalso. apply Hc. set_solver.
  - destruct Ht as [|c t Hc _]; [done|]. cbn.
    destruct (N.eqb_spec c 91) as [->|]; [|done].
    exfalso. apply Hc. set_solver.
  - destruct Ht as [|c t Hc _]; [done|].
    unfold SearchIndex.heading_marker. cbn [SearchIndex.span].
    destruct (N.eqb_spec c 35) as [->|]; [|done].
    exfalso. apply Hc. set_solver.
  - destruct Ht as [|c t Hc _]; [done|]. cbn.
    assert (SearchIndex.is_emphasis c = false) as ->; [|done].
    unfold SearchIndex.is_emphasis.
    destruct (N.eqb_spec c 42) as [->|]; [exfalso; apply Hc; set_solver|].
    destruct (N.eqb_spec c 95) as [->|]; [exfalso; apply Hc; set_solver|].
    destruct (N.eqb_spec c 126) as [->|]; [exfalso; apply Hc; set_solver|].
    done.
Qed.

(** X24.  A body with no backtick, [[], [#], [*], [_] or [~] is indexed as
    it is: none of the six replacements changes it. *)
Theorem plain_text_is_untouched (body : jsstring) :
  Notions.syntax_free body -> SearchIndex.plainText body = body.
Proof.
  intros Hbody. unfold SearchIndex.plainText.
  assert (H : forall rule, (forall t, Notions.syntax_free t -> rule t = None) ->
            SearchIndex.replace_global rule 0 body = body).
  { intros rule Hrule. by eapply replace_global_untouched. }
  rewrite !H; [done|..]; intros t Ht; by apply rules_quiet.
Qed.

Lemma emphasis_removed (skip : nat) (s : jsstring) :
  Forall (fun c => SearchIndex.is_emphasis c = false)
    (SearchIndex.replace_global SearchIndex.emphasis skip s).
Proof.
  revert skip. induction s as [|c s IH]; intros skip; [constructor|].
  cbn [SearchIndex.replace_global SearchIndex.emphasis].
  destruct skip as [|k]; [|apply IH].
  destruct (SearchIndex.is_emphasis c) eqn:Hc; [apply IH|].
  constructor; [done|apply IH].
Qed.

(** The documents come from files of the list that were read and parsed. *)
Lemma document_inv (S : SearchIndex.Sources) (seen : list jsstring)
    (file : jsstring) (doc : SearchIndex.Doc) :
  SearchIndex.document S seen file = Ok doc ->
  exists text frontmatter body,
    SearchIndex.readFileSync S file = Ok text /\
    SearchIndex.matter S seen text = Ok (frontmatter, body) /\
    frontmatter <> JNull /\
    SearchIndex.id doc = file /\
    SearchIndex.url doc = SearchIndex.url_of_file file /\
    SearchIndex.content doc = take 1000 (SearchIndex.plainText body).
Proof.
  unfold SearchIndex.document.
  destruct (SearchIndex.readFileSync S file) as [text|]; [|done].
  destruct (SearchIndex.matter S seen text) as [[fm body]|] eqn:Hm; [|done].
  intros H. exists text, fm, body.
  destruct fm; try done; injection H as <-; by split_and!.
Qed.

Lemma texts_cons (read : jsstring -> outcome jsstring) (file : jsstring)
    (files : list jsstring) :
  Notions.texts read (file :: files)
  = match read file with
    | Ok text => text :: Notions.texts read files
    | Throw _ => Notions.texts read files
    end.
Proof. unfold Notions.texts. simpl. by destruct (read file). Qed.

Lemma texts_app (read : jsstring -> outcome jsstring)
    (before after : list jsstring) :
  Notions.texts read (before ++ after)
  = Notions.texts read before ++ Notions.texts read after.
Proof.
  induction before as [|file before IH]; [done|].
  cbn [app]. rewrite !texts_cons, IH. by destruct (read file).
Qed.

Lemma given_texts (S : SearchIndex.Sources) (seen : list jsstring)
    (file : jsstring) :
  SearchIndex.given S seen file
  = seen ++ Notions.texts (SearchIndex.readFileSync S) [file].
Proof.
  unfold SearchIndex.given. rewrite texts_cons.
  destruct (SearchIndex.readFileSync S file); [done|].
  by rewrite app_nil_r.
Qed.

(** The documents come from files of the list that were read and parsed,
    each after the texts of the files before it. *)
Lemma documents_origin (S : SearchIndex.Sources) (seen : list jsstring)
    (files : list jsstring) (doc : SearchIndex.Doc) :
  doc ∈ SearchIndex.documents S seen files ->
  exists before after,
    files = before ++ SearchIndex.id doc :: after /\
    SearchIndex.document S
      (seen ++ Notions.texts (SearchIndex.readFileSync S) before)
      (SearchIndex.id doc) = Ok doc.
Proof.
  revert seen. induction files as [|file files IH]; intros seen;
    cbn [SearchIndex.documents].
  - intros H. by apply elem_of_nil in H.
  - assert (Hrest : doc ∈ SearchIndex.documents S
                       (SearchIndex.given S seen file) files ->
            exists before after,
              file :: files = before ++ SearchIndex.id doc :: after /\
              SearchIndex.document S
                (seen ++ Notions.texts (SearchIndex.readFileSync S) before)
                (SearchIndex.id doc) = Ok doc).
    { intros (before & after & -> & Hd)%IH.
      exists (file :: before), after. split; [done|].
      rewrite given_texts, <- app_assoc, <- texts_app in Hd. exact Hd. }
    destruct (SearchIndex.document S seen file) as [d|e] eqn:Hd;
      [|exact Hrest].
    intros [->|Hin]%elem_of_cons; [|by apply Hrest].
    destruct (document_inv _ _ _ _ Hd) as (? & ? & ? & _ & _ & _ & Hid & _).
    exists [], files. rewrite Hid, app_nil_r. by split.
Qed.

(** X25.  No indexed text has an emphasis marker [*], [_] or [~] left. *)
Theorem indexed_text_has_no_emphasis (S : SearchIndex.Sources)
    (seen files : list jsstring) (doc : SearchIndex.Doc) :
  doc ∈ SearchIndex.documents S seen files ->
  Forall (fun c => c <> 42 /\ c <> 95 /\ c <> 126)%N (SearchIndex.content doc).
Proof.
  intros (before & after & _ & Hd)%documents_origin.
  apply document_inv in Hd as (text & fm & body & _ & _ & _ & _ & _ & ->).
  apply Forall_take. unfold SearchIndex.plainText.
  eapply Forall_impl; [apply emphasis_removed|].
  intros c Hc. unfold SearchIndex.is_emphasis in Hc.
  rewrite !orb_false_iff, !N.eqb_neq in Hc. tauto.
Qed.

Lemma replace_global_length (rule : jsstring -> option (jsstring * nat)) :
  (forall s out n, rule s = Some (out, n) ->
     (length out <= n /\ n <= length s)%nat) ->
  forall s skip,
    (length (SearchIndex.replace_global rule skip s) <= length s - skip)%nat.
Proof.
  intros Hfit. induction s as [|c s IH]; intros skip; [cbn; lia|].
  cbn [SearchIndex.replace_global]. destruct skip as [|k].
  - destruct (rule (c :: s)) as [[out n]|] eqn:Hrule.
    + apply Hfit in Hrule as [Hout Hn]. cbn [length] in Hn |- *.
      rewrite length_app. specialize (IH (n - 1)%nat). lia.
    + specialize (IH 0%nat). cbn [length]. lia.
  - specialize (IH k). cbn [length]. lia.
Qed.

Ltac use_spans :=
  repeat match goal with
         | H : SearchIndex.span _ _ = _ |- _ =>
             apply span_spec in H as (? & _ & _)
         | H : SearchIndex.cut_at _ _ = _ |- _ => apply cut_at_spec in H
         | H : Validate.starts_with _ _ = true |- _ =>
             apply starts_with_prefix in H as [? ?]
         end.

Lemma rules_fit (s out : jsstring) (n : nat) :
  SearchIndex.code_block s = Some (out, n) \/
  SearchIndex.inline_code s = Some (out, n) \/
  SearchIndex.image s = Some (out, n) \/
  SearchIndex.link s = Some (out, n) \/
  SearchIndex.heading_marker s = Some (out, n) \/
  SearchIndex.emphasis s = Some (out, n) ->
  (length out <= n /\ n <= length s)%nat.
Proof.
  intros [H|[H|[H|[H|[H|H]]]]].
  - unfold SearchIndex.code_block in H.
    destruct (Validate.starts_with _ s) eqn:Hs; [|done].
    apply starts_with_prefix in Hs as [rest ->].
    change (drop 3 (js "```" ++ rest)) with rest in H.
    destruct (SearchIndex.cut_at _ rest) as [[inner after]|] eqn:Hc; [|done].
    apply cut_at_spec in Hc as ->. injection H as <- <-.
    rewrite !length_app. change (length (js "```")) with 3%nat. cbn; lia.
  - destruct s as [|c s]; [done|]. cbn in H.
    destruct (c =? SearchIndex.backtick)%N; [|done].
    destruct (SearchIndex.span _ s) as [[|x inner] [|y rest]] eqn:Hsp;
      try done.
    apply span_spec in Hsp as (-> & _ & _). injection H as <- <-.
    cbn [length]. rewrite length_app. cbn [length]. lia.
  - unfold SearchIndex.image in H.
    destruct (Validate.starts_with _ s) eqn:Hs; [|done].
    apply starts_with_prefix in Hs as [rest0 ->].
    change (drop 2 (js "![" ++ rest0)) with rest0 in H.
    destruct (SearchIndex.cut_at _ rest0) as [[alt rest]|] eqn:Hc; [|done].
    apply cut_at_spec in Hc as ->.
    destruct (forallb _ alt); [|done].
    destruct (SearchIndex.span _ rest) as [target [|y after]] eqn:Hsp;
      [done|].
    apply span_spec in Hsp as (-> & _ & _).
    destruct (forallb _ target); [|done]. injection H as <- <-.
    rewrite !length_app. change (length (js "![")) with 2%nat.
    change (length (js "](")) with 2%nat. cbn [length]. lia.
  - destruct s as [|c s]; [done|]. cbn in H.
    destruct (c =? 91)%N; [|done].
    destruct (SearchIndex.span _ s) as [[|x text] [|y [|p after]]] eqn:Hsp;
      try done.
    apply span_spec in Hsp as (-> & _ & _).
    destruct (p =? 40)%N; [|done].
    destruct (SearchIndex.span _ after) as [[|z target] [|q rest]] eqn:Hsp;
      try done.
    apply span_spec in Hsp as (-> & _ & _). injection H as <- <-.
    cbn [length]. rewrite !length_app. cbn [length].
    rewrite !length_app. cbn [length]. lia.
  - unfold SearchIndex.heading_marker in H.
    destruct (SearchIndex.span _ s) as [[|x marks] [|sp rest]] eqn:Hsp;
      try done.
    apply span_spec in Hsp as (-> & _ & _).
    destruct (sp =? 32)%N; [|done]. injection H as <- <-.
    cbn [length]. rewrite length_app. cbn [length]. lia.
  - destruct s as [|c s]; [done|]. cbn in H.
    destruct (SearchIndex.is_emphasis c); [|done]. injection H as <- <-.
    cbn [length]. lia.
Qed.

Lemma plainText_length (body : jsstring) :
  (length (SearchIndex.plainText body) <= length body)%nat.
Proof.
  assert (H : forall rule s,
            (forall t out n, rule t = Some (out, n) ->
               (length out <= n /\ n <= length t)%nat) ->
            (length (SearchIndex.replace_global rule 0 s) <= length s)%nat).
  { intros rule s Hfit.
    pose proof (replace_global_length rule Hfit s 0). lia. }
  unfold SearchIndex.plainText.
  repeat (etrans; [apply H; intros t out n Ht; apply (rules_fit t); tauto|]).
  done.
Qed.

(** X26.  The text indexed for a document is what is left of the file's
    body (as gray-matter gave it when the file was processed, after the
    files before it) once the replacements are made, cut at 1000 code
    units: it is no longer than the body, and the preview of the document
    is its first 200 code units. *)
Theorem indexed_text_is_bounded (S : SearchIndex.Sources)
    (seen files : list jsstring) (doc : SearchIndex.Doc) :
  doc ∈ SearchIndex.documents S seen files ->
  exists before after text frontmatter body,
    files = before ++ SearchIndex.id doc :: after /\
    SearchIndex.readFileSync S (SearchIndex.id doc) = Ok text /\
    SearchIndex.matter S
      (seen ++ Notions.texts (SearchIndex.readFileSync S) before) text
    = Ok (frontmatter, body) /\
    (length (SearchIndex.content doc) <= 1000)%nat /\
    (length (SearchIndex.content doc) <= length body)%nat /\
    SearchIndex.content doc `prefix_of` SearchIndex.plainText body /\
    prop (SearchIndex.entry doc) (js "preview")
    = Some (JStr (take 200 (SearchIndex.plainText body))).
Proof.
  intros (before & after & Hfiles & Hd)%documents_origin.
  apply document_inv in Hd as (text & fm & body & Hr & Hm & _ & _ & _ & Hc).
  exists before, after, text, fm, body.
  pose proof (plainText_length body) as Hlen.
  split_and!; try done.
  - rewrite Hc, length_take. lia.
  - rewrite Hc, length_take. lia.
  - rewrite Hc. apply prefix_take.
  - unfold SearchIndex.entry, object. cbn [prop].
    rewrite !assoc_present_skip by solve_neq.
    rewrite assoc_present_here by by eexists.
    by rewrite Hc, take_take.
Qed.

Lemma documents_ids (S : SearchIndex.Sources) (seen files : list jsstring) :
  map SearchIndex.id (SearchIndex.documents S seen files)
  = Notions.indexed S seen files.
Proof.
  revert seen. induction files as [|file files IH]; intros seen; [done|].
  cbn [SearchIndex.documents Notions.indexed].
  rewrite <- given_texts, <- IH.
  unfold SearchIndex.document, Notions.readable.
  destruct (SearchIndex.readFileSync S file) as [text|]; [|done].
  destruct (SearchIndex.matter S seen text) as [[fm body]|]; [|done].
  by destruct fm.
Qed.

(** When gray-matter answers the same whatever it was given before, the
    files indexed are the readable ones. *)
Lemma indexed_filter (S : SearchIndex.Sources) (seen files : list jsstring) :
  (forall seen' text,
     SearchIndex.matter S seen' text = SearchIndex.matter S [] text) ->
  Notions.indexed S seen files = List.filter (Notions.readable S []) files.
Proof.
  intros Hpure. revert seen.
  induction files as [|file files IH]; intros seen; [done|].
  cbn [Notions.indexed List.filter]. rewrite IH.
  assert (Notions.readable S seen file = Notions.readable S [] file) as ->.
  { unfold Notions.readable.
    destruct (SearchIndex.readFileSync S file); [|done]. by rewrite Hpure. }
  by destruct (Notions.readable S [] file).
Qed.

Lemma entries_ids (docs : list SearchIndex.Doc) :
  omap (fun e => prop e (js "id")) (map SearchIndex.entry docs)
  = map JStr (map SearchIndex.id docs).
Proof.
  induction docs as [|d ds IH]; [done|].
  assert (Hid : prop (SearchIndex.entry d) (js "id")
                = Some (JStr (SearchIndex.id d))).
  { unfold SearchIndex.entry, object. cbn [prop].
    by rewrite assoc_present_here by by eexists. }
  cbn [map].
  change (match prop (SearchIndex.entry d) (js "id") with
          | Some y => y :: omap (fun e => prop e (js "id"))
                           (map SearchIndex.entry ds)
          | None => omap (fun e => prop e (js "id"))
                      (map SearchIndex.entry ds)
          end = JStr (SearchIndex.id d) :: map JStr (map SearchIndex.id ds)).
  by rewrite Hid, IH.
Qed.

(** X27.  The index data the script writes lists, in the order of the
    file list, exactly the files that were read and whose front matter
    parsed (to something other than [null]) when their turn came, one
    entry each under the file's path as [id]; [documentCount] is their
    number.  gray-matter answers from its cache for a text it was given
    before, so whether a file parses can depend on the files before it;
    when it does not, the files listed are the readable ones. *)
Theorem index_lists_readable_files (S : SearchIndex.Sources) (data : json) :
  SearchIndex.indexData S = Some data ->
  exists entries,
    prop data (js "documents") = Some (JArr entries) /\
    prop data (js "documentCount")
    = Some (JNum (Z.of_nat (length entries))) /\
    omap (fun e => prop e (js "id")) entries
    = map JStr (Notions.indexed S [] (SearchIndex.contentFiles S)) /\
    ((forall seen text,
        SearchIndex.matter S seen text = SearchIndex.matter S [] text) ->
     omap (fun e => prop e (js "id")) entries
     = map JStr (List.filter (Notions.readable S [])
                   (SearchIndex.contentFiles S))).
Proof.
  unfold SearchIndex.indexData.
  destruct (SearchIndex.site_built S); [|done].
  destruct (forallb _ _); [|done].
  destruct (SearchIndex.lunr S _) as [index|]; [|done].
  intros [= <-].
  assert (Hids : omap (fun e => prop e (js "id"))
                   (map SearchIndex.entry
                      (SearchIndex.documents S [] (SearchIndex.contentFiles S)))
                 = map JStr (Notions.indexed S []
                               (SearchIndex.contentFiles S))).
  { rewrite <- documents_ids. apply entries_ids. }
  eexists. unfold object. cbn [prop]. split_and!.
  - rewrite !assoc_present_skip by solve_neq.
    by rewrite assoc_present_here by by eexists.
  - rewrite !assoc_present_skip by solve_neq.
    rewrite assoc_present_here by by eexists.
    by rewrite length_map.
  - exact Hids.
  - intros Hpure. by rewrite Hids, (indexed_filter S [] _ Hpure).
Qed.

Lemma split_char_first (sep : N) (first rest : jsstring) :
  sep ∉ first ->
  exists pieces, split_char sep (first ++ sep :: rest) = first :: pieces.
Proof.
  induction first as [|c first IH]; intros Hsep.
  - cbn. rewrite N.eqb_refl. by eexists.
  - apply not_elem_of_cons in Hsep as [Hc Hsep].
    destruct (IH Hsep) as [pieces Hp]. cbn [app split_char].
    rewrite Hp. destruct (N.eqb_spec c sep); [congruence|]. by eexists.
Qed.

(** X28.  A file whose front matter has no field is indexed under the
    title [Untitled] and the category [uncategorized], with no tags and
    no audience, and dated with the day it is processed: the part of the
    ISO time before its [T]. *)
Theorem bare_file_gets_defaults (S : SearchIndex.Sources)
    (seen : list jsstring) (file text body day time : jsstring)
    (frontmatter : json) :
  SearchIndex.readFileSync S file = Ok text ->
  SearchIndex.matter S seen text = Ok (frontmatter, body) ->
  frontmatter <> JNull ->
  (forall k, prop frontmatter k = None) ->
  SearchIndex.isoAt S file = day ++ js "T" ++ time ->
  84%N ∉ day ->
  exists doc,
    SearchIndex.document S seen file = Ok doc /\
    SearchIndex.title doc = JStr (js "Untitled") /\
    SearchIndex.category doc = JStr (js "uncategorized") /\
    SearchIndex.tags doc = JArr [] /\
    SearchIndex.audience doc = JArr [] /\
    SearchIndex.dateAdded doc = JStr day.
Proof.
  intros Hr Hm Hnull Hfm Hnow Hday. unfold SearchIndex.document.
  rewrite Hr, Hm, !Hfm, Hnow.
  change (js "T" ++ time) with (84%N :: time).
  destruct (split_char_first 84 day time Hday) as [pieces ->].
  destruct frontmatter; try done; by eexists.
Qed.

(** ** The test of the example files *)

Lemma tested_texts (files : TestValidation.Files) (seen : list jsstring)
    (filePath : jsstring) :
  TestValidation.given files seen filePath
  = seen ++ Notions.texts files [filePath].
Proof.
  unfold TestValidation.given. rewrite texts_cons.
  destruct (files filePath); [done|]. by rewrite app_nil_r.
Qed.

Lemma forEach_counts (S : TestValidation.Sources)
    (files : TestValidation.Files) (validate : json -> Verdict)
    (seen rest : list jsstring) (pass fail pass' fail' : nat) :
  TestValidation.forEach S files validate seen rest pass fail
  = (pass', fail') ->
  (pass' + fail' = pass + fail + length rest)%nat /\
  (fail <= fail')%nat /\
  (fail' = fail ->
   forall before f after,
     rest = before ++ f :: after ->
     TestValidation.check S files validate
       (seen ++ Notions.texts files before) f
     = TestValidation.Passed).
Proof.
  revert seen pass fail.
  induction rest as [|f0 rest IH]; intros seen pass fail.
  - cbn. intros [= <- <-]. split_and!; [lia|lia|].
    intros _ before f after H. by destruct before.
  - cbn [TestValidation.forEach length]. rewrite tested_texts.
    destruct (TestValidation.check S files validate seen f0) eqn:Hf;
      intros H; apply IH in H as (Hsum & Hle & Hall).
    + split_and!; [lia|lia|]. intros Heq before f after Hsplit.
      destruct before as [|f1 before]; cbn [app] in Hsplit;
        injection Hsplit as <- ->.
      * by rewrite app_nil_r.
      * rewrite <- (Hall Heq before f after eq_refl).
        by rewrite <- app_assoc, <- texts_app.
    + split_and!; [lia|lia|]. intros Heq. lia.
Qed.

Lemma check_passed (S : TestValidation.Sources)
    (files : TestValidation.Files) (validate : json -> Verdict)
    (seen : list jsstring) (f : jsstring) :
  TestValidation.check S files validate seen f = TestValidation.Passed <->
  Notions.Passes S files validate seen f.
Proof.
  unfold TestValidation.check, Notions.Passes. split.
  - destruct (files f) as [content|]; [|done].
    destruct (TestValidation.matter S seen content) as [[fm body]|] eqn:Hm;
      [|done].
    destruct (validate fm) eqn:Hv; [|done].
    intros H. exists content, fm, body.
    assert (Hfm : fm <> JNull) by (by intros ->).
    assert (H' : (if converts (prop fm (js "title"))
                     && converts (prop fm (js "category"))
                  then if truthy (prop fm (js "tags"))
                       then match prop fm (js "tags") with
                            | Some (JArr _) =>
                                if converts (prop fm (js "tags"))
                                then TestValidation.Passed
                                else TestValidation.Failed
                            | _ => TestValidation.Failed
                            end
                       else TestValidation.Passed
                  else TestValidation.Failed) = TestValidation.Passed)
      by (by destruct fm).
    clear H.
    destruct (converts (prop fm (js "title"))); [|done].
    destruct (converts (prop fm (js "category"))); [|done].
    split_and!; try done.
    cbn [andb] in H'.
    destruct (truthy (prop fm (js "tags"))); [|by left].
    right. destruct (prop fm (js "tags")) as [[| | | |items|]|]; try done.
    exists items. split; [done|].
    by destruct (converts (Some (JArr items))).
  - intros (content & fm & body & -> & -> & Hfm & -> & -> & -> & Htags).
    cbn [andb].
    destruct fm; try done;
      by destruct Htags as [->|(items & -> & ->)].
Qed.

(** What a run that reaches its summary has gone through. *)
Lemma testValidation_summary (S : TestValidation.Sources)
    (sum : TestValidation.Summary) :
  TestValidation.testValidation S = Some sum ->
  exists data schema files validate,
    TestValidation.siteData S = Ok data /\
    prop data (js "frontmatterSchema") = Some schema /\
    TestValidation.compile S schema = Ok validate /\
    TestValidation.forEach S files validate [] (TestValidation.testFiles sum)
      0%nat 0%nat
    = (TestValidation.passCount sum, TestValidation.failCount sum) /\
    TestValidation.testFiles sum <> [] /\
    (forall names, TestValidation.exampleFiles S = Some (Ok names) ->
       List.filter (TestValidation.ends_with (js ".md")) names <> [] ->
       files = TestValidation.readFileSync S /\
       TestValidation.testFiles sum
       = map (TestValidation.examplePath S)
           (List.filter (TestValidation.ends_with (js ".md")) names)).
Proof.
  unfold TestValidation.testValidation.
  destruct (TestValidation.siteData S) as [data|]; [|done].
  intros H.
  assert (Hdata : match prop data (js "frontmatterSchema") with
                  | Some schema =>
                      truthy (Some schema) = true /\
                      exists req,
                        opt_prop (Some schema) (js "required")
                        = Some (JArr req)
                        /\ converts (Some (JArr req)) = true
                  | None => False
                  end).
  { destruct data; try done;
      destruct (prop _ (js "frontmatterSchema")) as [schema|]; try done;
      destruct (truthy (Some schema)); try done;
      (split; [done|]);
      destruct (opt_prop (Some schema) (js "required"))
        as [[| | | |req|]|]; try done;
      destruct (converts (Some (JArr req))) eqn:Hconv; try done;
      by eexists. }
  destruct (prop data (js "frontmatterSchema")) as [schema|] eqn:Hschema;
    [|done].
  destruct Hdata as [Htruthy (req & Hreq & Hconv)].
  assert (H' :
    match
      match TestValidation.exampleFiles S with
      | Some (Ok names) =>
          Some (map (TestValidation.examplePath S)
                  (List.filter (TestValidation.ends_with (js ".md")) names))
      | Some (Throw _) => None
      | None => Some []
      end
    with
    | None => None
    | Some found =>
        match
          match found with
          | [] =>
              match TestValidation.createTestFile S with
              | Some (files, path) => Some (files, [path])
              | None => None
              end
          | _ :: _ => Some (TestValidation.readFileSync S, found)
          end, Some schema
        with
        | Some (files, tested), Some schema =>
            match TestValidation.compile S schema with
            | Throw _ => None
            | Ok validate =>
                let (pass, fail) :=
                  TestValidation.forEach S files validate [] tested 0%nat 0%nat
                in Some {| TestValidation.testFiles := tested;
                           TestValidation.passCount := pass;
                           TestValidation.failCount := fail |}
            end
        | _, _ => None
        end
    end = Some sum).
  { destruct data; try done; rewrite Htruthy, Hreq, Hconv in H; exact H. }
  clear H.
  set (found := match TestValidation.exampleFiles S with
                | Some (Ok names) => _ | Some (Throw _) => None
                | None => Some [] end) in H'.
  destruct found as [found'|] eqn:Hfound; [|done].
  set (chosen := match found' with [] => _ | _ :: _ => _ end) in H'.
  destruct chosen as [[files tested]|] eqn:Hchosen; [|done].
  destruct (TestValidation.compile S schema) as [validate|] eqn:Hcompile;
    [|done].
  destruct (TestValidation.forEach S files validate [] tested 0%nat 0%nat)
    as [pass fail] eqn:Hloop.
  injection H' as <-. cbn [TestValidation.testFiles TestValidation.passCount
                           TestValidation.failCount].
  exists data, schema, files, validate. split_and!; try done.
  - subst chosen. destruct found' as [|f found'].
    + destruct (TestValidation.createTestFile S) as [[? ?]|]; [|done].
      by injection Hchosen as <- <-.
    + by injection Hchosen as <- <-.
  - intros names Hnames Hmd. subst found chosen. rewrite Hnames in Hfound.
    injection Hfound as <-.
    destruct (map _ _) as [|f found'] eqn:Hmap.
    + apply map_eq_nil in Hmap. done.
    + by injection Hchosen as <- <-.
Qed.

(** X29.  When the test script prints its summary, at least one file was
    tested and every tested file was counted once, as passed or as
    failed. *)
Theorem summary_counts_add_up (S : TestValidation.Sources)
    (sum : TestValidation.Summary) :
  TestValidation.testValidation S = Some sum ->
  TestValidation.testFiles sum <> [] /\
  (TestValidation.passCount sum + TestValidation.failCount sum
   = length (TestValidation.testFiles sum))%nat.
Proof.
  intros (data & schema & files & validate & _ & _ & _ & Hloop & Hne & _)
    %testValidation_summary.
  split; [done|]. apply forEach_counts in Hloop as (Hsum & _). lia.
Qed.

(** X30.  The test script exits with code 0 only if every [.md] file of
    the example directory passed when its turn came: it was read, parsed
    (to a front matter other than [null]; gray-matter having been given
    the texts of the files before it), satisfies the compiled schema of
    [site.json], has a title and a category that convert to strings, and
    has [tags] that are falsy or an array whose elements convert.  A file
    that satisfies the schema with a truthy [tags] that is no array makes
    the script exit with 1.  When gray-matter answers the same whatever it
    was given before, the files before play no part. *)
Theorem exit_zero_needs_every_example_to_pass (S : TestValidation.Sources)
    (names : list jsstring) (name : jsstring) :
  TestValidation.exit_code S = 0 ->
  TestValidation.exampleFiles S = Some (Ok names) ->
  name ∈ names ->
  TestValidation.ends_with (js ".md") name = true ->
  exists data schema validate,
    TestValidation.siteData S = Ok data /\
    prop data (js "frontmatterSchema") = Some schema /\
    TestValidation.compile S schema = Ok validate /\
    (exists before after,
       List.filter (TestValidation.ends_with (js ".md")) names
       = before ++ name :: after /\
       Notions.Passes S (TestValidation.readFileSync S) validate
         (Notions.texts (TestValidation.readFileSync S)
            (map (TestValidation.examplePath S) before))
         (TestValidation.examplePath S name)) /\
    ((forall seen text,
        TestValidation.matter S seen text = TestValidation.matter S [] text) ->
     Notions.Passes S (TestValidation.readFileSync S) validate []
       (TestValidation.examplePath S name)).
Proof.
  intros Hexit Hnames Hname Hmd. unfold TestValidation.exit_code in Hexit.
  destruct (TestValidation.testValidation S) as [sum|] eqn:Hrun; [|done].
  destruct (0 <? TestValidation.failCount sum)%nat eqn:Hfail; [done|].
  apply Nat.ltb_ge in Hfail.
  apply testValidation_summary in Hrun
    as (data & schema & files & validate & Hdata & Hschema & Hcompile
        & Hloop & _ & Hfiles).
  assert (Hin : name ∈ List.filter (TestValidation.ends_with (js ".md")) names).
  { apply list_elem_of_In, filter_In. split; [by apply list_elem_of_In|done]. }
  destruct (Hfiles names Hnames) as [-> Htested].
  { intros Hnil. rewrite Hnil in Hin. by apply elem_of_nil in Hin. }
  apply list_elem_of_split in Hin as (before & after & Hsplit).
  apply forEach_counts in Hloop as (_ & _ & Hall).
  assert (Hpass : Notions.Passes S (TestValidation.readFileSync S) validate
                    (Notions.texts (TestValidation.readFileSync S)
                       (map (TestValidation.examplePath S) before))
                    (TestValidation.examplePath S name)).
  { apply check_passed.
    apply (Hall ltac:(lia) _ _ (map (TestValidation.examplePath S) after)).
    by rewrite Htested, Hsplit, map_app. }
  exists data, schema, validate. split_and!; try done.
  - by exists before, after.
  - intros Hpure.
    destruct Hpass as (content & fm & body & Hread & Hm & Hrest).
    exists content, fm, body. split; [done|]. split; [|done].
    by rewrite Hpure in Hm.
Qed.
(** ** Instances *)

Lemma validate_missing_markdown_witness :
  exists r,
    Validate.handler Demo.env (Demo.post (JObj [])) Demo.world
    = (Demo.world, Ok r)
    /\ statusCode r = 400
    /\ field r "error" = Some (JStr (js "Missing markdown content")).
Proof.
  apply (validate_missing_markdown Demo.env (Demo.post (JObj [])) Demo.world
           (JObj [])); [reflexivity|reflexivity|discriminate|reflexivity].
Defined.

Lemma validate_unreadable_body_witness :
  exists r,
    Validate.handler Demo.env (Demo.post JNull) Demo.world
    = (Demo.world, Ok r)
    /\ statusCode r = 500
    /\ field r "error" = Some (JStr (js "Internal server error"))
    /\ forall e, parsed_body (Demo.post JNull) = Throw e ->
                 field r "message" = Some (JStr (message e)).
Proof.
  apply (validate_unreadable_body Demo.env (Demo.post JNull) Demo.world);
    [reflexivity|left; reflexivity].
Defined.

Lemma schema_fetch_failure_is_400_witness :
  exists w' r,
    Validate.handler Samples.offline Demo.schema_post Demo.world = (w', Ok r)
    /\ table w' = table Demo.world
    /\ calls w' = calls Demo.world
                  ++ [Fetch (JStr (js "https://twelvety.example/schema.json"))]
    /\ statusCode r = 400
    /\ field r "error" = Some (JStr (js "Failed to fetch schema"))
    /\ field r "details" = Some (JStr (js "Schema fetch failed: 404")).
Proof.
  apply (schema_fetch_failure_is_400 Samples.offline Demo.schema_post
           Demo.world
           (object [ (js "markdown", Some (JStr Demo.partial_markdown));
                     (js "schemaUrl",
                      Some (JStr (js "https://twelvety.example/schema.json"))) ])
           (JStr Demo.partial_markdown)
           (JStr (js "https://twelvety.example/schema.json"))
           (JObj [ (js "category", JStr (js "example")) ])
           (js "some text") (js "Schema fetch failed: 404")); reflexivity.
Defined.

Lemma validate_accepts_witness :
  exists w' r,
    Validate.handler Demo.env Demo.partial_post Demo.world = (w', Ok r)
    /\ calls w' = calls Demo.world ++ []
    /\ statusCode r = 200
    /\ field r "status" = Some (JStr (js "valid"))
    /\ field r "frontmatter"
       = Some (JObj [ (js "category", JStr (js "example")) ])
    /\ field r "content" = Some (JStr (js "some text"))
    /\ field r "preview" = Some (JStr (js "<div>some text</div>")).
Proof.
  apply (validate_accepts Demo.env Demo.partial_post Demo.world
           (object [ (js "markdown", Some (JStr Demo.partial_markdown)) ])
           (JStr Demo.partial_markdown)
           (JObj [ (js "category", JStr (js "example")) ])
           (js "some text") (js "<div>some text</div>"));
    try reflexivity.
  left. reflexivity.
Defined.

Lemma schema_compile_failure_is_500_witness :
  exists w' r,
    Validate.handler Samples.strict Demo.schema_post Demo.world = (w', Ok r)
    /\ statusCode r = 500
    /\ field r "error" = Some (JStr (js "Internal server error"))
    /\ field r "message" = Some (JStr (js "schema is invalid")).
Proof.
  apply (schema_compile_failure_is_500 Samples.strict Demo.schema_post
           Demo.world
           (object [ (js "markdown", Some (JStr Demo.partial_markdown));
                     (js "schemaUrl",
                      Some (JStr (js "https://twelvety.example/schema.json"))) ])
           (JStr Demo.partial_markdown)
           (JStr (js "https://twelvety.example/schema.json"))
           (JObj [ (js "category", JStr (js "example")) ])
           Demo.schema (js "some text")
           {| ok := true; status := 200; json_body := Ok Demo.schema |}
           Samples.schema_error); reflexivity.
Defined.

Lemma success_flags_witness :
  exists content meta hasImages hasCode,
    field Demo.partial_valid "content" = Some (JStr content)
    /\ field Demo.partial_valid "metadata" = Some meta
    /\ prop meta (js "contentLength")
       = Some (JNum (Z.of_nat (length content)))
    /\ prop meta (js "hasImages") = Some (JBool hasImages)
    /\ prop meta (js "hasCode") = Some (JBool hasCode)
    /\ (hasCode = true <->
        exists before after, content = before ++ js "```" ++ after)
    /\ (hasImages = true <->
        (exists before after, content = before ++ js "<img" ++ after)
        \/ (exists before after, content = before ++ js "![" ++ after)).
Proof.
  apply (success_flags Demo.env Demo.partial_post Demo.world Demo.world
           Demo.partial_valid); reflexivity.
Defined.

Lemma wordCount_joined_witness :
  Validate.wordCount (js "two" ++ 32%N :: js "words")
  = Validate.wordCount (js "two") + Validate.wordCount (js "words").
Proof. apply (wordCount_joined (js "two") (js "words") 32). reflexivity. Defined.

Lemma build_rejects_incomplete_witness :
  exists r,
    Build.handler Demo.env Demo.partial_post Demo.world = (Demo.world, Ok r)
    /\ statusCode r = 400
    /\ field r "error"
       = Some (JStr (js "Missing required fields: markdown, projectId")).
Proof.
  apply (build_rejects_incomplete Demo.env Demo.partial_post Demo.world
           (object [ (js "markdown", Some (JStr Demo.partial_markdown)) ]));
    [reflexivity|reflexivity|discriminate|right; reflexivity].
Defined.

Lemma dispatch_writes_one_queued_row_witness :
  exists w' r,
    Build.handler Demo.env Demo.build_post Demo.world = (w', Ok r)
    /\ uuid_ctr w' = S (uuid_ctr Demo.world)
    /\ (converts (Some (JStr (js "docs"))) = true ->
        Notions.Stores Demo.env (Notions.drawn Demo.world) Demo.stored_item ->
        table w' !! Demo.uuid 0 = Some Demo.stored_item)
    /\ (converts (Some (JStr (js "docs"))) = false
        \/ ~ Notions.Stores Demo.env (Notions.drawn Demo.world)
               Demo.stored_item ->
        table w' = table Demo.world)
    /\ (converts (Some (JStr (js "docs"))) = false ->
        statusCode r = 500 /\ calls w' = calls Demo.world)
    /\ (forall k, k <> Demo.uuid 0 -> table w' !! k = table Demo.world !! k)
    /\ assoc (js "status") Demo.stored_item = Some (JStr (js "queued"))
    /\ assoc (js "projectId") Demo.stored_item = Some (JStr (js "docs"))
    /\ assoc (js "ttl") Demo.stored_item
       = Some (JNum (now Demo.world / 1000 + 220752000)).
Proof.
  apply (dispatch_writes_one_queued_row Demo.env Demo.build_post Demo.world
           (object [ (js "markdown", Some (JStr Demo.partial_markdown));
                     (js "projectId", Some (JStr (js "docs"))) ])
           (JStr Demo.partial_markdown) (JStr (js "docs"))); reflexivity.
Defined.

Lemma dispatch_without_github_config_witness :
  exists w' r,
    Build.handler Samples.unconfigured Demo.build_post Demo.world = (w', Ok r)
    /\ statusCode r = 500
    /\ field r "error" = Some (JStr (js "Build trigger failed"))
    /\ field r "message"
       = Some (JStr (js "GitHub configuration missing: GITHUB_ORG and GITHUB_REPO required"))
    /\ Notions.routes (calls w') = Notions.routes (calls Demo.world)
    /\ (Notions.Stores Samples.unconfigured (Notions.drawn Demo.world)
          Demo.stored_item ->
        table w' !! Demo.uuid 0 = Some Demo.stored_item
        /\ assoc (js "status") Demo.stored_item
           = Some (JStr (js "queued"))).
Proof.
  apply (dispatch_without_github_config Samples.unconfigured Demo.build_post
           Demo.world
           (object [ (js "markdown", Some (JStr Demo.partial_markdown));
                     (js "projectId", Some (JStr (js "docs"))) ])
           (JStr Demo.partial_markdown) (JStr (js "docs"))); reflexivity.
Defined.

Lemma accepted_build_is_found_witness :
  exists w2 r2 meta,
    Status.handler Demo.env Demo.status_get
      (Demo.world_after (Build.handler Demo.env Demo.build_post) Demo.world)
    = (w2, Ok r2)
    /\ statusCode r2 = 200
    /\ field r2 "buildId" = field (Demo.accepted 0) "buildId"
    /\ field r2 "projectId" = field (Demo.accepted 0) "projectId"
    /\ field (Demo.accepted 0) "metadata" = Some meta
    /\ field r2 "title" = prop meta (js "title")
    /\ field r2 "slug" = prop meta (js "slug")
    /\ field r2 "createdAt" = prop meta (js "createdAt").
Proof.
  apply (accepted_build_is_found Demo.env Demo.build_post Demo.status_get
           Demo.world
           (Demo.world_after (Build.handler Demo.env Demo.build_post)
              Demo.world)
           (Demo.accepted 0) (js "twelvety-builds")).
  - vm_compute. reflexivity.
  - reflexivity.
  - reflexivity.
  - reflexivity.
  - reflexivity.
  - reflexivity.
  - intros id [= <-]. apply status_get_segment.
Defined.

Lemma polling_path_reads_key_status_witness :
  (forall branch filePath serviceUrl projectId title slug ts,
     field (Build.accepted (Demo.uuid 0) branch filePath serviceUrl projectId
              title slug ts) "pollingUrl"
     = Some (JStr (serviceUrl ++ js "/api/build/" ++ Demo.uuid 0
                     ++ js "/status")))
  /\ Status.extract_buildId (path Samples.polling_get) = Some (js "status")
  /\ exists w' r,
       Status.handler Demo.env Samples.polling_get Demo.stored_world
       = (w', Ok r)
       /\ statusCode r = 404
       /\ calls w' = calls Demo.stored_world
                     ++ Spec.lookup_calls Demo.env (js "status").
Proof.
  apply (polling_path_reads_key_status Demo.env Samples.polling_get
           Demo.stored_world [] (Demo.uuid 0)); reflexivity.
Defined.

Lemma status_without_live_signal_witness :
  exists w' r,
    Status.handler Samples.unconfigured Demo.status_get Demo.stored_world
    = (w', Ok r)
    /\ statusCode r = 200
    /\ field r "workflow"
       = Some (object [ (js "status", Some (JStr (js "unknown")));
                        (js "conclusion", Some JNull);
                        (js "url", Some JNull) ])
    /\ field r "status"
       = Some (or_else (assoc (js "status") Demo.stored_item)
                 (JStr (js "queued")))
    /\ (Notions.github_configured Samples.unconfigured = false ->
        calls w' = calls Demo.stored_world
                   ++ [DynamoGet (js "twelvety-builds") (Demo.uuid 0)]).
Proof.
  apply (status_without_live_signal Samples.unconfigured Demo.status_get
           Demo.stored_world (Demo.uuid 0) (js "twelvety-builds")
           Demo.stored_item); try reflexivity.
  - apply status_get_segment.
  - left. reflexivity.
Defined.

Lemma status_urls_witness :
  exists w' r,
    Status.handler Samples.published Demo.status_get Demo.stored_world
    = (w', Ok r)
    /\ statusCode r = 200
    /\ exists urls,
         field r "urls" = Some urls
         /\ prop urls (js "site")
            = Some (JStr (js "https://docs.example/docs/"))
         /\ prop urls (js "download")
            = Some (JStr (js "https://twelvety.example/download/b-"))
         /\ prop urls (js "archive")
            = Some (JStr (js "s3://twelvety-archive/archives/docs/b-/")).
Proof.
  destruct (status_urls Samples.published Demo.status_get Demo.stored_world
              (Demo.uuid 0) (js "twelvety-builds") Demo.stored_item)
    as (w' & r & Hrun & Hok & _);
    [reflexivity|apply status_get_segment|reflexivity|reflexivity
    |reflexivity|reflexivity|].
  exists w', r. split; [exact Hrun|].
  apply Hok. left. reflexivity.
Defined.

Lemma branch_creation_failure_is_fatal_witness :
  exists w' r new,
    Build.handler Samples.branch_taken Demo.build_post Demo.world = (w', Ok r)
    /\ statusCode r = 500
    /\ field r "error" = Some (JStr (js "Build trigger failed"))
    /\ field r "message" = Some (JStr (js "Reference already exists"))
    /\ calls w' = calls Demo.world ++ new
    /\ Notions.routes new = [GitGetRef; GitCreateRef].
Proof.
  apply (branch_creation_failure_is_fatal Samples.branch_taken Demo.build_post
           Demo.world
           (object [ (js "markdown", Some (JStr Demo.partial_markdown));
                     (js "projectId", Some (JStr (js "docs"))) ])
           (JStr Demo.partial_markdown) (JStr (js "docs"))
           (js "your-org") (js "twelvety") Samples.taken); try reflexivity.
  intros w0 p. eexists. split; [reflexivity|]. by eexists _, _, _.
Defined.

Lemma accepted_dispatch_requests_witness :
  exists w' r puts p1 p2 p3 p4 p5,
    Build.handler Demo.env Demo.build_post Demo.world = (w', Ok r)
    /\ statusCode r = 202
    /\ field r "filePath" = Some (JStr (js "content/docs/index.md"))
    /\ calls w' = calls Demo.world ++ puts
         ++ [ Octokit GitGetRef p1; Octokit GitCreateRef p2;
              Octokit ReposGetContent p3;
              Octokit ReposCreateOrUpdateFileContents p4;
              Octokit ActionsCreateWorkflowDispatch p5 ]
    /\ Forall (fun c => is_octokit c = false) puts
    /\ prop p1 (js "ref") = Some (JStr (js "heads/main"))
    /\ prop p2 (js "ref") = Some (JStr (js "refs/heads/build/b-"))
    /\ prop p2 (js "sha") = Some (JStr Demo.main_sha)
    /\ prop p3 (js "path") = Some (JStr (js "content/docs/index.md"))
    /\ prop p3 (js "ref") = Some (JStr (js "build/b-"))
    /\ prop p4 (js "path") = Some (JStr (js "content/docs/index.md"))
    /\ prop p4 (js "message") = Some (JStr (js "build: Untitled [b-]"))
    /\ prop p4 (js "branch") = Some (JStr (js "build/b-"))
    /\ prop p4 (js "content") = Some (JStr Demo.partial_markdown)
    /\ prop p4 (js "sha") = None
    /\ prop p5 (js "workflow_id") = Some (JStr (js "build.yml"))
    /\ prop p5 (js "ref") = Some (JStr (js "build/b-")).
Proof.
  apply (accepted_dispatch_requests Demo.env Demo.build_post Demo.world
           (object [ (js "markdown", Some (JStr Demo.partial_markdown));
                     (js "projectId", Some (JStr (js "docs"))) ])
           (JStr Demo.partial_markdown) (JStr (js "docs"))
           (object [ (js "data", Some (object
              [ (js "object", Some (object
                   [ (js "sha", Some (JStr Demo.main_sha)) ])) ])) ])
           (object [ (js "object", Some (object
                        [ (js "sha", Some (JStr Demo.main_sha)) ])) ])
           (object [ (js "sha", Some (JStr Demo.main_sha)) ])
           (js "your-org") (js "twelvety") Demo.main_sha
           Demo.partial_markdown
           (Throw {| message := js "Not Found"; stack := [] |}));
    try reflexivity.
  all: intros w0 p; by eexists.
Defined.

Lemma ends_differ (a b c : jsstring) (x y : N) :
  x <> y -> a ++ [x] <> b ++ c ++ [y].
Proof.
  intros Hxy H. rewrite app_assoc in H. by apply app_inj_tail in H as [_ ?].
Qed.

Lemma url_of_content_file_witness :
  SearchIndex.url_of_file (js "content/docs/index.md") = js "/docs/"
  /\ SearchIndex.url_of_file (js "content/docs/intro.md") = js "/docs/intro/".
Proof.
  split.
  - apply (proj1 (url_of_content_file (js "docs/index")
                    ltac:(apply (bool_decide_unpack _); vm_compute; exact I))
             (js "/docs")).
    reflexivity.
  - apply (proj2 (url_of_content_file (js "docs/intro")
                    ltac:(apply (bool_decide_unpack _); vm_compute; exact I))).
    intros dir. apply (ends_differ (js "/docs/intr") dir (js "/inde")).
    discriminate.
Defined.

Lemma backslash_path_keeps_prefix_witness :
  SearchIndex.url_of_file
    (js "content" ++ [SearchIndex.backslash]
       ++ (js "docs" ++ [SearchIndex.backslash] ++ js "index") ++ js ".md")
  = js "content/docs/index/".
Proof.
  apply (backslash_path_keeps_prefix
           (js "docs" ++ [SearchIndex.backslash] ++ js "index")).
  apply (bool_decide_unpack _). vm_compute. exact I.
Defined.

Lemma plain_text_is_untouched_witness :
  SearchIndex.plainText (js "Plain text, with no syntax!")
  = js "Plain text, with no syntax!".
Proof.
  apply (plain_text_is_untouched (js "Plain text, with no syntax!")).
  apply (bool_decide_unpack _). vm_compute. exact I.
Defined.

Lemma intro_doc_indexed :
  Samples.intro_doc
  ∈ SearchIndex.documents Samples.site []
      (SearchIndex.contentFiles Samples.site).
Proof. apply (list_elem_of_lookup_2 _ 1%nat). reflexivity. Qed.

Lemma indexed_text_has_no_emphasis_witness :
  Forall (fun c => c <> 42 /\ c <> 95 /\ c <> 126)%N
    (SearchIndex.content Samples.intro_doc).
Proof.
  apply (indexed_text_has_no_emphasis Samples.site []
           (SearchIndex.contentFiles Samples.site) Samples.intro_doc).
  apply intro_doc_indexed.
Defined.

Lemma indexed_text_is_bounded_witness :
  exists before after text frontmatter body,
    SearchIndex.contentFiles Samples.site
    = before ++ SearchIndex.id Samples.intro_doc :: after /\
    SearchIndex.readFileSync Samples.site (SearchIndex.id Samples.intro_doc)
    = Ok text /\
    SearchIndex.matter Samples.site
      ([] ++ Notions.texts (SearchIndex.readFileSync Samples.site) before)
      text
    = Ok (frontmatter, body) /\
    (length (SearchIndex.content Samples.intro_doc) <= 1000)%nat /\
    (length (SearchIndex.content Samples.intro_doc) <= length body)%nat /\
    SearchIndex.content Samples.intro_doc
      `prefix_of` SearchIndex.plainText body /\
    prop (SearchIndex.entry Samples.intro_doc) (js "preview")
    = Some (JStr (take 200 (SearchIndex.plainText body))).
Proof.
  apply (indexed_text_is_bounded Samples.site []
           (SearchIndex.contentFiles Samples.site) Samples.intro_doc).
  apply intro_doc_indexed.
Defined.

(** The second of two files with the same unparsable text is indexed:
    gray-matter answers it from its cache. *)
Lemma index_lists_readable_files_witness :
  exists data entries,
    SearchIndex.indexData Samples.site = Some data /\
    prop data (js "documents") = Some (JArr entries) /\
    prop data (js "documentCount") = Some (JNum 3) /\
    omap (fun e => prop e (js "id")) entries
    = [ JStr (js "content/index.md"); JStr (js "content/docs/intro.md");
        JStr (js "content/docs/again.md") ].
Proof.
  destruct (index_lists_readable_files Samples.site
              (default JNull (SearchIndex.indexData Samples.site)))
    as (entries & Hdocs & Hcount & Hids & _).
  { vm_compute. reflexivity. }
  exists (default JNull (SearchIndex.indexData Samples.site)), entries.
  split; [vm_compute; reflexivity|]. split; [exact Hdocs|].
  split; [|exact Hids].
  assert (Hlen : length entries = 3%nat).
  { vm_compute in Hdocs. by injection Hdocs as <-. }
  rewrite Hcount, Hlen. reflexivity.
Defined.

Lemma bare_file_gets_defaults_witness :
  exists doc,
    SearchIndex.document Samples.site [] (js "content/index.md") = Ok doc /\
    SearchIndex.title doc = JStr (js "Untitled") /\
    SearchIndex.category doc = JStr (js "uncategorized") /\
    SearchIndex.tags doc = JArr [] /\
    SearchIndex.audience doc = JArr [] /\
    SearchIndex.dateAdded doc = JStr (js "2024-11-06").
Proof.
  apply (bare_file_gets_defaults Samples.site [] (js "content/index.md")
           (js "Welcome.") (js "Welcome.") (js "2024-11-06")
           (js "00:00:00.000Z") (JObj [])); try reflexivity.
  - discriminate.
  - apply (bool_decide_unpack _). vm_compute. exact I.
Defined.

Lemma summary_counts_add_up_witness :
  [js "content/example/good.md"; js "content/example/tagged.md"] <> []
  /\ (1 + 1 = length [js "content/example/good.md";
                      js "content/example/tagged.md"])%nat.
Proof.
  apply (summary_counts_add_up
           (Samples.examples [js "good.md"; js "tagged.md"; js "notes.txt"])
           {| TestValidation.testFiles :=
                [js "content/example/good.md"; js "content/example/tagged.md"];
              TestValidation.passCount := 1;
              TestValidation.failCount := 1 |}).
  vm_compute. reflexivity.
Defined.

Lemma exit_zero_needs_every_example_to_pass_witness :
  exists data schema validate,
    TestValidation.siteData (Samples.examples [js "good.md"; js "notes.txt"])
    = Ok data /\
    prop data (js "frontmatterSchema") = Some schema /\
    TestValidation.compile (Samples.examples [js "good.md"; js "notes.txt"])
      schema = Ok validate /\
    (exists before after,
       List.filter (TestValidation.ends_with (js ".md"))
         [js "good.md"; js "notes.txt"]
       = before ++ js "good.md" :: after /\
       Notions.Passes (Samples.examples [js "good.md"; js "notes.txt"])
         (TestValidation.readFileSync
            (Samples.examples [js "good.md"; js "notes.txt"]))
         validate
         (Notions.texts
            (TestValidation.readFileSync
               (Samples.examples [js "good.md"; js "notes.txt"]))
            (map (TestValidation.examplePath
                    (Samples.examples [js "good.md"; js "notes.txt"]))
               before))
         (js "content/example/good.md")) /\
    ((forall seen text,
        TestValidation.matter
          (Samples.examples [js "good.md"; js "notes.txt"]) seen text
        = TestValidation.matter
            (Samples.examples [js "good.md"; js "notes.txt"]) [] text) ->
     Notions.Passes (Samples.examples [js "good.md"; js "notes.txt"])
       (TestValidation.readFileSync
          (Samples.examples [js "good.md"; js "notes.txt"]))
       validate [] (js "content/example/good.md")).
Proof.
  apply (exit_zero_needs_every_example_to_pass
           (Samples.examples [js "good.md"; js "notes.txt"])
           [js "good.md"; js "notes.txt"] (js "good.md")).
  - vm_compute. reflexivity.
  - reflexivity.
  - apply (bool_decide_unpack _). vm_compute. exact I.
  - vm_compute. reflexivity.
Defined.

(** A dispatch whose [projectId] does not convert to a string is answered
    500 with nothing stored and nothing sent. *)
Example opaque_project_is_refused :
  exists w' r,
    Build.handler Demo.env Samples.opaque_post Demo.world = (w', Ok r)
    /\ statusCode r = 500
    /\ field r "error" = Some (JStr (js "Build trigger failed"))
    /\ table w' = table Demo.world
    /\ calls w' = calls Demo.world.
Proof.
  eexists _, _. split.
  - apply (build_unconvertible Demo.env Samples.opaque_post Demo.world
             (object [ (js "markdown", Some (JStr Demo.partial_markdown));
                       (js "projectId", Some Samples.opaque_project) ])
             (JStr Demo.partial_markdown) Samples.opaque_project);
      reflexivity.
  - by split_and!.
Qed.

(** The status of a record with such a [projectId] is answered 500 when
    the site URL is configured. *)
Example opaque_record_is_500 :
  exists w' r,
    Status.handler Samples.published Demo.status_get Samples.opaque_world
    = (w', Ok r)
    /\ statusCode r = 500
    /\ field r "error" = Some (JStr (js "Status check failed")).
Proof. eexists _, _. split; [vm_compute; reflexivity|]. by split. Qed.
